(** * The WinX-Ray exporter of pymontecarlo

    A shallow embedding of [pymontecarlo/program/winxray/exporter.py]: the
    class [Exporter] that translates a program-independent [Options] object
    into the options file ([OptionsFile], extension [.wxc]) read by WinX-Ray.

    The exporter is written against three collaborators that live outside the
    package: the Python runtime (numbers, [math.degrees], [os.path.join],
    [warnings.warn]), pymontecarlo's option classes and exporter base class,
    and winxraytools' [OptionsFile].  Each of them is represented by the
    interface the exporter uses: a type class for the numbers, inductive types
    for the option classes, a finite map for the options file.

    The methods of the exporter are functions in a monad of state and
    exceptions: the state holds the options file being filled, the warnings
    issued and the files written.  The file has the embedding first, then a
    concrete runtime on binary64 numbers with sample options, the vocabulary
    of the specification, and last the lemmas and the properties of the
    exporter. *)

From Stdlib Require Import ZArith Floats Ascii.
From stdpp Require Import gmap strings list fin_maps.

Set Default Proof Using "Type".

Local Open Scope Z_scope.
Local Open Scope string_scope.

(** ** The Python runtime *)

(** The numbers the exporter computes with.  The attributes of an [Options]
    object are Python numbers ([int] or [float]); the exporter only applies
    the operators below to them, and their meaning is the runtime's.  [py_int z]
    is the [int] object [z], [py_float z] the [float] literal of integral value
    [z] (as [1000.0] or [1e9]); decidable equality is identity of values.
    The operators are total: the numbers are taken in the range where the
    arithmetic of the exporter raises neither [OverflowError] nor
    [ZeroDivisionError]. *)
Class PyNumber (num : Type) := {
  num_eq_dec :: EqDecision num;
  py_int : Z → num;
  py_float : Z → num;
  py_add : num → num → num;
  py_sub : num → num → num;
  py_mul : num → num → num;
  py_truediv : num → num → num;
  py_floordiv : num → num → num;
  py_lt : num → num → bool;
  py_eq : num → num → bool;
  math_degrees : num → num
}.

(** [sum(t)] of a pair: the built-in starts from the [int] zero. *)
Definition py_sum2 `{PyNumber num} (t : num * num) : num :=
  py_add (py_add (py_int 0) t.1) t.2.

(** [min(xs)]: the first of the smallest items, [None] on an empty sequence
    (where Python raises [ValueError]). *)
Definition py_min `{PyNumber num} (xs : list num) : option num :=
  match xs with
  | [] => None
  | x :: rest => Some (fold_left (λ m y, if py_lt y m then y else m) rest x)
  end.

(** ** pymontecarlo: options *)

(** *** Beam *)

Inductive BeamClass := GaussianBeam | PencilBeam | OtherBeam (clasz : string).

Record Beam (num : Type) := {
  beam_class : BeamClass;
  energy_eV : num;
  diameter_m : num;
  origin_m : num * num * num
}.
Arguments beam_class {num} _.
Arguments energy_eV {num} _.
Arguments diameter_m {num} _.
Arguments origin_m {num} _.

(** *** Geometry *)

Inductive Particle := ELECTRON | PHOTON | POSITRON.

Record Material (num : Type) := {
  composition : list (Z * num);
  density_kg_m3 : num;
  absorption_energy_eV : Particle → num
}.
Arguments composition {num} _.
Arguments density_kg_m3 {num} _.
Arguments absorption_energy_eV {num} _ _.

Record Body (num : Type) := { material : Material num }.
Arguments material {num} _.

Inductive GeometryClass := Substrate | OtherGeometry (clasz : string).

Record Geometry (num : Type) := {
  geometry_class : GeometryClass;
  body : Body num;
  tilt_rad : num;
  rotation_rad : num;
  get_materials : list (Material num)
}.
Arguments geometry_class {num} _.
Arguments body {num} _.
Arguments tilt_rad {num} _.
Arguments rotation_rad {num} _.
Arguments get_materials {num} _.

(** *** Detectors *)

(** The attributes of a [_DelimitedDetector]: its opening (elevation and
    azimuth ranges) and the take-off angle and solid angle it reports. *)
Record Delimited (num : Type) := {
  elevation_rad : num * num;
  azimuth_rad : num * num;
  takeoffangle_rad : num;
  solidangle_sr : num
}.
Arguments elevation_rad {num} _.
Arguments azimuth_rad {num} _.
Arguments takeoffangle_rad {num} _.
Arguments solidangle_sr {num} _.

(** The detector classes the exporter registers, and any other class, which
    may or may not derive from [_DelimitedDetector].  The three photon
    detectors are delimited; a channel count is at least one. *)
Inductive Detector (num : Type) :=
| BackscatteredElectronEnergyDetector (channels : positive)
| BackscatteredElectronPolarAngularDetector (channels : positive)
| PhotonDepthDetector (delim : Delimited num) (channels : positive)
| PhotonIntensityDetector (delim : Delimited num)
| PhotonSpectrumDetector (delim : Delimited num) (channels : positive)
| ElectronFractionDetector
| TimeDetector
| OtherDetector (clasz : string) (delim : option (Delimited num)).
Arguments BackscatteredElectronEnergyDetector {num} _.
Arguments BackscatteredElectronPolarAngularDetector {num} _.
Arguments PhotonDepthDetector {num} _ _.
Arguments PhotonIntensityDetector {num} _.
Arguments PhotonSpectrumDetector {num} _ _.
Arguments ElectronFractionDetector {num}.
Arguments TimeDetector {num}.
Arguments OtherDetector {num} _ _.

(** [isinstance(det, _DelimitedDetector)], with the delimitation. *)
Definition delimitation {num} (det : Detector num) : option (Delimited num) :=
  match det with
  | PhotonDepthDetector d _ | PhotonIntensityDetector d
  | PhotonSpectrumDetector d _ => Some d
  | OtherDetector _ od => od
  | _ => None
  end.

(** Modelled from the spec: [equivalent_opening] of
    [pymontecarlo.options.detector], which is not part of this package.
    Two delimited detectors are equivalent when their angular openings match
    exactly. *)
Definition equivalent_opening `{PyNumber num} (d1 d2 : Delimited num) : bool :=
  bool_decide (elevation_rad d1 = elevation_rad d2 ∧ azimuth_rad d1 = azimuth_rad d2).

(** *** Limits *)

Inductive Limit (num : Type) :=
| ShowersLimit (showers : Z)
| TimeLimit (time_s : num)
| OtherLimit (clasz : string).
Arguments ShowersLimit {num} _.
Arguments TimeLimit {num} _.
Arguments OtherLimit {num} _.

(** *** Models *)

Inductive ModelType :=
| ELASTIC_CROSS_SECTION
| IONIZATION_CROSS_SECTION
| IONIZATION_POTENTIAL
| RANDOM_NUMBER_GENERATOR
| DIRECTION_COSINE
| ENERGY_LOSS
| MASS_ABSORPTION_COEFFICIENT
| OtherModelType (name : string).

(** A model is an attribute of its model type, as
    [ELASTIC_CROSS_SECTION.rutherford]. *)
Record Model := Attr { type : ModelType; attr : string }.

Global Instance ModelType_eq_dec : EqDecision ModelType.
Proof. solve_decision. Defined.

Global Instance Model_eq_dec : EqDecision Model.
Proof. solve_decision. Defined.

Definition ModelType_tag (t : ModelType) : nat + string :=
  match t with
  | ELASTIC_CROSS_SECTION => inl 0%nat
  | IONIZATION_CROSS_SECTION => inl 1%nat
  | IONIZATION_POTENTIAL => inl 2%nat
  | RANDOM_NUMBER_GENERATOR => inl 3%nat
  | DIRECTION_COSINE => inl 4%nat
  | ENERGY_LOSS => inl 5%nat
  | MASS_ABSORPTION_COEFFICIENT => inl 6%nat
  | OtherModelType s => inr s
  end.

Global Instance ModelType_countable : Countable ModelType.
Proof.
  refine (inj_countable' ModelType_tag
    (λ t, match t with
          | inl 0%nat => ELASTIC_CROSS_SECTION
          | inl 1%nat => IONIZATION_CROSS_SECTION
          | inl 2%nat => IONIZATION_POTENTIAL
          | inl 3%nat => RANDOM_NUMBER_GENERATOR
          | inl 4%nat => DIRECTION_COSINE
          | inl 5%nat => ENERGY_LOSS
          | inl _ => MASS_ABSORPTION_COEFFICIENT
          | inr s => OtherModelType s
          end) _).
  by intros [].
Defined.

Global Instance Model_countable : Countable Model.
Proof.
  refine (inj_countable' (λ m, (type m, attr m)) (λ p, Attr p.1 p.2) _).
  by intros [].
Defined.

(** *** Options *)

Record Options (num : Type) := {
  name : string;
  beam : Beam num;
  geometry : Geometry num;
  detectors : list (string * Detector num);
  limits : list (Limit num);
  models : list Model
}.
Arguments name {num} _.
Arguments beam {num} _.
Arguments geometry {num} _.
Arguments detectors {num} _.
Arguments limits {num} _.
Arguments models {num} _.

(** [options.detectors.iterclass(_DelimitedDetector)], names dropped: the
    delimited detectors in the order of the collection. *)
Definition iterclass_delimited {num} (dets : list (string * Detector num)) :
    list (Delimited num) :=
  omap (λ nd, delimitation nd.2) dets.

(** ** winxraytools: the options file *)

(** The constants of [winxraytools.configuration] the exporter refers to, one
    module per Python module. *)
Module EvPerChannel.
Inductive t := TYPE_5 | TYPE_10 | TYPE_20 | TYPE_40.
End EvPerChannel.

Module ElectronElasticCrossSection.
Inductive t :=
| TYPE_MOTTTABULATED
| TYPE_MOTTTABULATEDLINEAR
| TYPE_MOTTTABULATEDPOWERLAW
| TYPE_MOTTTABULATEDCUBICSPLINE
| TYPE_MOTTPARAMETRIZEDHD
| TYPE_RUTHERFORD
| TYPE_RUTHERFORDRELATIVISTIC.
End ElectronElasticCrossSection.

Module IonizationCrossSection.
Inductive t := TYPE_CASNATI.
End IonizationCrossSection.

Module IonizationPotential.
Inductive t := TYPE_JOY_LUO.
End IonizationPotential.

Module RandomNumberGenerator.
Inductive t := TYPE_RAN1 | TYPE_RAN2 | TYPE_RAN3 | TYPE_RAN4.
End RandomNumberGenerator.

Module DirectionCosine.
Inductive t := TYPE_DEMERS.
End DirectionCosine.

Module EnergyLoss.
Inductive t := TYPE_JOY_LUO.
End EnergyLoss.

Module MassAbsorptionCoefficient.
Inductive t := TYPE_HEINRICH | TYPE_HENKE | TYPE_THINH_LEROUX.
End MassAbsorptionCoefficient.

(** What a setter of [OptionsFile] is given. *)
Inductive value (num : Type) :=
| VBool (b : bool)
| VInt (z : Z)
| VNum (x : num)
| VStr (s : string)
| VElements (zs : list Z) (wfs : list num)
| VEvPerChannel (c : EvPerChannel.t)
| VElectronElasticCrossSection (c : ElectronElasticCrossSection.t)
| VIonizationCrossSection (c : IonizationCrossSection.t)
| VIonizationPotential (c : IonizationPotential.t)
| VRandomNumberGenerator (c : RandomNumberGenerator.t)
| VDirectionCosine (c : DirectionCosine.t)
| VEnergyLoss (c : EnergyLoss.t)
| VMassAbsorptionCoefficient (c : MassAbsorptionCoefficient.t).
Arguments VBool {num} _.
Arguments VInt {num} _.
Arguments VNum {num} _.
Arguments VStr {num} _.
Arguments VElements {num} _ _.
Arguments VEvPerChannel {num} _.
Arguments VElectronElasticCrossSection {num} _.
Arguments VIonizationCrossSection {num} _.
Arguments VIonizationPotential {num} _.
Arguments VRandomNumberGenerator {num} _.
Arguments VDirectionCosine {num} _.
Arguments VEnergyLoss {num} _.
Arguments VMassAbsorptionCoefficient {num} _.

(** An [OptionsFile] is the record of what its setters stored: [setX(v)]
    stores [v] under ["X"] and leaves the other entries as they are. *)
Abbreviation OptionsFile num := (gmap string (value num)).

(** ** Effects: exceptions, warnings, the options file, the file system *)

Inductive exn :=
| ExporterException (msg : string)
| KeyError (key : Model)
| ValueError (msg : string)
| AttributeError (attr : string).

Inductive Warning := ExporterWarning (message : string).

Inductive result (A : Type) := Ok (a : A) | Raise (e : exn).
Arguments Ok {A} _.
Arguments Raise {A} _.

(** The state an export runs in: the [OptionsFile] object being filled
    ([wxrops] in the source), the warnings issued so far, and the files
    written. *)
Record world (num : Type) := World {
  wxrops : OptionsFile num;
  warned : list Warning;
  files : gmap string (OptionsFile num)
}.
Arguments World {num} _ _ _.
Arguments wxrops {num} _.
Arguments warned {num} _.
Arguments files {num} _.

(** A method of the exporter: from a state it returns a value and the next
    state, or raises. *)
Definition M (num A : Type) : Type := world num → result (A * world num).

Global Instance M_ret {num} : MRet (M num) := λ A a w, Ok (a, w).

(** Sequencing: an exception of the first method ends the run. *)
Global Instance M_bind {num} : MBind (M num) := λ A B f m w,
  match m w with
  | Ok (a, w') => f a w'
  | Raise e => Raise e
  end.

(** [raise e] *)
Definition raise {num A} (e : exn) : M num A := λ _, Raise e.

(** [wxrops.setX(v)] *)
Definition setopt {num} (key : string) (v : value num) : M num unit := λ w,
  Ok (tt, World (<[key := v]> (wxrops w)) (warned w) (files w)).

(** [warnings.warn(message, ExporterWarning)] *)
Definition warn {num} (message : string) : M num unit := λ w,
  Ok (tt, World (wxrops w) (warned w ++ [ExporterWarning message]) (files w)).

(** [for x in xs: body(x)] *)
Fixpoint for_each {num A} (body : A → M num unit) (xs : list A) : M num unit :=
  match xs with
  | [] => mret tt
  | x :: rest => body x ;; for_each body rest
  end.

(** [if c: m] *)
Definition when {num} (c : bool) (m : M num unit) : M num unit :=
  if c then m else mret tt.

(** [types[model]] on a dictionary keyed by models. *)
Definition getitem {num V} (types : gmap Model V) (model : Model) : M num V :=
  match types !! model with
  | Some v => mret v
  | None => raise (KeyError model)
  end.

(** [detector.channels] *)
Definition channels {num} (detector : Detector num) : M num positive :=
  match detector with
  | BackscatteredElectronEnergyDetector c
  | BackscatteredElectronPolarAngularDetector c
  | PhotonDepthDetector _ c
  | PhotonSpectrumDetector _ c => mret c
  | _ => raise (AttributeError "channels")
  end.

(** [wxrops = OptionsFile()] *)
Definition new_OptionsFile {num} (fresh : OptionsFile num) : M num unit := λ w,
  Ok (tt, World fresh (warned w) (files w)).

(** The object [wxrops] refers to. *)
Definition the_wxrops {num} : M num (OptionsFile num) := λ w, Ok (wxrops w, w).

(** [obj.write(filepath)]: the options file [obj] becomes the content of
    [filepath]. *)
Definition write {num} (obj : OptionsFile num) (filepath : string) : M num unit := λ w,
  Ok (tt, World (wxrops w) (warned w) (<[filepath := obj]> (files w))).

(** ** pymontecarlo: the exporter base class *)

Section BaseExporter.
Context {num : Type}.

(** Modelled from the spec: [_export_beam] of
    [pymontecarlo.program.exporter.Exporter], the base class, which is not part
    of this package.  Each part of the options is handed to the method
    registered for its class (for a model: its model type); a kind with no
    registered method is silently ignored. *)
Definition _Exporter_export_beam
    (_beam_exporters : BeamClass → option (Options num → Beam num → M num unit))
    (options : Options num) : M num unit :=
  match _beam_exporters (beam_class (beam options)) with
  | Some method => method options (beam options)
  | None => mret tt
  end.

(** Modelled from the spec: [_export_geometry] of the base class, dispatching
    on the class of the geometry as above. *)
Definition _Exporter_export_geometry
    (_geometry_exporters : GeometryClass → option (Options num → Geometry num → M num unit))
    (options : Options num) : M num unit :=
  match _geometry_exporters (geometry_class (geometry options)) with
  | Some method => method options (geometry options)
  | None => mret tt
  end.

(** Modelled from the spec: [_export_detectors] of the base class; every
    detector of the collection, in order, goes to the method of its class, and
    unsupported detector kinds are silently ignored. *)
Definition _Exporter_export_detectors
    (_detector_exporters : Detector num → option (Options num → string → Detector num → M num unit))
    (options : Options num) : M num unit :=
  for_each (λ item : string * Detector num,
      match _detector_exporters item.2 with
      | Some method => method options item.1 item.2
      | None => mret tt
      end)
    (detectors options).

(** Modelled from the spec: [_export_limits] of the base class, dispatching
    each limit on its class. *)
Definition _Exporter_export_limits
    (_limit_exporters : Limit num → option (Options num → Limit num → M num unit))
    (options : Options num) : M num unit :=
  for_each (λ limit,
      match _limit_exporters limit with
      | Some method => method options limit
      | None => mret tt
      end)
    (limits options).

(** Modelled from the spec: [_export_models] of the base class, dispatching
    each selected model on its model type; a model of a type with no
    registered method is ignored. *)
Definition _Exporter_export_models
    (_model_exporters : ModelType → option (Options num → Model → M num unit))
    (options : Options num) : M num unit :=
  for_each (λ model,
      match _model_exporters (type model) with
      | Some method => method options model
      | None => mret tt
      end)
    (models options).

End BaseExporter.

(** ** The exporter to WXC: class [Exporter] *)

Section Exporter.
Context `{PyNumber num}.

(** The state of a newly constructed [OptionsFile()]. *)
Variable OptionsFile_new : OptionsFile num.

(** [os.path.join] of the platform. *)
Variable os_path_join : string → string → string.

Definition _beam_gaussian (options : Options num) (beam : Beam num) : M num unit :=
  let energy_keV := py_truediv (energy_eV beam) (py_float 1000) in
  setopt "MultiEnergy" (VBool false);;
  setopt "IncidentEnergy_keV" (VNum energy_keV);;
  setopt "StartEnergy_keV" (VNum energy_keV);;
  setopt "EndEnergy_keV" (VNum energy_keV);;
  setopt "StepEnergy_keV" (VInt 1);;
  setopt "NbStepEnergy" (VInt 1);;
  setopt "BeamDiameter_nm" (VNum (py_mul (diameter_m beam) (py_float (10 ^ 9))));;
  let '(x, y, z) := origin_m beam in
  when (negb (py_eq x (py_int 0) && py_eq y (py_int 0) && py_eq z (py_int 0)))
    (warn "No beam position in WinX-Ray").

Definition _geometry_substrate (options : Options num) (geometry_ : Geometry num) :
    M num unit :=
  let material := material (body geometry_) in
  let composition := composition material in
  let zs := fst <$> composition in
  let wfs := snd <$> composition in
  setopt "Elements" (VElements zs wfs);;
  warn "WinXRay does not support user defined density";;
  when (negb (py_eq (tilt_rad (geometry options)) (py_float 0)))
    (warn "WinXRay does not support sample tilt. Use beam tilt instead.");;
  when (negb (py_eq (rotation_rad (geometry options)) (py_float 0)))
    (warn "WinXRay does not support sample rotation.");;
  abs_electron_eV ←
    match py_min ((λ mat, absorption_energy_eV mat ELECTRON) <$> get_materials (geometry options)) with
    | Some m => mret m
    | None => raise (ValueError "min() arg is an empty sequence")
    end;
  setopt "MinimumElectronEnergy_eV" (VNum abs_electron_eV).

Definition _detector_backscattered_electron_energy
    (options : Options num) (name : string) (detector : Detector num) : M num unit :=
  setopt "ComputeBSEDistribution" (VBool true);;
  setopt "ComputeBSEEnergy" (VBool true);;
  c ← channels detector;
  setopt "NbBSEEnergy" (VInt (Z.pos c)).

Definition _detector_backscattered_electron_polar_angular
    (options : Options num) (name : string) (detector : Detector num) : M num unit :=
  setopt "ComputeBSEDistribution" (VBool true);;
  setopt "ComputeBSEAngular" (VBool true);;
  c ← channels detector;
  setopt "NbBSEAngular" (VInt (Z.pos c)).

Definition _detector_photondetector
    (options : Options num) (name : string) (detector : Detector num) : M num unit :=
  setopt "XrayCompute" (VBool true);;
  setopt "XrayComputeCharacteristic" (VBool true);;
  c ← channels detector;
  setopt "NumberFilm" (VInt (Z.pos c)).

Definition _detector_photon_intensity
    (options : Options num) (name : string) (detector : Detector num) : M num unit :=
  setopt "XrayCompute" (VBool true);;
  setopt "XrayComputeCharacteristic" (VBool true).

Definition _detector_photon_spectrum
    (options : Options num) (name : string) (detector : Detector num) : M num unit :=
  setopt "XrayCompute" (VBool true);;
  setopt "XrayComputeBackground" (VBool true);;
  setopt "XrayComputeCharacteristic" (VBool true);;
  c ← channels detector;
  let ev_per_channel := py_truediv (energy_eV (beam options)) (py_int (Z.pos c)) in
  if py_lt ev_per_channel (py_int 10) then
    setopt "TypeEVChannel" (VEvPerChannel EvPerChannel.TYPE_5);;
    setopt "NumberChannel" (VNum (py_floordiv (energy_eV (beam options)) (py_int 5)))
  else if py_lt ev_per_channel (py_int 20) then
    setopt "TypeEVChannel" (VEvPerChannel EvPerChannel.TYPE_10);;
    setopt "NumberChannel" (VNum (py_floordiv (energy_eV (beam options)) (py_int 10)))
  else if py_lt ev_per_channel (py_int 40) then
    setopt "TypeEVChannel" (VEvPerChannel EvPerChannel.TYPE_20);;
    setopt "NumberChannel" (VNum (py_floordiv (energy_eV (beam options)) (py_int 20)))
  else
    setopt "TypeEVChannel" (VEvPerChannel EvPerChannel.TYPE_40);;
    setopt "NumberChannel" (VNum (py_floordiv (energy_eV (beam options)) (py_int 40))).

Definition _detector_electron_fraction
    (options : Options num) (name : string) (detector : Detector num) : M num unit :=
  setopt "ComputeBSEDistribution" (VBool true);;
  setopt "ComputeBSEEnergy" (VBool true).

Definition _detector_time
    (options : Options num) (name : string) (detector : Detector num) : M num unit :=
  mret tt.

Definition _limit_showers (options : Options num) (limit : Limit num) : M num unit :=
  match limit with
  | ShowersLimit showers => setopt "NbElectron" (VInt showers)
  | _ => raise (AttributeError "showers")
  end.

(** The dictionaries [types] of the model methods. *)
Definition _model_elastic_cross_section_types : gmap Model ElectronElasticCrossSection.t :=
  list_to_map
    [(Attr ELASTIC_CROSS_SECTION "mott_czyzewski1990", ElectronElasticCrossSection.TYPE_MOTTTABULATED);
     (Attr ELASTIC_CROSS_SECTION "mott_czyzewski1990_linear", ElectronElasticCrossSection.TYPE_MOTTTABULATEDLINEAR);
     (Attr ELASTIC_CROSS_SECTION "mott_czyzewski1990_powerlaw", ElectronElasticCrossSection.TYPE_MOTTTABULATEDPOWERLAW);
     (Attr ELASTIC_CROSS_SECTION "mott_czyzewski1990_cubicspline", ElectronElasticCrossSection.TYPE_MOTTTABULATEDCUBICSPLINE);
     (Attr ELASTIC_CROSS_SECTION "mott_demers", ElectronElasticCrossSection.TYPE_MOTTPARAMETRIZEDHD);
     (Attr ELASTIC_CROSS_SECTION "rutherford", ElectronElasticCrossSection.TYPE_RUTHERFORD);
     (Attr ELASTIC_CROSS_SECTION "rutherford_relativistic", ElectronElasticCrossSection.TYPE_RUTHERFORDRELATIVISTIC)].

Definition _model_ionization_cross_section_types : gmap Model IonizationCrossSection.t :=
  list_to_map
    [(Attr IONIZATION_CROSS_SECTION "casnati1982", IonizationCrossSection.TYPE_CASNATI)].

Definition _model_ionization_potential_types : gmap Model IonizationPotential.t :=
  list_to_map
    [(Attr IONIZATION_POTENTIAL "joy_luo1989", IonizationPotential.TYPE_JOY_LUO)].

Definition _model_random_number_generator_types : gmap Model RandomNumberGenerator.t :=
  list_to_map
    [(Attr RANDOM_NUMBER_GENERATOR "press1966_rand1", RandomNumberGenerator.TYPE_RAN1);
     (Attr RANDOM_NUMBER_GENERATOR "press1966_rand2", RandomNumberGenerator.TYPE_RAN2);
     (Attr RANDOM_NUMBER_GENERATOR "press1966_rand3", RandomNumberGenerator.TYPE_RAN3);
     (Attr RANDOM_NUMBER_GENERATOR "press1966_rand4", RandomNumberGenerator.TYPE_RAN4)].

Definition _model_direction_cosine_types : gmap Model DirectionCosine.t :=
  list_to_map
    [(Attr DIRECTION_COSINE "demers2000", DirectionCosine.TYPE_DEMERS)].

Definition _model_energy_loss_types : gmap Model EnergyLoss.t :=
  list_to_map
    [(Attr ENERGY_LOSS "joy_luo1989", EnergyLoss.TYPE_JOY_LUO)].

Definition _model_mass_absorption_coefficient_types : gmap Model MassAbsorptionCoefficient.t :=
  list_to_map
    [(Attr MASS_ABSORPTION_COEFFICIENT "heinrich_ixcom11", MassAbsorptionCoefficient.TYPE_HEINRICH);
     (Attr MASS_ABSORPTION_COEFFICIENT "henke1993", MassAbsorptionCoefficient.TYPE_HENKE);
     (Attr MASS_ABSORPTION_COEFFICIENT "thinh_leroux1979", MassAbsorptionCoefficient.TYPE_THINH_LEROUX)].

Definition _model_elastic_cross_section (options : Options num) (model : Model) : M num unit :=
  c ← getitem _model_elastic_cross_section_types model;
  setopt "TypeElectronElasticCrossSection" (VElectronElasticCrossSection c).

Definition _model_ionization_cross_section (options : Options num) (model : Model) : M num unit :=
  c ← getitem _model_ionization_cross_section_types model;
  setopt "TypeIonizationCrossSection" (VIonizationCrossSection c).

Definition _model_ionization_potential (options : Options num) (model : Model) : M num unit :=
  c ← getitem _model_ionization_potential_types model;
  setopt "TypeIonisationPotential" (VIonizationPotential c).

Definition _model_random_number_generator (options : Options num) (model : Model) : M num unit :=
  c ← getitem _model_random_number_generator_types model;
  setopt "TypeRandomGenerator" (VRandomNumberGenerator c).

Definition _model_direction_cosine (options : Options num) (model : Model) : M num unit :=
  c ← getitem _model_direction_cosine_types model;
  setopt "TypeDirectionCosines" (VDirectionCosine c).

Definition _model_energy_loss (options : Options num) (model : Model) : M num unit :=
  c ← getitem _model_energy_loss_types model;
  setopt "TypeEnergyLoss" (VEnergyLoss c).

Definition _model_mass_absorption_coefficient (options : Options num) (model : Model) : M num unit :=
  c ← getitem _model_mass_absorption_coefficient_types model;
  setopt "TypeMac" (VMassAbsorptionCoefficient c).

(** The registries filled by [__init__], keyed by the class of the object
    (for a model: by its model type). *)
Definition _beam_exporters (clasz : BeamClass) :
    option (Options num → Beam num → M num unit) :=
  match clasz with
  | GaussianBeam => Some _beam_gaussian
  | _ => None
  end.

Definition _geometry_exporters (clasz : GeometryClass) :
    option (Options num → Geometry num → M num unit) :=
  match clasz with
  | Substrate => Some _geometry_substrate
  | _ => None
  end.

Definition _detector_exporters (detector : Detector num) :
    option (Options num → string → Detector num → M num unit) :=
  match detector with
  | BackscatteredElectronEnergyDetector _ => Some _detector_backscattered_electron_energy
  | BackscatteredElectronPolarAngularDetector _ =>
      Some _detector_backscattered_electron_polar_angular
  | PhotonDepthDetector _ _ => Some _detector_photondetector
  | PhotonIntensityDetector _ => Some _detector_photon_intensity
  | PhotonSpectrumDetector _ _ => Some _detector_photon_spectrum
  | ElectronFractionDetector => Some _detector_electron_fraction
  | TimeDetector => Some _detector_time
  | OtherDetector _ _ => None
  end.

Definition _limit_exporters (limit : Limit num) :
    option (Options num → Limit num → M num unit) :=
  match limit with
  | ShowersLimit _ => Some _limit_showers
  | _ => None
  end.

Definition _model_exporters (type : ModelType) :
    option (Options num → Model → M num unit) :=
  match type with
  | ELASTIC_CROSS_SECTION => Some _model_elastic_cross_section
  | IONIZATION_CROSS_SECTION => Some _model_ionization_cross_section
  | IONIZATION_POTENTIAL => Some _model_ionization_potential
  | RANDOM_NUMBER_GENERATOR => Some _model_random_number_generator
  | DIRECTION_COSINE => Some _model_direction_cosine
  | ENERGY_LOSS => Some _model_energy_loss
  | MASS_ABSORPTION_COEFFICIENT => Some _model_mass_absorption_coefficient
  | OtherModelType _ => None
  end.

Definition _export_detectors (options : Options num) : M num unit :=
  (* Deactivate all detectors *)
  setopt "XrayCompute" (VBool false);;
  setopt "XrayComputeBackground" (VBool false);;
  setopt "XrayComputeCharacteristic" (VBool false);;
  setopt "ComputeBSEDistribution" (VBool false);;
  setopt "ComputeBSEDepth" (VBool false);;
  setopt "ComputeBSERadial" (VBool false);;
  setopt "ComputeBSESpatial" (VBool false);;
  setopt "ComputeBSELateral" (VBool false);;
  setopt "ComputeBSEEnergy" (VBool false);;
  setopt "ComputeBSEAngular" (VBool false);;
  setopt "ComputeSEDistribution" (VBool false);;
  setopt "ComputeEnergyLossDistribution" (VBool false);;
  setopt "ComputeEnergyLossDepth" (VBool false);;
  setopt "ComputeEnergyLossLateral" (VBool false);;
  setopt "ComputeEnergyLossSpatial" (VBool false);;
  setopt "ComputeEnergyLossRadial" (VBool false);;
  setopt "ComputeElectronDistribution" (VBool false);;
  setopt "ComputeElectronDepth" (VBool false);;
  setopt "ComputeElectronRadial" (VBool false);;
  setopt "ComputeElectronSpatial" (VBool false);;
  setopt "ComputeElectronLateral" (VBool false);;
  (* Perform detector export *)
  _Exporter_export_detectors _detector_exporters options;;
  (* Detector position *)
  let dets := iterclass_delimited (detectors options) in
  when (2 <=? length dets)%nat
    (let c := zip_with equivalent_opening (removelast dets) (tail dets) in
     when (negb (forallb id c))
       (raise (ExporterException "Some delimited detectors do not have the same opening")));;
  match dets with
  | [] => mret tt
  | det0 :: _ =>
      let toa_deg := math_degrees (takeoffangle_rad det0) in
      let phi_deg := math_degrees (py_truediv (py_sum2 (azimuth_rad det0)) (py_float 2)) in
      setopt "TOA_deg" (VNum toa_deg);;
      setopt "AngleThetaDetector_deg" (VNum (py_sub (py_float 90) toa_deg));;
      setopt "AnglePhiDetector_deg" (VNum phi_deg);;
      setopt "UserDefineSolidAngle" (VBool true);;
      setopt "SolidAngle_sr" (VNum (solidangle_sr det0))
  end.

(** Modelled from the spec: [_run_exporters] of the base class, which is not
    part of this package; the parts of the options are exported in the order
    the data model lists them. *)
Definition _run_exporters (options : Options num) : M num unit :=
  _Exporter_export_beam _beam_exporters options;;
  _Exporter_export_geometry _geometry_exporters options;;
  _export_detectors options;;
  _Exporter_export_limits _limit_exporters options;;
  _Exporter_export_models _model_exporters options.

Definition export_wxroptions (options : Options num) (dirpath : option string) :
    M num (OptionsFile num) :=
  new_OptionsFile OptionsFile_new;;
  match dirpath with
  | Some d => setopt "ResultsPath" (VStr d)
  | None => mret tt
  end;;
  (* Default options *)
  setopt "SaveFile" (VBool true);;
  _run_exporters options;;
  the_wxrops.

Definition _export (options : Options num) (dirpath : string) : M num string :=
  wxrops ← export_wxroptions options (Some dirpath);
  let filepath := os_path_join dirpath (name options ++ ".wxc") in
  write wxrops filepath;;
  mret filepath.

End Exporter.

(** ** A concrete runtime: binary64 numbers and POSIX paths

    Every number is an IEEE 754 double, as a Python [float] is; an [int] is
    represented by the double of the same value, which is exact for an [int]
    of magnitude up to 2^53.  The instance makes the exporter executable. *)

Module Binary64.

Definition of_Z (z : Z) : float := SF2Prim (binary_normalize prec emax z 0 false).

(** [math.pi] *)
Definition pi : float := 0x1.921fb54442d18p+1%float.

(** [math.degrees]: the product with the constant [180.0 / pi]. *)
Definition degrees (x : float) : float := (x * (180 / pi))%float.

Definition signed (s : bool) (m : positive) : Z := if s then Z.neg m else Z.pos m.

(** [math.fmod(x, y)]: the remainder of the division truncated towards zero,
    with the sign of [x]; it is exact. *)
Definition fmod (x y : float) : float :=
  match Prim2SF x, Prim2SF y with
  | S754_nan, _ | _, S754_nan | S754_infinity _, _ | _, S754_zero _ => nan
  | _, S754_infinity _ | S754_zero _, _ => x
  | S754_finite sx mx ex, S754_finite sy my ey =>
      let e := Z.min ex ey in
      let r := Z.rem (Z.pos mx * 2 ^ (ex - e))%Z (Z.pos my * 2 ^ (ey - e))%Z in
      SF2Prim (binary_normalize prec emax (if sx then (- r)%Z else r) e sx)
  end.

(** [math.floor(x)], as a double. *)
Definition floor (x : float) : float :=
  match Prim2SF x with
  | S754_finite s m e =>
      if (0 <=? e)%Z then x
      else SF2Prim (binary_normalize prec emax (signed s m / 2 ^ (- e))%Z 0%Z s)
  | _ => x
  end.

(** [copysign(0.0, x)] *)
Definition zero_with_sign_of (x : float) : float :=
  match Prim2SF x with
  | S754_zero true | S754_infinity true | S754_finite true _ _ => (-0)%float
  | _ => 0%float
  end.

(** [vx // wx] on floats, as the interpreter computes it: from the remainder
    [fmod(vx, wx)] the quotient [(vx - mod) / wx], lowered by one when the
    remainder and the divisor differ in sign, then snapped to the nearest
    integral value.  (Python raises [ZeroDivisionError] for a zero divisor;
    the exporter only divides by the literals 5, 10, 20 and 40.) *)
Definition floordiv (vx wx : float) : float :=
  let mod_ := fmod vx wx in
  let div := ((vx - mod_) / wx)%float in
  let div :=
    if negb (PrimFloat.eqb mod_ 0) && xorb (PrimFloat.ltb wx 0) (PrimFloat.ltb mod_ 0)
    then (div - 1)%float else div in
  if negb (PrimFloat.eqb div 0) then
    let floordiv := floor div in
    if PrimFloat.ltb 0.5 (div - floordiv) then (floordiv + 1)%float else floordiv
  else zero_with_sign_of (vx / wx)%float.

Global Instance float_eq_dec : EqDecision float.
Proof.
  intros x y. destruct (PrimFloat.Leibniz.eqb x y) eqn:E; [left | right].
  - by apply FloatAxioms.Leibniz.eqb_spec.
  - intros Heq. apply FloatAxioms.Leibniz.eqb_spec in Heq. congruence.
Defined.

Global Instance float_number : PyNumber float := {
  py_int := of_Z;
  py_float := of_Z;
  py_add := PrimFloat.add;
  py_sub := PrimFloat.sub;
  py_mul := PrimFloat.mul;
  py_truediv := PrimFloat.div;
  py_floordiv := floordiv;
  py_lt := PrimFloat.ltb;
  py_eq := PrimFloat.eqb;
  math_degrees := degrees
}.

End Binary64.

Module posixpath.

Definition ends_with_sep (a : string) : bool :=
  match last (String.list_ascii_of_string a) with
  | Some c => bool_decide (c = "/"%char)
  | None => false
  end.

(** [posixpath.join(a, b)] *)
Definition join (a b : string) : string :=
  match b with
  | String "/" _ => b
  | _ => if bool_decide (a = "") || ends_with_sep a then a ++ b else a ++ "/" ++ b
  end.

End posixpath.

(** ** Sample options

    The options of the tests on the binary64 runtime: a 1234 eV Gaussian beam
    on a copper substrate, 5678 showers, with various detectors. *)

Definition copper : Material float := {|
  composition := [(29, 1%float)];
  density_kg_m3 := 8960%float;
  absorption_energy_eV := λ _, 50%float
|}.

Definition opening_a : Delimited float := {|
  elevation_rad := (0%float, 1%float);
  azimuth_rad := (2%float, 3%float);
  takeoffangle_rad := 0.5%float;
  solidangle_sr := 0.25%float
|}.

Definition opening_b : Delimited float := {|
  elevation_rad := (0.5%float, 1%float);
  azimuth_rad := (2%float, 3%float);
  takeoffangle_rad := 0.75%float;
  solidangle_sr := 0.125%float
|}.

Definition sample_options (dets : list (string * Detector float)) (ms : list Model) :
    Options float := {|
  name := "Test";
  beam := {| beam_class := GaussianBeam; energy_eV := 1234%float;
             diameter_m := 0x1.5798ee2308c3ap-27%float;
             origin_m := (0%float, 0%float, 1%float) |};
  geometry := {| geometry_class := Substrate; body := {| material := copper |};
                 tilt_rad := 0.5%float; rotation_rad := 0%float;
                 get_materials := [copper] |};
  detectors := dets;
  limits := [TimeLimit 60%float; ShowersLimit 5678];
  models := ms
|}.

Definition options_same_opening : Options float :=
  sample_options
    [("bse", BackscatteredElectronEnergyDetector 1000);
     ("prz", PhotonDepthDetector opening_a 1000);
     ("xray", PhotonIntensityDetector opening_a)]
    [Attr RANDOM_NUMBER_GENERATOR "press1966_rand1"].

Definition options_conflict : Options float :=
  sample_options
    [("prz", PhotonDepthDetector opening_a 1000);
     ("xray", PhotonIntensityDetector opening_b)]
    [Attr RANDOM_NUMBER_GENERATOR "press1966_rand1"].

Definition options_spectrum : Options float :=
  sample_options
    [("spectrum", PhotonSpectrumDetector opening_b 100)]
    [Attr ELASTIC_CROSS_SECTION "rutherford"].

(** Options without a delimited detector: two backscattered electron energy
    detectors and a time detector. *)
Definition options_undelimited : Options float :=
  sample_options
    [("bse", BackscatteredElectronEnergyDetector 1000);
     ("bse2", BackscatteredElectronEnergyDetector 500);
     ("time", TimeDetector)]
    [Attr RANDOM_NUMBER_GENERATOR "press1966_rand1"].

(** The options [options_same_opening] under another name, with other names
    for the detectors, the beam at the origin, no tilt but a rotation, and a
    material of another density. *)
Definition options_renamed : Options float := {|
  name := "Renamed";
  beam := {| beam_class := GaussianBeam; energy_eV := 1234%float;
             diameter_m := 0x1.5798ee2308c3ap-27%float;
             origin_m := (0%float, 0%float, 0%float) |};
  geometry := {| geometry_class := Substrate;
                 body := {| material := {| composition := [(29, 1%float)];
                                           density_kg_m3 := 1000%float;
                                           absorption_energy_eV := λ _, 50%float |} |};
                 tilt_rad := 0%float; rotation_rad := 0.25%float;
                 get_materials := [copper] |};
  detectors := [("a", BackscatteredElectronEnergyDetector 1000);
                ("b", PhotonDepthDetector opening_a 1000);
                ("c", PhotonIntensityDetector opening_a)];
  limits := [TimeLimit 60%float; ShowersLimit 5678];
  models := [Attr RANDOM_NUMBER_GENERATOR "press1966_rand1"]
|}.

(** Two delimited detectors of the same opening, and a model that the
    dictionary of the elastic cross sections has no entry for. *)
Definition options_unmapped : Options float :=
  sample_options
    [("prz", PhotonDepthDetector opening_a 1000);
     ("xray", PhotonIntensityDetector opening_a)]
    [Attr ELASTIC_CROSS_SECTION "elsepa2005"].

(** An electron fraction detector and no other. *)
Definition options_fraction : Options float :=
  sample_options
    [("fraction", ElectronFractionDetector)]
    [Attr RANDOM_NUMBER_GENERATOR "press1966_rand1"].

Definition empty_world : world float := World ∅ [] ∅.

(** ** Vocabulary of the specification *)

Section Vocabulary.
Context `{PyNumber num}.

(** *** Runs *)

(** [preserves P m]: a run of [m] that returns keeps [P]. *)
Definition preserves {A} (P : world num → Prop) (m : M num A) : Prop :=
  ∀ w a w', m w = Ok (a, w') → P w → P w'.

(** [total m]: [m] raises nothing. *)
Definition total {A} (m : M num A) : Prop :=
  ∀ w, ∃ a w', m w = Ok (a, w').

(** [establishes P m]: [P] holds after every run of [m] that returns. *)
Definition establishes {A} (P : world num → Prop) (m : M num A) : Prop :=
  ∀ w a w', m w = Ok (a, w') → P w'.

(** [raises_only Q m]: every exception [m] raises satisfies [Q]. *)
Definition raises_only {A} (Q : exn → Prop) (m : M num A) : Prop :=
  ∀ w e, m w = Raise e → Q e.

(** The records a run yields: the one it returns, none when it raises. *)
Definition records {A} (r : result (A * world num)) : list A :=
  match r with
  | Ok (a, _) => [a]
  | Raise _ => []
  end.

(** [setX(v)] for each entry of [kvs], first to last. *)
Definition store (kvs : list (string * value num)) (file : OptionsFile num) :
    OptionsFile num :=
  foldl (λ m kv, <[kv.1 := kv.2]> m) file kvs.

(** *** Detectors *)

(** The compute flags, in the order [_export_detectors] clears them: the X-ray,
    backscattered electron, secondary electron, energy loss and electron
    distribution flags. *)
Definition compute_flags : list string :=
  ["XrayCompute"; "XrayComputeBackground"; "XrayComputeCharacteristic";
   "ComputeBSEDistribution"; "ComputeBSEDepth"; "ComputeBSERadial";
   "ComputeBSESpatial"; "ComputeBSELateral"; "ComputeBSEEnergy";
   "ComputeBSEAngular";
   "ComputeSEDistribution";
   "ComputeEnergyLossDistribution"; "ComputeEnergyLossDepth";
   "ComputeEnergyLossLateral"; "ComputeEnergyLossSpatial";
   "ComputeEnergyLossRadial";
   "ComputeElectronDistribution"; "ComputeElectronDepth";
   "ComputeElectronRadial"; "ComputeElectronSpatial";
   "ComputeElectronLateral"].

(** The compute flags the method registered for a detector turns on. *)
Definition flags_of (detector : Detector num) : list string :=
  match detector with
  | BackscatteredElectronEnergyDetector _ | ElectronFractionDetector =>
      ["ComputeBSEDistribution"; "ComputeBSEEnergy"]
  | BackscatteredElectronPolarAngularDetector _ =>
      ["ComputeBSEDistribution"; "ComputeBSEAngular"]
  | PhotonDepthDetector _ _ | PhotonIntensityDetector _ =>
      ["XrayCompute"; "XrayComputeCharacteristic"]
  | PhotonSpectrumDetector _ _ =>
      ["XrayCompute"; "XrayComputeBackground"; "XrayComputeCharacteristic"]
  | TimeDetector | OtherDetector _ _ => []
  end.

(** The body of the loop of the base class over the detectors. *)
Definition export_detector (options : Options num) (item : string * Detector num) :
    M num unit :=
  match _detector_exporters item.2 with
  | Some method => method options item.1 item.2
  | None => mret tt
  end.

(** The angular opening of a delimited detector. *)
Definition opening (d : Delimited num) : (num * num) * (num * num) :=
  (elevation_rad d, azimuth_rad d).

(** The check of the openings: [all(map(equivalent_opening, dets[:-1], dets[1:]))]. *)
Definition same_openings (dets : list (Delimited num)) : bool :=
  forallb id (zip_with equivalent_opening (removelast dets) (tail dets)).

(** The error of [_export_detectors] on detectors of different openings. *)
Definition opening_conflict : exn :=
  ExporterException "Some delimited detectors do not have the same opening".

(** What the last part of [_export_detectors] stores for the first delimited
    detector. *)
Definition detector_position (det0 : Delimited num) : list (string * value num) :=
  let toa_deg := math_degrees (takeoffangle_rad det0) in
  [("TOA_deg", VNum toa_deg);
   ("AngleThetaDetector_deg", VNum (py_sub (py_float 90) toa_deg));
   ("AnglePhiDetector_deg",
     VNum (math_degrees (py_truediv (py_sum2 (azimuth_rad det0)) (py_float 2))));
   ("UserDefineSolidAngle", VBool true);
   ("SolidAngle_sr", VNum (solidangle_sr det0))].

(** The options file holds the position of the detector [det]: take-off angle
    in degrees, theta = 90 - take-off angle, phi = half the sum of the azimuth
    bounds in degrees, and the solid angle. *)
Definition holds_position (det : Delimited num) (file : OptionsFile num) : Prop :=
  let toa_deg := math_degrees (takeoffangle_rad det) in
  file !! "TOA_deg" = Some (VNum toa_deg) ∧
  file !! "AngleThetaDetector_deg" = Some (VNum (py_sub (py_float 90) toa_deg)) ∧
  file !! "AnglePhiDetector_deg" =
    Some (VNum (math_degrees
      (py_truediv (py_add (py_add (py_int 0) (azimuth_rad det).1) (azimuth_rad det).2)
         (py_float 2)))) ∧
  file !! "UserDefineSolidAngle" = Some (VBool true) ∧
  file !! "SolidAngle_sr" = Some (VNum (solidangle_sr det)).

(** *** Beam and geometry *)

(** What [_beam_gaussian] stores. *)
Definition beam_entries (beam : Beam num) : list (string * value num) :=
  let energy_keV := py_truediv (energy_eV beam) (py_float 1000) in
  [("MultiEnergy", VBool false);
   ("IncidentEnergy_keV", VNum energy_keV);
   ("StartEnergy_keV", VNum energy_keV);
   ("EndEnergy_keV", VNum energy_keV);
   ("StepEnergy_keV", VInt 1);
   ("NbStepEnergy", VInt 1);
   ("BeamDiameter_nm", VNum (py_mul (diameter_m beam) (py_float (10 ^ 9))))].

(** [beam.origin_m != (0, 0, 0)] *)
Definition origin_nonzero (beam : Beam num) : bool :=
  let '(x, y, z) := origin_m beam in
  negb (py_eq x (py_int 0) && py_eq y (py_int 0) && py_eq z (py_int 0)).

(** [min(mat.absorption_energy_eV[ELECTRON] for mat in options.geometry.get_materials())] *)
Definition min_absorption_energy (options : Options num) : option num :=
  py_min ((λ mat, absorption_energy_eV mat ELECTRON) <$> get_materials (geometry options)).

(** What [_geometry_substrate] stores when the smallest absorption energy of
    the materials is [abs_electron_eV]. *)
Definition geometry_entries (geometry_ : Geometry num) (abs_electron_eV : num) :
    list (string * value num) :=
  [("Elements", VElements (fst <$> composition (material (body geometry_)))
                          (snd <$> composition (material (body geometry_))));
   ("MinimumElectronEnergy_eV", VNum abs_electron_eV)].

Definition geometry_warnings (options : Options num) : list Warning :=
  [ExporterWarning "WinXRay does not support user defined density"] ++
  (if negb (py_eq (tilt_rad (geometry options)) (py_float 0))
   then [ExporterWarning "WinXRay does not support sample tilt. Use beam tilt instead."]
   else []) ++
  (if negb (py_eq (rotation_rad (geometry options)) (py_float 0))
   then [ExporterWarning "WinXRay does not support sample rotation."]
   else []).

(** *** Models *)

(** The method of a model type maps a model through the dictionary [types]:
    an entry is stored under [key], a missing entry is a [KeyError]. *)
Definition maps_through {V} (method : Options num → Model → M num unit)
    (types : gmap Model V) (key : string) (constant : V → value num) : Prop :=
  ∀ options model w,
    (∀ c, types !! model = Some c →
       method options model w =
         Ok (tt, World (<[key := constant c]> (wxrops w)) (warned w) (files w))) ∧
    (types !! model = None → method options model w = Raise (KeyError model)).

(** The model has an entry in the dictionary of its model type, when that type
    is exported at all. *)
Definition model_has_entry (model : Model) : bool :=
  match type model with
  | ELASTIC_CROSS_SECTION =>
      bool_decide (is_Some (_model_elastic_cross_section_types !! model))
  | IONIZATION_CROSS_SECTION =>
      bool_decide (is_Some (_model_ionization_cross_section_types !! model))
  | IONIZATION_POTENTIAL =>
      bool_decide (is_Some (_model_ionization_potential_types !! model))
  | RANDOM_NUMBER_GENERATOR =>
      bool_decide (is_Some (_model_random_number_generator_types !! model))
  | DIRECTION_COSINE =>
      bool_decide (is_Some (_model_direction_cosine_types !! model))
  | ENERGY_LOSS =>
      bool_decide (is_Some (_model_energy_loss_types !! model))
  | MASS_ABSORPTION_COEFFICIENT =>
      bool_decide (is_Some (_model_mass_absorption_coefficient_types !! model))
  | OtherModelType _ => true
  end.

(** *** The whole export *)

(** The entries each part of the export may write: the beam, *)
Definition beam_keys : list string :=
  ["MultiEnergy"; "IncidentEnergy_keV"; "StartEnergy_keV"; "EndEnergy_keV";
   "StepEnergy_keV"; "NbStepEnergy"; "BeamDiameter_nm"].

(** the geometry, *)
Definition geometry_keys : list string := ["Elements"; "MinimumElectronEnergy_eV"].

(** the detectors, *)
Definition detector_keys : list string :=
  compute_flags ++
  ["NbBSEEnergy"; "NbBSEAngular"; "NumberFilm"; "TypeEVChannel"; "NumberChannel";
   "TOA_deg"; "AngleThetaDetector_deg"; "AnglePhiDetector_deg";
   "UserDefineSolidAngle"; "SolidAngle_sr"].

(** the limits, *)
Definition limit_keys : list string := ["NbElectron"].

(** the models, *)
Definition model_keys : list string :=
  ["TypeElectronElasticCrossSection"; "TypeIonizationCrossSection";
   "TypeIonisationPotential"; "TypeRandomGenerator"; "TypeDirectionCosines";
   "TypeEnergyLoss"; "TypeMac"].

(** and all of them. *)
Definition export_keys : list string :=
  beam_keys ++ geometry_keys ++ detector_keys ++ limit_keys ++ model_keys.

(** A property of the state that no write to an entry outside [keys] and no
    warning can break. *)
Definition outside (keys : list string) (P : world num → Prop) : Prop :=
  (∀ w key v, key ∈ keys → P w → P (World (<[key := v]> (wxrops w)) (warned w) (files w))) ∧
  (∀ w message, P w → P (World (wxrops w) (warned w ++ [ExporterWarning message]) (files w))).

(** The state in which [export_wxroptions] runs the exporters: a new options
    file with the results path and the save flag set. *)
Definition initial_world (OptionsFile_new : OptionsFile num) (dirpath : option string)
    (w : world num) : world num :=
  World (<["SaveFile" := VBool true]>
           (match dirpath with
            | Some d => <["ResultsPath" := VStr d]> OptionsFile_new
            | None => OptionsFile_new
            end))
        (warned w) (files w).

(** The geometry can be exported: a substrate has a material. *)
Definition geometry_exportable (options : Options num) : Prop :=
  geometry_class (geometry options) = Substrate → get_materials (geometry options) ≠ [].

Definition models_exportable (options : Options num) : Prop :=
  ∀ model, model ∈ models options → model_has_entry model = true.

(** *** Further vocabulary *)

(** The showers of a showers limit. *)
Definition showers_of (limit : Limit num) : option Z :=
  match limit with
  | ShowersLimit showers => Some showers
  | _ => None
  end.

(** The entries of the detector position, *)
Definition position_keys : list string :=
  ["TOA_deg"; "AngleThetaDetector_deg"; "AnglePhiDetector_deg";
   "UserDefineSolidAngle"; "SolidAngle_sr"].

(** and those of the parameters of the detectors: the channel counts and the
    channel width. *)
Definition parameter_keys : list string :=
  ["NbBSEEnergy"; "NbBSEAngular"; "NumberFilm"; "TypeEVChannel"; "NumberChannel"].

(** What the method registered for a detector stores besides the compute
    flags: the channels of the detector and, for a photon spectrum, the channel
    width and the number of channels of that width. *)
Definition detector_parameters (options : Options num) (detector : Detector num) :
    list (string * value num) :=
  match detector with
  | BackscatteredElectronEnergyDetector c => [("NbBSEEnergy", VInt (Z.pos c))]
  | BackscatteredElectronPolarAngularDetector c => [("NbBSEAngular", VInt (Z.pos c))]
  | PhotonDepthDetector _ c => [("NumberFilm", VInt (Z.pos c))]
  | PhotonSpectrumDetector _ c =>
      let e := energy_eV (beam options) in
      let ev_per_channel := py_truediv e (py_int (Z.pos c)) in
      if py_lt ev_per_channel (py_int 10) then
        [("TypeEVChannel", VEvPerChannel EvPerChannel.TYPE_5);
         ("NumberChannel", VNum (py_floordiv e (py_int 5)))]
      else if py_lt ev_per_channel (py_int 20) then
        [("TypeEVChannel", VEvPerChannel EvPerChannel.TYPE_10);
         ("NumberChannel", VNum (py_floordiv e (py_int 10)))]
      else if py_lt ev_per_channel (py_int 40) then
        [("TypeEVChannel", VEvPerChannel EvPerChannel.TYPE_20);
         ("NumberChannel", VNum (py_floordiv e (py_int 20)))]
      else
        [("TypeEVChannel", VEvPerChannel EvPerChannel.TYPE_40);
         ("NumberChannel", VNum (py_floordiv e (py_int 40)))]
  | _ => []
  end.

(** The last value written under [key] by the writes [kvs], if any. *)
Definition last_written (key : string) (kvs : list (string * value num)) :
    option (value num) :=
  snd <$> last (filter (λ kv, kv.1 = key) kvs).

(** The options file holds, under [key], the constant the dictionary [types]
    gives for [model]. *)
Definition selects {V} (types : gmap Model V) (key : string) (constant : V → value num)
    (model : Model) (file : OptionsFile num) : Prop :=
  ∃ c, types !! model = Some c ∧ file !! key = Some (constant c).

(** The options file holds the selection [model] of its model type. *)
Definition holds_model (model : Model) (file : OptionsFile num) : Prop :=
  match type model with
  | ELASTIC_CROSS_SECTION =>
      selects _model_elastic_cross_section_types "TypeElectronElasticCrossSection"
        VElectronElasticCrossSection model file
  | IONIZATION_CROSS_SECTION =>
      selects _model_ionization_cross_section_types "TypeIonizationCrossSection"
        VIonizationCrossSection model file
  | IONIZATION_POTENTIAL =>
      selects _model_ionization_potential_types "TypeIonisationPotential"
        VIonizationPotential model file
  | RANDOM_NUMBER_GENERATOR =>
      selects _model_random_number_generator_types "TypeRandomGenerator"
        VRandomNumberGenerator model file
  | DIRECTION_COSINE =>
      selects _model_direction_cosine_types "TypeDirectionCosines" VDirectionCosine model file
  | ENERGY_LOSS =>
      selects _model_energy_loss_types "TypeEnergyLoss" VEnergyLoss model file
  | MASS_ABSORPTION_COEFFICIENT =>
      selects _model_mass_absorption_coefficient_types "TypeMac"
        VMassAbsorptionCoefficient model file
  | OtherModelType _ => True
  end.

(** Runs of [m] from states whose options files are related by [R] end alike:
    with the same exception, or with the same value and options files related
    by [R]. *)
Definition alike {A} (R : relation (OptionsFile num)) (m : M num A) : Prop :=
  ∀ w1 w2, R (wxrops w1) (wxrops w2) →
    match m w1, m w2 with
    | Ok (a1, w1'), Ok (a2, w2') => a1 = a2 ∧ R (wxrops w1') (wxrops w2')
    | Raise e1, Raise e2 => e1 = e2
    | _, _ => False
    end.

(** A relation between options files that every setter keeps. *)
Definition kept_by_setters (R : relation (OptionsFile num)) : Prop :=
  ∀ file1 file2 key v, R file1 file2 → R (<[key := v]> file1) (<[key := v]> file2).

(** Two options agree on what the exporter reads to fill the options file:
    the class, the energy and the diameter of the beam; the class of the
    geometry, the composition of the material of its body and the absorption
    energies for electrons of its materials; the detectors, whatever their
    names; the limits and the models. *)
Definition same_exported_fields (options1 options2 : Options num) : Prop :=
  beam_class (beam options1) = beam_class (beam options2) ∧
  energy_eV (beam options1) = energy_eV (beam options2) ∧
  diameter_m (beam options1) = diameter_m (beam options2) ∧
  geometry_class (geometry options1) = geometry_class (geometry options2) ∧
  composition (material (body (geometry options1))) =
    composition (material (body (geometry options2))) ∧
  (λ mat, absorption_energy_eV mat ELECTRON) <$> get_materials (geometry options1) =
    (λ mat, absorption_energy_eV mat ELECTRON) <$> get_materials (geometry options2) ∧
  snd <$> detectors options1 = snd <$> detectors options2 ∧
  limits options1 = limits options2 ∧
  models options1 = models options2.

(** Runs of [m1] and of [m2] from states that hold the same options file end
    alike: with the same exception, or with the same value and the same
    options file. *)
Definition same_outcome {A} (m1 m2 : M num A) : Prop :=
  ∀ w1 w2, wxrops w1 = wxrops w2 →
    match m1 w1, m2 w2 with
    | Ok (a1, w1'), Ok (a2, w2') => a1 = a2 ∧ wxrops w1' = wxrops w2'
    | Raise e1, Raise e2 => e1 = e2
    | _, _ => False
    end.

End Vocabulary.

(** ** Reasoning about the monad *)

Section Monad.
Context `{PyNumber num}.

Lemma bind_Ok {A B} (m : M num A) (f : A → M num B) w b w2 :
  (m ≫= f) w = Ok (b, w2) ↔ ∃ a w1, m w = Ok (a, w1) ∧ f a w1 = Ok (b, w2).
Proof.
  unfold mbind, M_bind. split.
  - destruct (m w) as [[a w1]|e]; [eauto | discriminate].
  - intros (a & w1 & -> & ?). done.
Qed.

Lemma bind_Raise {A B} (m : M num A) (f : A → M num B) w e :
  (m ≫= f) w = Raise e ↔
    m w = Raise e ∨ ∃ a w1, m w = Ok (a, w1) ∧ f a w1 = Raise e.
Proof.
  unfold mbind, M_bind. split.
  - destruct (m w) as [[a w1]|e']; [eauto | intros [= ->]; eauto].
  - intros [-> | (a & w1 & -> & ?)]; done.
Qed.

Lemma preserves_ret {A} (P : world num → Prop) (a : A) : preserves P (mret a).
Proof. intros w a' w' [= _ <-]. done. Qed.

Lemma preserves_raise {A} (P : world num → Prop) e : preserves P (raise (A:=A) e).
Proof. intros w a w' [=]. Qed.

Lemma preserves_bind {A B} (P : world num → Prop) (m : M num A) (f : A → M num B) :
  preserves P m → (∀ a, preserves P (f a)) → preserves P (m ≫= f).
Proof.
  intros Hm Hf w b w2 (a & w1 & Ha & Hb)%bind_Ok HP.
  eapply Hf; [done|]. by eapply Hm.
Qed.

Lemma preserves_for_each {A} (P : world num → Prop) (body : A → M num unit) xs :
  (∀ x, x ∈ xs → preserves P (body x)) → preserves P (for_each body xs).
Proof.
  induction xs as [|x xs IH]; intros Hbody; simpl.
  - apply preserves_ret.
  - apply preserves_bind; [apply Hbody; left | intros _; apply IH].
    intros y Hy. apply Hbody. by right.
Qed.

Lemma preserves_when (P : world num → Prop) c (m : M num unit) :
  preserves P m → preserves P (when c m).
Proof. destruct c; [done | intros _; apply preserves_ret]. Qed.

Lemma preserves_setopt (P : world num → Prop) key v :
  (∀ w, P w → P (World (<[key := v]> (wxrops w)) (warned w) (files w))) →
  preserves P (setopt key v).
Proof. intros HP w a w' [= _ <-]. apply HP. Qed.

Lemma preserves_warn (P : world num → Prop) message :
  (∀ w, P w → P (World (wxrops w) (warned w ++ [ExporterWarning message]) (files w))) →
  preserves P (warn message).
Proof. intros HP w a w' [= _ <-]. apply HP. Qed.

Lemma preserves_getitem {V} (P : world num → Prop) (types : gmap Model V) model :
  preserves P (getitem types model).
Proof.
  unfold getitem. destruct (types !! model); [apply preserves_ret | apply preserves_raise].
Qed.

Lemma preserves_channels (P : world num → Prop) (detector : Detector num) : preserves P (channels detector).
Proof. destruct detector; first [apply preserves_ret | apply preserves_raise]. Qed.

Lemma establishes_setopt (P : world num → Prop) key v :
  (∀ w, P (World (<[key := v]> (wxrops w)) (warned w) (files w))) →
  establishes P (setopt key v).
Proof. intros HP w a w' [= _ <-]. apply HP. Qed.

Lemma establishes_warn (P : world num → Prop) message :
  (∀ w, P (World (wxrops w) (warned w ++ [ExporterWarning message]) (files w))) →
  establishes P (warn message).
Proof. intros HP w a w' [= _ <-]. apply HP. Qed.

Lemma establishes_bind_l {A B} (P : world num → Prop) (m : M num A) (f : A → M num B) :
  establishes P m → (∀ a, preserves P (f a)) → establishes P (m ≫= f).
Proof.
  intros Hm Hf w b w2 (a & w1 & Ha & Hb)%bind_Ok.
  eapply Hf; [done|]. by eapply Hm.
Qed.

Lemma establishes_bind_r {A B} (P : world num → Prop) (m : M num A) (f : A → M num B) :
  (∀ a, establishes P (f a)) → establishes P (m ≫= f).
Proof. intros Hf w b w2 (a & w1 & Ha & Hb)%bind_Ok. by eapply Hf. Qed.

Lemma total_ret {A} (a : A) : total (mret a : M num A).
Proof. intros w. by eexists _, _. Qed.

Lemma total_bind {A B} (m : M num A) (f : A → M num B) :
  total m → (∀ a, total (f a)) → total (m ≫= f).
Proof.
  intros Hm Hf w. destruct (Hm w) as (a & w1 & Ha).
  destruct (Hf a w1) as (b & w2 & Hb). exists b, w2.
  apply bind_Ok. eauto.
Qed.

Lemma total_for_each {A} (body : A → M num unit) xs :
  (∀ x, x ∈ xs → total (body x)) → total (for_each body xs).
Proof.
  induction xs as [|x xs IH]; intros Hbody; simpl.
  - apply total_ret.
  - apply total_bind; [apply Hbody; left | intros _; apply IH].
    intros y Hy. apply Hbody. by right.
Qed.

Lemma total_when c (m : M num unit) : total m → total (when c m).
Proof. destruct c; [done | intros _; apply total_ret]. Qed.

Lemma total_setopt key (v : value num) : total (setopt key v).
Proof. intros w. by eexists _, _. Qed.

Lemma total_warn message : total (warn (num:=num) message).
Proof. intros w. by eexists _, _. Qed.

Lemma bind_eq {A B} (m : M num A) (f : A → M num B) w a w1 :
  m w = Ok (a, w1) → (m ≫= f) w = f a w1.
Proof. unfold mbind, M_bind. by intros ->. Qed.

Lemma bind_raise {A B} (m : M num A) (f : A → M num B) w e :
  m w = Raise e → (m ≫= f) w = Raise e.
Proof. unfold mbind, M_bind. by intros ->. Qed.

Lemma raises_only_total {A} (Q : exn → Prop) (m : M num A) : total m → raises_only Q m.
Proof. intros Hm w e He. destruct (Hm w) as (a & w' & Hw). congruence. Qed.

Lemma raises_only_bind {A B} (Q : exn → Prop) (m : M num A) (f : A → M num B) :
  raises_only Q m → (∀ a, raises_only Q (f a)) → raises_only Q (m ≫= f).
Proof.
  intros Hm Hf w e [He | (a & w1 & _ & He)]%bind_Raise; [by eapply Hm | by eapply Hf].
Qed.

Lemma raises_only_for_each {A} (Q : exn → Prop) (body : A → M num unit) xs :
  (∀ x, x ∈ xs → raises_only Q (body x)) → raises_only Q (for_each body xs).
Proof.
  induction xs as [|x xs IH]; intros Hbody; simpl.
  - intros w e [=].
  - apply raises_only_bind; [apply Hbody; left | intros _; apply IH].
    intros y Hy. apply Hbody. by right.
Qed.

End Monad.

Ltac frame_step :=
  lazymatch goal with
  | |- preserves _ (mret _) => apply preserves_ret
  | |- preserves _ (raise _) => apply preserves_raise
  | |- preserves _ (_ ≫= _) => apply preserves_bind; [| intros ?]
  | |- preserves _ (for_each _ _) => apply preserves_for_each; intros ? _
  | |- preserves _ (when _ _) => apply preserves_when
  | |- preserves _ (getitem _ _) => apply preserves_getitem
  | |- preserves _ (channels _) => apply preserves_channels
  | |- preserves _ (setopt _ _) =>
      apply preserves_setopt; intros ?; simpl;
      first [done | by rewrite lookup_insert_ne | by rewrite lookup_insert_ne by set_solver
            | by eauto]
  | |- preserves _ (warn _) =>
      apply preserves_warn; intros ?; simpl;
      first [done | by eauto | set_solver]
  | |- preserves _ (match ?x with _ => _ end) => destruct x
  | |- preserves _ (let '(_, _) := ?x in _) => destruct x
  end.

Ltac frame := repeat frame_step.

Ltac totality_step :=
  lazymatch goal with
  | |- total (mret _) => apply total_ret
  | |- total (_ ≫= _) => apply total_bind; [| intros ?]
  | |- total (for_each _ _) => apply total_for_each; intros ? ?
  | |- total (when _ _) => apply total_when
  | |- total (setopt _ _) => apply total_setopt
  | |- total (warn _) => apply total_warn
  | |- total (if ?x then _ else _) => destruct x
  end.

Ltac totality := repeat totality_step.

(** [P] holds after [m]: some step establishes it and the rest keeps it. *)
Ltac establish :=
  lazymatch goal with
  | |- establishes _ (setopt _ _) =>
      apply establishes_setopt; intros ?; simpl; by rewrite lookup_insert_eq
  | |- establishes _ (warn _) =>
      apply establishes_warn; intros ?; simpl; set_solver
  | |- establishes _ (_ ≫= _) =>
      first [ apply establishes_bind_l; [establish | intros ?; solve [frame]]
            | apply establishes_bind_r; intros ?; establish ]
  | |- establishes _ (if ?x then _ else _) => destruct x; establish
  end.

(** ** The detector export *)

Section Detectors.
Context `{PyNumber num}.

Lemma export_detector_total options item : total (export_detector options item).
Proof.
  destruct item as [name []]; unfold export_detector; simpl;
    unfold _detector_backscattered_electron_energy,
      _detector_backscattered_electron_polar_angular, _detector_photondetector,
      _detector_photon_intensity, _detector_photon_spectrum,
      _detector_electron_fraction, _detector_time; simpl; totality.
Qed.

Lemma export_detector_keeps options item flag v :
  flag ∈ compute_flags → flag ∉ flags_of item.2 →
  preserves (λ w, wxrops w !! flag = v) (export_detector options item).
Proof.
  intros Hflag Hnot. unfold compute_flags in Hflag.
  repeat (apply elem_of_cons in Hflag as [->|Hflag]); [..|by apply elem_of_nil in Hflag];
  destruct item as [name []]; unfold export_detector; simpl in *;
    unfold _detector_backscattered_electron_energy,
      _detector_backscattered_electron_polar_angular, _detector_photondetector,
      _detector_photon_intensity, _detector_photon_spectrum,
      _detector_electron_fraction, _detector_time; simpl;
    first [ solve [frame] | exfalso; apply Hnot; set_solver ].
Qed.

Lemma export_detector_sets options item flag :
  flag ∈ flags_of item.2 →
  establishes (λ w, wxrops w !! flag = Some (VBool true)) (export_detector options item).
Proof.
  intros Hflag.
  destruct item as [name []]; unfold export_detector; simpl in *;
    repeat (apply elem_of_cons in Hflag as [->|Hflag]); try (by apply elem_of_nil in Hflag);
    unfold _detector_backscattered_electron_energy,
      _detector_backscattered_electron_polar_angular, _detector_photondetector,
      _detector_photon_intensity, _detector_photon_spectrum,
      _detector_electron_fraction, _detector_time; simpl;
    establish.
Qed.

(** Where the loop over the detectors leaves a compute flag: on, when it was on
    or some detector of the collection turns it on. *)
Lemma export_detectors_loop options dets flag b w w' :
  for_each (export_detector options) dets w = Ok (tt, w') →
  flag ∈ compute_flags →
  wxrops w !! flag = Some (VBool b) →
  wxrops w' !! flag =
    Some (VBool (b || bool_decide (Exists (λ item, flag ∈ flags_of item.2) dets))).
Proof.
  intros Hrun Hflag. revert b w Hrun.
  induction dets as [|item dets IH]; intros b w Hrun Hw; simpl in Hrun.
  - injection Hrun as <-. rewrite Hw. do 2 f_equal.
    rewrite bool_decide_eq_false_2; [by rewrite orb_false_r|].
    by intros ?%Exists_nil.
  - apply bind_Ok in Hrun as ([] & w1 & Hitem & Hrest).
    destruct (decide (flag ∈ flags_of item.2)) as [Hin|Hnot].
    + rewrite (IH true w1 Hrest); [|by eapply export_detector_sets].
      simpl. rewrite (bool_decide_eq_true_2 (Exists _ (item :: dets))); [|by left].
      by rewrite orb_true_r.
    + rewrite (IH b w1 Hrest); [|by eapply (export_detector_keeps options item flag)].
      do 3 f_equal. apply bool_decide_ext. rewrite Exists_cons. tauto.
Qed.

(** [setX(v)] for each of [keys]. *)
Lemma store_same_lookup (v : value num) keys (file : OptionsFile num) k :
  store ((λ key, (key, v)) <$> keys) file !! k =
    if decide (k ∈ keys) then Some v else file !! k.
Proof.
  revert file. induction keys as [|key keys IH]; intros file.
  - by rewrite decide_False by apply not_elem_of_nil.
  - change (store ((λ key, (key, v)) <$> key :: keys) file)
      with (store ((λ key, (key, v)) <$> keys) (<[key := v]> file)).
    rewrite IH. destruct (decide (k ∈ keys)) as [Hin|Hnin].
    + rewrite decide_True; [done | by right].
    + destruct (decide (k = key)) as [->|Hne].
      * rewrite decide_True; [by rewrite lookup_insert_eq | left].
      * rewrite decide_False; [by rewrite lookup_insert_ne | ].
        intros [->|?]%elem_of_cons; done.
Qed.

Lemma export_detector_warned options item l :
  preserves (λ w, warned w = l) (export_detector options item).
Proof.
  destruct item as [name []]; unfold export_detector; simpl;
    unfold _detector_backscattered_electron_energy,
      _detector_backscattered_electron_polar_angular, _detector_photondetector,
      _detector_photon_intensity, _detector_photon_spectrum,
      _detector_electron_fraction, _detector_time; simpl; frame.
Qed.

Lemma export_detector_files options item fs :
  preserves (λ w, files w = fs) (export_detector options item).
Proof.
  destruct item as [name []]; unfold export_detector; simpl;
    unfold _detector_backscattered_electron_energy,
      _detector_backscattered_electron_polar_angular, _detector_photondetector,
      _detector_photon_intensity, _detector_photon_spectrum,
      _detector_electron_fraction, _detector_time; simpl; frame.
Qed.

(** The run of [_export_detectors]: the flags are cleared and the detectors
    exported, which raises nothing and leaves a state [w1]; then either the
    openings conflict, or the position of the first delimited detector is
    stored. *)
Lemma _export_detectors_run options w :
  let dets := iterclass_delimited (detectors options) in
  ∃ w1,
    (∀ flag, flag ∈ compute_flags →
       wxrops w1 !! flag =
         Some (VBool (bool_decide (Exists (λ item, flag ∈ flags_of item.2) (detectors options))))) ∧
    warned w1 = warned w ∧ files w1 = files w ∧
    _export_detectors options w =
      if (2 <=? length dets)%nat && negb (same_openings dets)
      then Raise opening_conflict
      else Ok (tt, match dets with
                   | [] => w1
                   | det0 :: _ =>
                       World (store (detector_position det0) (wxrops w1))
                         (warned w1) (files w1)
                   end).
Proof.
  intros dets.
  set (w0 := World (store ((λ flag, (flag, VBool false)) <$> compute_flags) (wxrops w))
               (warned w) (files w)).
  destruct (total_for_each (export_detector options) (detectors options)
              (λ item _, export_detector_total options item) w0) as ([] & w1 & Hloop).
  exists w1. split_and!.
  - intros flag Hflag.
    rewrite (export_detectors_loop _ _ flag false _ _ Hloop Hflag); [done|].
    unfold w0. cbn [wxrops]. rewrite store_same_lookup. by rewrite decide_True.
  - eapply (preserves_for_each (λ w', warned w' = warned w)); [|exact Hloop|done].
    intros item _. apply export_detector_warned.
  - eapply (preserves_for_each (λ w', files w' = files w)); [|exact Hloop|done].
    intros item _. apply export_detector_files.
  - unfold _export_detectors.
    do 21 (erewrite bind_eq; [|reflexivity]; cbn [wxrops warned files]).
    unfold _Exporter_export_detectors. fold (export_detector options).
    erewrite bind_eq; [|exact Hloop]. fold dets. fold (same_openings dets).
    destruct (2 <=? length dets)%nat; simpl.
    + destruct (same_openings dets); simpl; [|done].
      by destruct dets.
    + by destruct dets.
Qed.

Lemma equivalent_opening_true d1 d2 :
  equivalent_opening d1 d2 = true ↔ opening d1 = opening d2.
Proof.
  unfold equivalent_opening, opening. rewrite bool_decide_eq_true.
  split; [intros [-> ->]; done | intros [= -> ->]; done].
Qed.

Lemma same_openings_cons d dets :
  same_openings (d :: dets) = true ↔ Forall (λ x, opening x = opening d) dets.
Proof.
  revert d. induction dets as [|d' dets IH]; intros d.
  - split; [constructor | done].
  - change (same_openings (d :: d' :: dets))
      with (equivalent_opening d d' && same_openings (d' :: dets)).
    rewrite andb_true_iff, equivalent_opening_true, IH, Forall_cons.
    split.
    + intros [Heq Hall]. split; [done|].
      eapply Forall_impl; [exact Hall|]. intros x Hx. congruence.
    + intros [Heq Hall]. split; [done|].
      eapply Forall_impl; [exact Hall|]. intros x Hx. congruence.
Qed.

(** The check of consecutive pairs decides whether every pair of detectors has
    an equivalent opening. *)
Lemma same_openings_pairwise dets :
  same_openings dets = true ↔
    ∀ d1 d2, d1 ∈ dets → d2 ∈ dets → equivalent_opening d1 d2 = true.
Proof.
  destruct dets as [|d dets].
  - split; [|done]. intros _ d1 d2 Hd1. by apply elem_of_nil in Hd1.
  - rewrite same_openings_cons, Forall_forall. split.
    + intros Hall d1 d2 Hd1 Hd2. apply equivalent_opening_true.
      assert (∀ x, x ∈ d :: dets → opening x = opening d) as Hd.
      { intros x [->|Hx]%elem_of_cons; [done | by apply Hall]. }
      by rewrite (Hd d1), (Hd d2).
    + intros Hall x Hx. apply equivalent_opening_true.
      apply Hall; [by right | left].
Qed.

Lemma store_position_flag det0 (file : OptionsFile num) flag :
  flag ∈ compute_flags → store (detector_position det0) file !! flag = file !! flag.
Proof.
  intros Hflag. unfold compute_flags in Hflag.
  repeat (apply elem_of_cons in Hflag as [->|Hflag]); [..|by apply elem_of_nil in Hflag];
    unfold store, detector_position; simpl; by rewrite !lookup_insert_ne.
Qed.

Lemma store_position_lookup det0 (file : OptionsFile num) :
  holds_position det0 (store (detector_position det0) file).
Proof.
  unfold holds_position, store, detector_position; simpl.
  split_and!; by repeat (rewrite lookup_insert_eq || rewrite lookup_insert_ne by done).
Qed.

(** The detector export raises the conflict error exactly when the check of
    the openings fails on at least two detectors: not every pair of delimited
    detectors has an equivalent opening. *)
Lemma _export_detectors_conflict (options : Options num) (w : world num) :
  _export_detectors options w = Raise opening_conflict ↔
  ¬ (∀ d1 d2, d1 ∈ iterclass_delimited (detectors options) →
              d2 ∈ iterclass_delimited (detectors options) →
              equivalent_opening d1 d2 = true).
Proof.
  destruct (_export_detectors_run options w) as (w1 & _ & _ & _ & ->).
  rewrite <- same_openings_pairwise.
  destruct (iterclass_delimited (detectors options)) as [|d1 [|d2 dets]]; simpl.
  - split; [discriminate | intros Hne; by destruct Hne].
  - split; [discriminate | intros Hne; by destruct Hne].
  - destruct (same_openings (d1 :: d2 :: dets)); simpl.
    + split; [discriminate | intros Hne; by destruct Hne].
    + split; [intros _; discriminate | done].
Qed.

(** The detector export of options whose delimited detectors all have an
    equivalent opening returns. *)
Lemma _export_detectors_equivalent_Ok (options : Options num) (w : world num) :
  (∀ d1 d2, d1 ∈ iterclass_delimited (detectors options) →
            d2 ∈ iterclass_delimited (detectors options) →
            equivalent_opening d1 d2 = true) →
  ∃ w', _export_detectors options w = Ok (tt, w').
Proof.
  intros Hall%same_openings_pairwise.
  destruct (_export_detectors_run options w) as (w1 & _ & _ & _ & Hrun).
  rewrite Hrun, Hall, andb_false_r. eauto.
Qed.

(** The value of every compute flag after the detector export: on exactly
    when a detector of the options turns it on. *)
Lemma _export_detectors_flags (options : Options num) (w w' : world num) (flag : string) :
  _export_detectors options w = Ok (tt, w') →
  flag ∈ compute_flags →
  wxrops w' !! flag =
    Some (VBool (bool_decide (Exists (λ item, flag ∈ flags_of item.2) (detectors options)))).
Proof.
  intros Hrun Hflag.
  destruct (_export_detectors_run options w) as (w1 & Hflags & _ & _ & Hrun').
  rewrite Hrun' in Hrun. destruct (_ && _); [discriminate|]. injection Hrun as <-.
  rewrite <- (Hflags flag Hflag).
  destruct (iterclass_delimited (detectors options)) as [|det0 ?]; [done|].
  exact (store_position_flag det0 (wxrops w1) flag Hflag).
Qed.

(** With one delimited detector the detector export returns and stores the
    position of that detector. *)
Lemma _export_detectors_single (options : Options num) (w : world num)
    (det : Delimited num) :
  iterclass_delimited (detectors options) = [det] →
  ∃ w', _export_detectors options w = Ok (tt, w') ∧ holds_position det (wxrops w').
Proof.
  intros Hdets.
  destruct (_export_detectors_run options w) as (w1 & _ & _ & _ & Hrun).
  rewrite Hdets in Hrun. simpl in Hrun.
  eexists. split; [exact Hrun|]. apply store_position_lookup.
Qed.

End Detectors.

(** ** Beam, geometry, limits and models *)

Section Methods.
Context `{PyNumber num}.

(** The run of [_beam_gaussian]: it raises nothing, stores the energy and the
    diameter, and warns when the origin is not zero. *)
Lemma _beam_gaussian_run (options : Options num) (beam : Beam num) (w : world num) :
  _beam_gaussian options beam w =
    Ok (tt, World (store (beam_entries beam) (wxrops w))
              (warned w ++ if origin_nonzero beam
                           then [ExporterWarning "No beam position in WinX-Ray"] else [])
              (files w)).
Proof.
  unfold _beam_gaussian, origin_nonzero.
  destruct (origin_m beam) as [[x y] z].
  destruct (negb _); destruct w; simpl; [done|].
  by rewrite app_nil_r.
Qed.

(** The run of [_geometry_substrate]: the warnings are issued, and the method
    raises only when the geometry has no material. *)
Lemma _geometry_substrate_run (options : Options num) (geometry_ : Geometry num)
    (w : world num) :
  _geometry_substrate options geometry_ w =
    match min_absorption_energy options with
    | Some abs_electron_eV =>
        Ok (tt, World (store (geometry_entries geometry_ abs_electron_eV) (wxrops w))
                  (warned w ++ geometry_warnings options) (files w))
    | None => Raise (ValueError "min() arg is an empty sequence")
    end.
Proof.
  unfold _geometry_substrate, min_absorption_energy, geometry_warnings.
  destruct (py_min _); destruct (negb _), (negb _); destruct w;
    unfold mbind, M_bind, setopt, warn, when, mret, M_ret; simpl;
    rewrite <- ?app_assoc, ?app_nil_r; done.
Qed.

(** The methods warn about unsupported features and raise nothing for them.
    A beam whose origin is not zero makes [_beam_gaussian] issue the warning
    "No beam position in WinX-Ray" and return, having stored the energy and the
    diameter only.  [_geometry_substrate] warns that a user defined density is
    not supported (for every material, so for one with a density of its own),
    that tilt is not supported when a tilt is requested, and likewise for a
    rotation; only the elements and the minimum electron energy are stored. *)
Lemma unsupported_features_methods (options : Options num) (w : world num) :
  (∀ beam : Beam num, origin_nonzero beam = true →
     ∃ w', _beam_gaussian options beam w = Ok (tt, w') ∧
       warned w' = (warned w ++ [ExporterWarning "No beam position in WinX-Ray"])%list ∧
       wxrops w' = store (beam_entries beam) (wxrops w)) ∧
  (∀ (geometry_ : Geometry num) abs_electron_eV,
     min_absorption_energy options = Some abs_electron_eV →
     ∃ w', _geometry_substrate options geometry_ w = Ok (tt, w') ∧
       ExporterWarning "WinXRay does not support user defined density" ∈ warned w' ∧
       (py_eq (tilt_rad (geometry options)) (py_float 0) = false →
        ExporterWarning "WinXRay does not support sample tilt. Use beam tilt instead."
          ∈ warned w') ∧
       (py_eq (rotation_rad (geometry options)) (py_float 0) = false →
        ExporterWarning "WinXRay does not support sample rotation." ∈ warned w') ∧
       wxrops w' = store (geometry_entries geometry_ abs_electron_eV) (wxrops w)).
Proof.
  split.
  - intros beam Horigin. rewrite _beam_gaussian_run, Horigin. eauto.
  - intros geometry_ abs_electron_eV Hmin.
    rewrite _geometry_substrate_run, Hmin. eexists. split; [done|].
    unfold geometry_warnings. simpl. split_and!; [set_solver | | | done].
    + intros ->. set_solver.
    + intros ->. set_solver.
Qed.

(** [_limit_showers] copies the showers of the limit into the record
    unchanged, and touches nothing else. *)
Lemma _limit_showers_run (options : Options num) (showers : Z) (w : world num) :
  ∃ w', _limit_showers options (ShowersLimit showers) w = Ok (tt, w') ∧
    wxrops w' !! "NbElectron" = Some (VInt showers) ∧
    (∀ key, key ≠ "NbElectron" → wxrops w' !! key = wxrops w !! key) ∧
    warned w' = warned w ∧ files w' = files w.
Proof.
  eexists. split; [done|]. simpl. split_and!; try done.
  - by rewrite lookup_insert_eq.
  - intros key Hkey. by rewrite lookup_insert_ne.
Qed.

End Methods.

(** ** The whole export *)

Section WholeExport.
Context `{PyNumber num}.

Lemma outside_lookup keys k (v : option (value num)) :
  k ∉ keys → outside keys (λ w, wxrops w !! k = v).
Proof.
  intros Hk. split; [|done].
  intros w key v' Hkey Hw. simpl. rewrite lookup_insert_ne; [done|]. by intros ->.
Qed.

Lemma outside_files keys (fs : gmap string (OptionsFile num)) :
  outside keys (λ w, files w = fs).
Proof. by split. Qed.

Lemma outside_warned keys x : outside keys (λ w : world num, x ∈ warned w).
Proof. split; [done|]. intros w message Hx. simpl. apply elem_of_app. by left. Qed.

Ltac footprint HP :=
  repeat first
    [ apply preserves_setopt; intros ? ?; apply (proj1 HP);
        [by apply (bool_decide_unpack _) | done]
    | apply preserves_warn; intros ? ?; by apply (proj2 HP)
    | frame_step ].

Lemma export_beam_footprint (options : Options num) (P : world num → Prop) :
  outside beam_keys P → preserves P (_Exporter_export_beam _beam_exporters options).
Proof.
  intros HP. unfold _Exporter_export_beam, _beam_exporters.
  destruct (beam_class (beam options)); [|apply preserves_ret..].
  unfold _beam_gaussian. footprint HP.
Qed.

Lemma export_geometry_footprint (options : Options num) (P : world num → Prop) :
  outside geometry_keys P →
  preserves P (_Exporter_export_geometry _geometry_exporters options).
Proof.
  intros HP. unfold _Exporter_export_geometry, _geometry_exporters.
  destruct (geometry_class (geometry options)); [|apply preserves_ret].
  unfold _geometry_substrate. footprint HP.
Qed.

Lemma export_detectors_footprint (options : Options num) (P : world num → Prop) :
  outside detector_keys P → preserves P (_export_detectors options).
Proof.
  intros HP. unfold _export_detectors, _Exporter_export_detectors.
  do 21 (apply preserves_bind; [footprint HP | intros _]).
  apply preserves_bind; [|intros _].
  - apply preserves_for_each. intros [name []] _; simpl;
      unfold _detector_backscattered_electron_energy,
        _detector_backscattered_electron_polar_angular, _detector_photondetector,
        _detector_photon_intensity, _detector_photon_spectrum,
        _detector_electron_fraction, _detector_time; simpl; footprint HP.
  - footprint HP.
Qed.

Lemma export_limits_footprint (options : Options num) (P : world num → Prop) :
  outside limit_keys P → preserves P (_Exporter_export_limits _limit_exporters options).
Proof.
  intros HP. unfold _Exporter_export_limits.
  apply preserves_for_each. intros [] _; simpl; footprint HP.
Qed.

Lemma export_models_footprint (options : Options num) (P : world num → Prop) :
  outside model_keys P → preserves P (_Exporter_export_models _model_exporters options).
Proof.
  intros HP. unfold _Exporter_export_models.
  apply preserves_for_each. intros [[] a] _; simpl;
    unfold _model_elastic_cross_section, _model_ionization_cross_section,
      _model_ionization_potential, _model_random_number_generator,
      _model_direction_cosine, _model_energy_loss,
      _model_mass_absorption_coefficient; footprint HP.
Qed.

Lemma outside_subseteq keys keys' (P : world num → Prop) :
  keys' ⊆ keys → outside keys P → outside keys' P.
Proof. intros Hsub [Hset Hwarn]. split; [|done]. intros w key v Hkey. apply Hset. auto. Qed.

Lemma _run_exporters_footprint (options : Options num) (P : world num → Prop) :
  outside export_keys P → preserves P (_run_exporters options).
Proof.
  intros HP. unfold _run_exporters.
  assert (∀ keys, (∀ k, k ∈ keys → k ∈ export_keys) → outside keys P) as Hsub.
  { intros keys Hkeys. by apply (outside_subseteq export_keys). }
  apply preserves_bind; [|intros _; apply preserves_bind;
    [|intros _; apply preserves_bind; [|intros _; apply preserves_bind; [|intros _]]]].
  - apply export_beam_footprint, Hsub.
    intros k Hk. unfold export_keys. rewrite !elem_of_app. tauto.
  - apply export_geometry_footprint, Hsub.
    intros k Hk. unfold export_keys. rewrite !elem_of_app. tauto.
  - apply export_detectors_footprint, Hsub.
    intros k Hk. unfold export_keys. rewrite !elem_of_app. tauto.
  - apply export_limits_footprint, Hsub.
    intros k Hk. unfold export_keys. rewrite !elem_of_app. tauto.
  - apply export_models_footprint, Hsub.
    intros k Hk. unfold export_keys. rewrite !elem_of_app. tauto.
Qed.

(** The state of a newly constructed [OptionsFile()]. *)
Variable OptionsFile_new : OptionsFile num.

Lemma export_wxroptions_run options dirpath w :
  export_wxroptions OptionsFile_new options dirpath w =
    match _run_exporters options (initial_world OptionsFile_new dirpath w) with
    | Ok (_, w') => Ok (wxrops w', w')
    | Raise e => Raise e
    end.
Proof.
  unfold export_wxroptions, initial_world.
  generalize (_run_exporters options). intros run.
  unfold mbind, M_bind, new_OptionsFile, setopt, the_wxrops, mret, M_ret.
  destruct dirpath; cbn [wxrops warned files];
    by destruct (run _) as [[[] ?]|].
Qed.

Lemma export_wxroptions_files options dirpath w wxrops_ w' :
  export_wxroptions OptionsFile_new options dirpath w = Ok (wxrops_, w') →
  files w' = files w ∧ wxrops_ = wxrops w'.
Proof.
  rewrite export_wxroptions_run.
  pose proof (_run_exporters_footprint options (λ w', files w' = files w)
                (outside_files _ _) (initial_world OptionsFile_new dirpath w)) as Hfiles.
  revert Hfiles. generalize (_run_exporters options (initial_world OptionsFile_new dirpath w)).
  intros [[[] w1]|e] Hfiles; [|discriminate].
  intros [= <- <-]. split; [|reflexivity].
  exact (Hfiles tt w1 eq_refl eq_refl).
Qed.

Lemma _run_exporters_stages options w w' :
  _run_exporters options w = Ok (tt, w') ↔
  ∃ w1 w2 w3 w4,
    _Exporter_export_beam _beam_exporters options w = Ok (tt, w1) ∧
    _Exporter_export_geometry _geometry_exporters options w1 = Ok (tt, w2) ∧
    _export_detectors options w2 = Ok (tt, w3) ∧
    _Exporter_export_limits _limit_exporters options w3 = Ok (tt, w4) ∧
    _Exporter_export_models _model_exporters options w4 = Ok (tt, w').
Proof.
  unfold _run_exporters. rewrite bind_Ok. split.
  - intros ([] & w1 & Hbeam & ([] & w2 & Hgeometry & ([] & w3 & Hdetectors &
        ([] & w4 & Hlimits & Hmodels)%bind_Ok)%bind_Ok)%bind_Ok).
    by exists w1, w2, w3, w4.
  - intros (w1 & w2 & w3 & w4 & Hbeam & Hgeometry & Hdetectors & Hlimits & Hmodels).
    exists tt, w1. split; [done|]. apply bind_Ok. exists tt, w2. split; [done|].
    apply bind_Ok. exists tt, w3. split; [done|].
    apply bind_Ok. exists tt, w4. by split.
Qed.

(** *** When the export returns *)

Lemma export_beam_total (options : Options num) : total (_Exporter_export_beam _beam_exporters options).
Proof.
  unfold _Exporter_export_beam, _beam_exporters.
  destruct (beam_class (beam options)); [|apply total_ret..].
  intros w. rewrite _beam_gaussian_run. eauto.
Qed.

Lemma export_geometry_Ok options w :
  geometry_exportable options →
  ∃ w', _Exporter_export_geometry _geometry_exporters options w = Ok (tt, w').
Proof.
  unfold geometry_exportable, _Exporter_export_geometry, _geometry_exporters.
  destruct (geometry_class (geometry options)); [|eauto].
  intros Hmat. rewrite _geometry_substrate_run. unfold min_absorption_energy.
  destruct (get_materials (geometry options)); [by destruct Hmat|]. simpl. eauto.
Qed.

Lemma export_limits_total (options : Options num) :
  total (_Exporter_export_limits _limit_exporters options).
Proof.
  unfold _Exporter_export_limits. apply total_for_each.
  intros [] _; simpl; first [apply total_setopt | apply total_ret].
Qed.

Lemma getitem_total {V} (types : gmap Model V) model :
  is_Some (types !! model) → total (getitem types model : M num V).
Proof. intros [c Hc] w. unfold getitem. rewrite Hc. by eexists _, _. Qed.

Lemma export_models_total (options : Options num) :
  models_exportable options →
  total (_Exporter_export_models _model_exporters options).
Proof.
  intros Hmodels. unfold _Exporter_export_models. apply total_for_each.
  intros model Hin. specialize (Hmodels model Hin). unfold model_has_entry in Hmodels.
  destruct (type model); simpl; [..|apply total_ret];
    apply bool_decide_eq_true in Hmodels;
    (apply total_bind; [by apply getitem_total | intros ?; apply total_setopt]).
Qed.

(** The whole export returns when the geometry and the models can be exported
    and the delimited detectors all have an equivalent opening. *)
Lemma export_wxroptions_Ok options dirpath w :
  geometry_exportable options → models_exportable options →
  (∀ d1 d2, d1 ∈ iterclass_delimited (detectors options) →
            d2 ∈ iterclass_delimited (detectors options) →
            equivalent_opening d1 d2 = true) →
  ∃ wxrops_ w', export_wxroptions OptionsFile_new options dirpath w = Ok (wxrops_, w').
Proof.
  intros Hgeometry Hmodels Hopenings. rewrite export_wxroptions_run.
  destruct (export_beam_total options (initial_world OptionsFile_new dirpath w)) as ([] & w1 & Hw1).
  destruct (export_geometry_Ok options w1 Hgeometry) as (w2 & Hw2).
  destruct (_export_detectors_equivalent_Ok options w2 Hopenings) as (w3 & Hw3).
  destruct (export_limits_total options w3) as ([] & w4 & Hw4).
  destruct (export_models_total options Hmodels w4) as ([] & w5 & Hw5).
  assert (_run_exporters options (initial_world OptionsFile_new dirpath w) = Ok (tt, w5)) as ->.
  { apply _run_exporters_stages. by exists w1, w2, w3, w4. }
  eauto.
Qed.

(** *** What the record holds after the whole export *)

Lemma not_in_keys_lookup (keys : list string) k (v : option (value num)) :
  bool_decide (k ∉ keys) = true → outside keys (λ w, wxrops w !! k = v).
Proof. intros Hk%bool_decide_eq_true. by apply outside_lookup. Qed.

(** The loop over the limits leaves the showers of the showers limit. *)
Lemma export_limits_showers options (lims : list (Limit num)) showers w w' :
  for_each (λ limit,
      match _limit_exporters limit with
      | Some method => method options limit
      | None => mret tt
      end) lims w = Ok (tt, w') →
  (∀ s, ShowersLimit s ∈ lims → s = showers) →
  ShowersLimit showers ∈ lims ∨ wxrops w !! "NbElectron" = Some (VInt showers) →
  wxrops w' !! "NbElectron" = Some (VInt showers).
Proof.
  revert w. induction lims as [|limit lims IH]; intros w Hrun Hall Hin; simpl in Hrun.
  - injection Hrun as <-. destruct Hin as [Hin|]; [by apply elem_of_nil in Hin | done].
  - apply bind_Ok in Hrun as ([] & w1 & Hlimit & Hrest).
    apply (IH w1 Hrest); [intros s Hs; apply Hall; by right|].
    destruct limit as [s| |]; simpl in Hlimit.
    + right. injection Hlimit as <-. simpl.
      rewrite (Hall s); [by rewrite lookup_insert_eq | left].
    + injection Hlimit as <-. destruct Hin as [[Heq|Hin]%elem_of_cons|]; auto.
      discriminate Heq.
    + injection Hlimit as <-. destruct Hin as [[Heq|Hin]%elem_of_cons|]; auto.
      discriminate Heq.
Qed.

(** The entries of the beam and of the detector position in the record of an
    export that returns. *)
Lemma export_wxroptions_entries (options : Options num) (dirpath : option string)
    (w w' : world num) (wxrops_ : OptionsFile num) :
  export_wxroptions OptionsFile_new options dirpath w = Ok (wxrops_, w') →
  (beam_class (beam options) = GaussianBeam →
   let energy_keV := py_truediv (energy_eV (beam options)) (py_float 1000) in
   wxrops_ !! "IncidentEnergy_keV" = Some (VNum energy_keV) ∧
   wxrops_ !! "StartEnergy_keV" = Some (VNum energy_keV) ∧
   wxrops_ !! "EndEnergy_keV" = Some (VNum energy_keV) ∧
   wxrops_ !! "BeamDiameter_nm" =
     Some (VNum (py_mul (diameter_m (beam options)) (py_float (10 ^ 9))))) ∧
  (∀ det0 rest, iterclass_delimited (detectors options) = det0 :: rest →
   let toa_deg := math_degrees (takeoffangle_rad det0) in
   wxrops_ !! "TOA_deg" = Some (VNum toa_deg) ∧
   wxrops_ !! "AngleThetaDetector_deg" = Some (VNum (py_sub (py_float 90) toa_deg)) ∧
   wxrops_ !! "AnglePhiDetector_deg" =
     Some (VNum (math_degrees (py_truediv (py_sum2 (azimuth_rad det0)) (py_float 2))))).
Proof.
  intros Hexport. rewrite export_wxroptions_run in Hexport.
  destruct (_run_exporters _ _) as [[[] w5]|] eqn:Hrun; [|done].
  injection Hexport as <- <-.
  apply _run_exporters_stages in Hrun
    as (w1 & w2 & w3 & w4 & Hbeam & Hgeometry & Hdetectors & Hlimits & Hmodels).
  assert (∀ k v, bool_decide (k ∉ limit_keys) = true → bool_decide (k ∉ model_keys) = true →
            wxrops w3 !! k = v → wxrops w5 !! k = v) as Hlate.
  { intros k v Hk1 Hk2 Hw3.
    eapply (export_models_footprint options (λ w, wxrops w !! k = v));
      [by apply not_in_keys_lookup | exact Hmodels |].
    eapply (export_limits_footprint options (λ w, wxrops w !! k = v));
      [by apply not_in_keys_lookup | exact Hlimits | done]. }
  split.
  - intros Hclass.
    unfold _Exporter_export_beam, _beam_exporters in Hbeam. rewrite Hclass in Hbeam.
    rewrite _beam_gaussian_run in Hbeam. injection Hbeam as <-.
    assert (∀ k v, bool_decide (k ∉ geometry_keys) = true →
              bool_decide (k ∉ detector_keys) = true →
              bool_decide (k ∉ limit_keys) = true → bool_decide (k ∉ model_keys) = true →
              store (beam_entries (beam options)) (wxrops (initial_world OptionsFile_new dirpath w)) !! k = v →
              wxrops w5 !! k = v) as Hkeep.
    { intros k v Hk1 Hk2 Hk3 Hk4 Hw1. apply Hlate; [done..|].
      eapply (export_detectors_footprint options (λ w, wxrops w !! k = v));
        [by apply not_in_keys_lookup | exact Hdetectors |].
      eapply (export_geometry_footprint options (λ w, wxrops w !! k = v));
        [by apply not_in_keys_lookup | exact Hgeometry | done]. }
    split_and!; (apply Hkeep; [done..|]); unfold store, beam_entries; simpl;
      by repeat (rewrite lookup_insert_eq || rewrite lookup_insert_ne by done).
  - intros det0 rest Hdets.
    destruct (_export_detectors_run options w2) as (w2' & _ & _ & _ & Hrun).
    rewrite Hdets in Hrun. rewrite Hrun in Hdetectors.
    destruct (_ && _); [discriminate|]. injection Hdetectors as <-.
    destruct (store_position_lookup det0 (wxrops w2')) as (Htoa & Htheta & Hphi & _).
    unfold py_sum2.
    split_and!; by apply Hlate.
Qed.

(** The warnings of the beam and the geometry are among those issued by an
    export that returns. *)
Lemma export_wxroptions_warnings (options : Options num) (dirpath : option string)
    (w w' : world num) (wxrops_ : OptionsFile num) :
  export_wxroptions OptionsFile_new options dirpath w = Ok (wxrops_, w') →
  (beam_class (beam options) = GaussianBeam → origin_nonzero (beam options) = true →
   ExporterWarning "No beam position in WinX-Ray" ∈ warned w') ∧
  (geometry_class (geometry options) = Substrate →
   ExporterWarning "WinXRay does not support user defined density" ∈ warned w' ∧
   (py_eq (tilt_rad (geometry options)) (py_float 0) = false →
    ExporterWarning "WinXRay does not support sample tilt. Use beam tilt instead."
      ∈ warned w') ∧
   (py_eq (rotation_rad (geometry options)) (py_float 0) = false →
    ExporterWarning "WinXRay does not support sample rotation." ∈ warned w')).
Proof.
  intros Hexport. rewrite export_wxroptions_run in Hexport.
  destruct (_run_exporters _ _) as [[[] w5]|] eqn:Hrun; [|done].
  injection Hexport as <- <-.
  apply _run_exporters_stages in Hrun
    as (w1 & w2 & w3 & w4 & Hbeam & Hgeometry & Hdetectors & Hlimits & Hmodels).
  assert (∀ x, x ∈ warned w2 → x ∈ warned w5) as Hlate.
  { intros x Hx.
    eapply (export_models_footprint options (λ w, x ∈ warned w));
      [apply outside_warned | exact Hmodels |].
    eapply (export_limits_footprint options (λ w, x ∈ warned w));
      [apply outside_warned | exact Hlimits |].
    eapply (export_detectors_footprint options (λ w, x ∈ warned w));
      [apply outside_warned | exact Hdetectors | done]. }
  split.
  - intros Hclass Horigin. apply Hlate.
    eapply (export_geometry_footprint options
              (λ w, ExporterWarning "No beam position in WinX-Ray" ∈ warned w));
      [apply outside_warned | exact Hgeometry |].
    unfold _Exporter_export_beam, _beam_exporters in Hbeam. rewrite Hclass in Hbeam.
    rewrite _beam_gaussian_run, Horigin in Hbeam. injection Hbeam as <-.
    cbn [warned]. apply elem_of_app. right. left.
  - intros Hclass.
    unfold _Exporter_export_geometry, _geometry_exporters in Hgeometry.
    rewrite Hclass, _geometry_substrate_run in Hgeometry.
    destruct (min_absorption_energy options); [|discriminate].
    injection Hgeometry as <-. clear Hbeam Hdetectors Hlimits Hmodels.
    unfold geometry_warnings in Hlate. cbn [warned] in Hlate.
    split_and!.
    + apply Hlate. apply elem_of_app. right. apply elem_of_app. left. left.
    + intros Htilt. apply Hlate. rewrite Htilt.
      apply elem_of_app. right. apply elem_of_app. right. apply elem_of_app. left. left.
    + intros Hrot. apply Hlate. rewrite Hrot.
      apply elem_of_app. right. apply elem_of_app. right. apply elem_of_app. right. left.
Qed.

(** *** The errors of the export *)

Lemma getitem_raises {V} (types : gmap Model V) model :
  raises_only (λ e, e ≠ opening_conflict) (getitem types model : M num V).
Proof.
  intros w e. unfold getitem. destruct (types !! model); [discriminate|].
  by intros [= <-].
Qed.

Lemma export_geometry_raises (options : Options num) :
  raises_only (λ e, e ≠ opening_conflict)
    (_Exporter_export_geometry _geometry_exporters options).
Proof.
  intros w e. unfold _Exporter_export_geometry, _geometry_exporters.
  destruct (geometry_class (geometry options)); [|discriminate].
  rewrite _geometry_substrate_run.
  destruct (min_absorption_energy options); [discriminate | by intros [= <-]].
Qed.

Lemma export_models_raises (options : Options num) :
  raises_only (λ e, e ≠ opening_conflict)
    (_Exporter_export_models _model_exporters options).
Proof.
  unfold _Exporter_export_models. apply raises_only_for_each.
  intros [[] a] _; simpl; [..|discriminate];
    (apply raises_only_bind;
      [apply getitem_raises | intros c; apply raises_only_total, total_setopt]).
Qed.

(** The conflict error of the exporters is that of the detector export. *)
Lemma _run_exporters_conflict (options : Options num) w :
  _run_exporters options w = Raise opening_conflict →
  ∃ w2, _export_detectors options w2 = Raise opening_conflict.
Proof.
  unfold _run_exporters.
  intros [Hbeam | (? & w1 & _ & [Hgeometry | (? & w2 & _ & [Hdetectors |
    (? & w3 & _ & [Hlimits | (? & w4 & _ & Hmodels)]%bind_Raise)]%bind_Raise)]%bind_Raise)]%bind_Raise.
  - by destruct (raises_only_total (λ e, e ≠ opening_conflict) _
                   (export_beam_total options) w _ Hbeam).
  - by destruct (export_geometry_raises options w1 _ Hgeometry).
  - eauto.
  - by destruct (raises_only_total (λ e, e ≠ opening_conflict) _
                   (export_limits_total options) w3 _ Hlimits).
  - by destruct (export_models_raises options w4 _ Hmodels).
Qed.

Lemma export_wxroptions_raise (options : Options num) dirpath w e :
  export_wxroptions OptionsFile_new options dirpath w = Raise e ↔
  _run_exporters options (initial_world OptionsFile_new dirpath w) = Raise e.
Proof.
  rewrite export_wxroptions_run.
  destruct (_run_exporters _ _) as [[[] w']|e']; [split; discriminate|].
  split; by intros [= ->].
Qed.

(** When the geometry can be exported, the export raises the conflict error
    exactly when not every pair of delimited detectors has an equivalent
    opening; it never raises it otherwise. *)
Lemma export_wxroptions_conflict (options : Options num) dirpath w :
  (export_wxroptions OptionsFile_new options dirpath w = Raise opening_conflict →
   ¬ (∀ d1 d2, d1 ∈ iterclass_delimited (detectors options) →
               d2 ∈ iterclass_delimited (detectors options) →
               equivalent_opening d1 d2 = true)) ∧
  (geometry_exportable options →
   ¬ (∀ d1 d2, d1 ∈ iterclass_delimited (detectors options) →
               d2 ∈ iterclass_delimited (detectors options) →
               equivalent_opening d1 d2 = true) →
   export_wxroptions OptionsFile_new options dirpath w = Raise opening_conflict).
Proof.
  split.
  - intros Hraise%export_wxroptions_raise.
    apply _run_exporters_conflict in Hraise as (w2 & Hdetectors).
    by apply _export_detectors_conflict in Hdetectors.
  - intros Hgeometry Hne. apply export_wxroptions_raise.
    destruct (export_beam_total options (initial_world OptionsFile_new dirpath w))
      as ([] & w1 & Hw1).
    destruct (export_geometry_Ok options w1 Hgeometry) as (w2 & Hw2).
    unfold _run_exporters.
    rewrite (bind_eq _ _ _ _ _ Hw1), (bind_eq _ _ _ _ _ Hw2).
    apply bind_raise. by apply _export_detectors_conflict.
Qed.

(** The entries of the detectors in the record of an export are those the
    detector export left. *)
Lemma export_wxroptions_detectors (options : Options num) dirpath w wxrops_ w' :
  export_wxroptions OptionsFile_new options dirpath w = Ok (wxrops_, w') →
  ∃ w2 w3, _export_detectors options w2 = Ok (tt, w3) ∧
    ∀ k, k ∈ detector_keys → wxrops_ !! k = wxrops w3 !! k.
Proof.
  intros Hexport. rewrite export_wxroptions_run in Hexport.
  destruct (_run_exporters _ _) as [[[] w5]|] eqn:Hrun; [|done].
  injection Hexport as <- <-.
  apply _run_exporters_stages in Hrun
    as (w1 & w2 & w3 & w4 & _ & _ & Hdetectors & Hlimits & Hmodels).
  exists w2, w3. split; [done|]. intros k Hk.
  assert ((k ∉ limit_keys) ∧ (k ∉ model_keys)) as [Hk1 Hk2].
  { revert k Hk. apply Forall_forall. by apply (bool_decide_unpack _). }
  eapply (export_models_footprint options (λ w, wxrops w !! k = wxrops w3 !! k));
    [by apply outside_lookup | exact Hmodels |].
  eapply (export_limits_footprint options (λ w, wxrops w !! k = wxrops w3 !! k));
    [by apply outside_lookup | exact Hlimits | done].
Qed.

(** *** What a returned export tells about the options *)

(** An export returns when its exporters do, with the options file they
    filled. *)
Lemma export_wxroptions_stages (options : Options num) dirpath w wxrops_ w' :
  export_wxroptions OptionsFile_new options dirpath w = Ok (wxrops_, w') ↔
  wxrops_ = wxrops w' ∧
  _run_exporters options (initial_world OptionsFile_new dirpath w) = Ok (tt, w').
Proof.
  rewrite export_wxroptions_run.
  destruct (_run_exporters _ _) as [[[] w1]|e]; split.
  - by intros [= <- <-].
  - by intros [-> [= ->]].
  - discriminate.
  - by intros [_ ?].
Qed.

(** What the outcome of each stage tells about the options. *)
Lemma export_geometry_Ok_inv (options : Options num) w w' :
  _Exporter_export_geometry _geometry_exporters options w = Ok (tt, w') →
  geometry_exportable options.
Proof.
  unfold _Exporter_export_geometry, _geometry_exporters, geometry_exportable.
  intros Hrun Hclass Hnil. rewrite Hclass in Hrun.
  rewrite _geometry_substrate_run in Hrun. unfold min_absorption_energy in Hrun.
  rewrite Hnil in Hrun. discriminate Hrun.
Qed.

Lemma _export_detectors_Ok_inv (options : Options num) w w' :
  _export_detectors options w = Ok (tt, w') →
  ∀ d1 d2, d1 ∈ iterclass_delimited (detectors options) →
           d2 ∈ iterclass_delimited (detectors options) →
           equivalent_opening d1 d2 = true.
Proof.
  intros Hrun. apply same_openings_pairwise.
  destruct (_export_detectors_run options w) as (w1 & _ & _ & _ & Hrun').
  rewrite Hrun' in Hrun.
  destruct (iterclass_delimited (detectors options)) as [|d1 [|d2 dets]]; [done..|].
  simpl in Hrun. by destruct (same_openings (d1 :: d2 :: dets)).
Qed.

(** The method registered for the type of a model returns exactly when the
    model has an entry, and raises the [KeyError] of the model otherwise. *)
Lemma export_model_outcome (options : Options num) (model : Model) w :
  let run := match _model_exporters (type model) with
             | Some method => method options model
             | None => mret tt
             end in
  if model_has_entry model then ∃ w', run w = Ok (tt, w')
  else run w = Raise (KeyError model).
Proof.
  unfold model_has_entry. destruct model as [t a]. cbn [type].
  destruct t; unfold _model_exporters; [..|by eexists];
    unfold _model_elastic_cross_section, _model_ionization_cross_section,
      _model_ionization_potential, _model_random_number_generator,
      _model_direction_cosine, _model_energy_loss,
      _model_mass_absorption_coefficient, getitem, mbind, M_bind;
    match goal with
    | |- context [bool_decide (is_Some ?x)] => destruct x as [c|] eqn:Hentry
    end;
    case_bool_decide as Hsome;
    lazymatch goal with
    | Hs : ¬ is_Some (Some _) |- _ => exfalso; apply Hs; by eexists
    | Hs : is_Some None |- _ => by destruct Hs
    | |- ∃ _, _ => eexists; reflexivity
    | |- _ => reflexivity
    end.
Qed.

Lemma export_models_Ok_inv (options : Options num) w w' :
  _Exporter_export_models _model_exporters options w = Ok (tt, w') →
  models_exportable options.
Proof.
  unfold _Exporter_export_models, models_exportable.
  generalize (models options). intros ms. revert w.
  induction ms as [|m ms IH]; intros w Hrun model Hin.
  - by apply elem_of_nil in Hin.
  - simpl in Hrun. apply bind_Ok in Hrun as ([] & w1 & Hm & Hrest).
    apply elem_of_cons in Hin as [->|Hin]; [|by eapply IH].
    pose proof (export_model_outcome options m w) as Hout. simpl in Hout.
    destruct (model_has_entry m); [done|]. congruence.
Qed.

(** *** Writing the file *)

Section File.
(** [os.path.join] of the platform. *)
Variable os_path_join : string → string → string.

Lemma _export_run options dirpath w :
  _export OptionsFile_new os_path_join options dirpath w =
    match export_wxroptions OptionsFile_new options (Some dirpath) w with
    | Ok (wxrops_, w') =>
        let filepath := os_path_join dirpath (name options ++ ".wxc") in
        Ok (filepath, World (wxrops w') (warned w') (<[filepath := wxrops_]> (files w')))
    | Raise e => Raise e
    end.
Proof.
  unfold _export.
  generalize (export_wxroptions OptionsFile_new options (Some dirpath)). intros run.
  unfold mbind, M_bind, write, mret, M_ret.
  by destruct (run w) as [[? ?]|].
Qed.

Lemma _export_Ok (options : Options num) dirpath w :
  geometry_exportable options → models_exportable options →
  (∀ d1 d2, d1 ∈ iterclass_delimited (detectors options) →
            d2 ∈ iterclass_delimited (detectors options) →
            equivalent_opening d1 d2 = true) →
  ∃ filepath w', _export OptionsFile_new os_path_join options dirpath w = Ok (filepath, w').
Proof.
  intros Hgeometry Hmodels Hopenings. rewrite _export_run.
  destruct (export_wxroptions_Ok options (Some dirpath) w Hgeometry Hmodels Hopenings)
    as (wxrops_ & w' & ->).
  eauto.
Qed.

End File.

End WholeExport.

(** ** The properties of the exporter *)

Section Claims.
Context `{PyNumber num}.
Variable OptionsFile_new : OptionsFile num.
Variable os_path_join : string → string → string.

(** C1. With at least two delimited detectors, the export fails with the
    conflict error ("Some delimited detectors do not have the same opening")
    exactly when not every pair of delimited detectors has an equivalent
    opening, and when every pair has, no conflict error is raised: the
    detector export returns.  This holds of [_export_detectors] in every
    state, and of the whole export once the geometry can be exported (an
    error of the geometry comes first otherwise). *)
Theorem opening_conflict_iff_not_all_equivalent (options : Options num) :
  let dets := iterclass_delimited (detectors options) in
  let all_equivalent :=
    ∀ d1 d2, d1 ∈ dets → d2 ∈ dets → equivalent_opening d1 d2 = true in
  let conflict :=
    ExporterException "Some delimited detectors do not have the same opening" in
  (2 ≤ length dets)%nat →
  (∀ w, _export_detectors options w = Raise conflict ↔ ¬ all_equivalent) ∧
  (∀ w, all_equivalent → ∃ w', _export_detectors options w = Ok (tt, w')) ∧
  (geometry_exportable options →
   ∀ dirpath w,
     export_wxroptions OptionsFile_new options dirpath w = Raise conflict ↔ ¬ all_equivalent) ∧
  (all_equivalent →
   ∀ dirpath w, export_wxroptions OptionsFile_new options dirpath w ≠ Raise conflict).
Proof.
  intros dets all_equivalent conflict _. split_and!.
  - intros w. apply _export_detectors_conflict.
  - intros w Hall. by apply _export_detectors_equivalent_Ok.
  - intros Hgeometry dirpath w.
    destruct (export_wxroptions_conflict OptionsFile_new options dirpath w) as [Hraise Hne].
    split; [exact Hraise | by apply Hne].
  - intros Hall dirpath w Hraise.
    by apply (proj1 (export_wxroptions_conflict OptionsFile_new options dirpath w)).
Qed.

(** C2. When all delimited detectors of the options have an equivalent
    opening, whatever their number: the detector export returns, with the
    position of the first of them; the export raises no conflict error; it
    produces exactly one record, which holds that position, once the geometry
    and the models can be exported (a substrate has a material, every selected
    model has an entry in the dictionary of its method); and it produces no
    record when the geometry or a model cannot be exported. *)
Theorem one_record_for_equivalent_openings (options : Options num) :
  (∀ d1 d2, d1 ∈ iterclass_delimited (detectors options) →
            d2 ∈ iterclass_delimited (detectors options) →
            equivalent_opening d1 d2 = true) →
  (∀ w, ∃ w', _export_detectors options w = Ok (tt, w') ∧
     ∀ det0 rest, iterclass_delimited (detectors options) = det0 :: rest →
       holds_position det0 (wxrops w')) ∧
  (∀ dirpath w,
     export_wxroptions OptionsFile_new options dirpath w ≠
       Raise (ExporterException "Some delimited detectors do not have the same opening")) ∧
  (geometry_exportable options → models_exportable options →
   ∀ dirpath w, ∃ wxrops_,
     records (export_wxroptions OptionsFile_new options dirpath w) = [wxrops_] ∧
     ∀ det0 rest, iterclass_delimited (detectors options) = det0 :: rest →
       holds_position det0 wxrops_) ∧
  (¬ (geometry_exportable options ∧ models_exportable options) →
   ∀ dirpath w, records (export_wxroptions OptionsFile_new options dirpath w) = []).
Proof.
  intros Hopenings.
  assert (∀ w, ∃ w', _export_detectors options w = Ok (tt, w') ∧
            ∀ det0 rest, iterclass_delimited (detectors options) = det0 :: rest →
              holds_position det0 (wxrops w')) as Hstage.
  { intros w. pose proof Hopenings as Hsame%same_openings_pairwise.
    destruct (_export_detectors_run options w) as (w1 & _ & _ & _ & Hrun).
    rewrite Hsame, andb_false_r in Hrun. eexists. split; [exact Hrun|].
    intros det0 rest Hdets. rewrite Hdets. apply store_position_lookup. }
  split_and!.
  - exact Hstage.
  - intros dirpath w Hraise.
    by apply (proj1 (export_wxroptions_conflict OptionsFile_new options dirpath w)) in Hraise.
  - intros Hgeometry Hmodels dirpath w.
    destruct (export_wxroptions_Ok OptionsFile_new options dirpath w Hgeometry Hmodels
                Hopenings)
      as (wxrops_ & w' & Hexport).
    exists wxrops_. rewrite Hexport. split; [done|].
    intros det0 rest Hdets.
    destruct (export_wxroptions_detectors OptionsFile_new options dirpath w wxrops_ w' Hexport)
      as (w2 & w3 & Hdetectors & Hkeys).
    destruct (Hstage w2) as (w3' & Hrun & Hposition).
    assert (w3' = w3) as -> by congruence.
    unfold holds_position. rewrite !Hkeys by (by apply (bool_decide_unpack _)).
    by apply (Hposition det0 rest).
  - intros Hnot dirpath w.
    destruct (export_wxroptions OptionsFile_new options dirpath w)
      as [[wxrops_ w']|e] eqn:Hexport; [|done].
    destruct Hnot. apply export_wxroptions_stages in Hexport as [_ Hrun].
    apply _run_exporters_stages in Hrun
      as (w1 & w2 & w3 & w4 & _ & Hgeometry & _ & _ & Hmodels).
    split; [by eapply export_geometry_Ok_inv | by eapply export_models_Ok_inv].
Qed.

(** C3. For each of the seven model types, the method of the exporter stores
    the constant the dictionary of the type gives for the selected model, and
    raises a [KeyError] on a model the dictionary has no entry for. *)
Theorem model_mapped_or_KeyError :
  maps_through (num:=num) _model_elastic_cross_section _model_elastic_cross_section_types
    "TypeElectronElasticCrossSection" VElectronElasticCrossSection ∧
  maps_through (num:=num) _model_ionization_cross_section _model_ionization_cross_section_types
    "TypeIonizationCrossSection" VIonizationCrossSection ∧
  maps_through (num:=num) _model_ionization_potential _model_ionization_potential_types
    "TypeIonisationPotential" VIonizationPotential ∧
  maps_through (num:=num) _model_random_number_generator _model_random_number_generator_types
    "TypeRandomGenerator" VRandomNumberGenerator ∧
  maps_through (num:=num) _model_direction_cosine _model_direction_cosine_types
    "TypeDirectionCosines" VDirectionCosine ∧
  maps_through (num:=num) _model_energy_loss _model_energy_loss_types
    "TypeEnergyLoss" VEnergyLoss ∧
  maps_through (num:=num) _model_mass_absorption_coefficient _model_mass_absorption_coefficient_types
    "TypeMac" VMassAbsorptionCoefficient.
Proof.
  split_and!; intros options model w;
    unfold _model_elastic_cross_section, _model_ionization_cross_section,
      _model_ionization_potential, _model_random_number_generator,
      _model_direction_cosine, _model_energy_loss,
      _model_mass_absorption_coefficient, getitem, mbind, M_bind;
    (split; [intros c Hc | intros Hnone]);
    match goal with Hl : _ !! model = _ |- _ => rewrite Hl end; done.
Qed.

(** C4. The channel width of a photon spectrum detector: with [e] the beam
    energy in eV and [c] the channels of the detector, [e / c < 10] selects
    [TYPE_5] and [e // 5] channels, else [e / c < 20] selects [TYPE_10] and
    [e // 10], else [e / c < 40] selects [TYPE_20] and [e // 20], and
    otherwise [TYPE_40] and [e // 40] are stored. *)
Theorem photon_spectrum_channel_width (options : Options num) (name : string)
    (delim : Delimited num) (c : positive) (w : world num) :
  let e := energy_eV (beam options) in
  let ev_per_channel := py_truediv e (py_int (Z.pos c)) in
  ∃ w', _detector_photon_spectrum options name (PhotonSpectrumDetector delim c) w
          = Ok (tt, w') ∧
    (wxrops w' !! "TypeEVChannel", wxrops w' !! "NumberChannel") =
      if py_lt ev_per_channel (py_int 10) then
        (Some (VEvPerChannel EvPerChannel.TYPE_5), Some (VNum (py_floordiv e (py_int 5))))
      else if py_lt ev_per_channel (py_int 20) then
        (Some (VEvPerChannel EvPerChannel.TYPE_10), Some (VNum (py_floordiv e (py_int 10))))
      else if py_lt ev_per_channel (py_int 40) then
        (Some (VEvPerChannel EvPerChannel.TYPE_20), Some (VNum (py_floordiv e (py_int 20))))
      else
        (Some (VEvPerChannel EvPerChannel.TYPE_40), Some (VNum (py_floordiv e (py_int 40)))).
Proof.
  intros e ev_per_channel. unfold _detector_photon_spectrum.
  unfold mbind, M_bind, setopt, channels, mret, M_ret. simpl.
  fold e. fold ev_per_channel.
  destruct (py_lt ev_per_channel (py_int 10));
    [|destruct (py_lt ev_per_channel (py_int 20));
      [|destruct (py_lt ev_per_channel (py_int 40))]];
    (eexists; split; [done|]; simpl;
     by rewrite lookup_insert_ne, !lookup_insert_eq by done).
Qed.

(** C6. Unsupported features are warned about and are no error.  A beam whose
    origin is not zero makes [_beam_gaussian] warn and return, a requested
    tilt or rotation and a density of the material make [_geometry_substrate]
    warn and return, and neither stores anything for the feature; the warnings
    are among those of an export that returns; and whether the export returns
    does not depend on the origin, the tilt, the rotation or the density. *)
Theorem unsupported_features_warn (options : Options num) (w : world num) :
  (∀ beam : Beam num, origin_nonzero beam = true →
     ∃ w1, _beam_gaussian options beam w = Ok (tt, w1) ∧
       warned w1 = (warned w ++ [ExporterWarning "No beam position in WinX-Ray"])%list ∧
       wxrops w1 = store (beam_entries beam) (wxrops w)) ∧
  (∀ (geometry_ : Geometry num) abs_electron_eV,
     min_absorption_energy options = Some abs_electron_eV →
     ∃ w1, _geometry_substrate options geometry_ w = Ok (tt, w1) ∧
       ExporterWarning "WinXRay does not support user defined density" ∈ warned w1 ∧
       (py_eq (tilt_rad (geometry options)) (py_float 0) = false →
        ExporterWarning "WinXRay does not support sample tilt. Use beam tilt instead."
          ∈ warned w1) ∧
       (py_eq (rotation_rad (geometry options)) (py_float 0) = false →
        ExporterWarning "WinXRay does not support sample rotation." ∈ warned w1) ∧
       wxrops w1 = store (geometry_entries geometry_ abs_electron_eV) (wxrops w)) ∧
  (∀ dirpath wxrops_ w',
     export_wxroptions OptionsFile_new options dirpath w = Ok (wxrops_, w') →
     (beam_class (beam options) = GaussianBeam → origin_nonzero (beam options) = true →
      ExporterWarning "No beam position in WinX-Ray" ∈ warned w') ∧
     (geometry_class (geometry options) = Substrate →
      ExporterWarning "WinXRay does not support user defined density" ∈ warned w' ∧
      (py_eq (tilt_rad (geometry options)) (py_float 0) = false →
       ExporterWarning "WinXRay does not support sample tilt. Use beam tilt instead."
         ∈ warned w') ∧
      (py_eq (rotation_rad (geometry options)) (py_float 0) = false →
       ExporterWarning "WinXRay does not support sample rotation." ∈ warned w'))) ∧
  (geometry_exportable options → models_exportable options →
   (∀ d1 d2, d1 ∈ iterclass_delimited (detectors options) →
             d2 ∈ iterclass_delimited (detectors options) →
             equivalent_opening d1 d2 = true) →
   ∀ dirpath, ∃ wxrops_ w',
     export_wxroptions OptionsFile_new options dirpath w = Ok (wxrops_, w')).
Proof.
  destruct (unsupported_features_methods options w) as [Hbeam Hgeometry].
  split_and!; [exact Hbeam | exact Hgeometry | |].
  - intros dirpath wxrops_ w'. apply export_wxroptions_warnings.
  - intros Hgeom Hmodels Hopenings dirpath. by apply export_wxroptions_Ok.
Qed.

(** C7. In the record of an export of options that carry a showers limit, the
    number of electrons is the showers of that limit, unchanged. *)
Theorem showers_copied_verbatim (options : Options num) (dirpath : option string)
    (w w' : world num) (wxrops_ : OptionsFile num) (showers : Z) :
  export_wxroptions OptionsFile_new options dirpath w = Ok (wxrops_, w') →
  ShowersLimit showers ∈ limits options →
  (∀ s, ShowersLimit s ∈ limits options → s = showers) →
  wxrops_ !! "NbElectron" = Some (VInt showers).
Proof.
  intros Hexport Hin Hall. rewrite export_wxroptions_run in Hexport.
  destruct (_run_exporters _ _) as [[[] w5]|] eqn:Hrun; [|done].
  injection Hexport as <- <-.
  apply _run_exporters_stages in Hrun
    as (w1 & w2 & w3 & w4 & _ & _ & _ & Hlimits & Hmodels).
  eapply (export_models_footprint options
            (λ w, wxrops w !! "NbElectron" = Some (VInt showers))); [|exact Hmodels|].
  - by apply not_in_keys_lookup.
  - eapply export_limits_showers; [exact Hlimits | done | by left].
Qed.

(** C8. A call of [_export] that returns has written the options file to one
    path, [dirpath] joined with the name of the options followed by [.wxc],
    and returns that path: the file written there is the exported record, and
    every other path is as it was. *)
Theorem export_writes_one_file (options : Options num) (dirpath : string)
    (w w' : world num) (filepath : string) :
  _export OptionsFile_new os_path_join options dirpath w = Ok (filepath, w') →
  filepath = os_path_join dirpath (name options ++ ".wxc") ∧
  ∃ wxrops_ w1,
    export_wxroptions OptionsFile_new options (Some dirpath) w = Ok (wxrops_, w1) ∧
    files w' = <[filepath := wxrops_]> (files w) ∧
    ∀ path, path ≠ filepath → files w' !! path = files w !! path.
Proof.
  rewrite _export_run.
  destruct (export_wxroptions _ _ _ _) as [[wxrops_ w1]|] eqn:Hexport; [|done].
  intros [= <- <-]. split; [done|]. exists wxrops_, w1.
  apply export_wxroptions_files in Hexport as [Hfiles _].
  cbn [files]. rewrite Hfiles. split_and!; [done..|].
  intros path Hpath. by rewrite lookup_insert_ne.
Qed.

(** C9. The detector export sets every compute flag to [False] before it
    dispatches the detectors, so a compute flag that no detector of the options
    turns on is [False] in the record it produces, and in the record of the
    whole export.  (A flag is turned on by the detectors present, not by its
    kind alone: the flags of the backscattered electron energy are also those
    of an electron fraction detector.) *)
Theorem absent_detector_flags_stay_false (options : Options num) (flag : string) :
  flag ∈ compute_flags →
  (∀ item, item ∈ detectors options → flag ∉ flags_of item.2) →
  (∀ w w', _export_detectors options w = Ok (tt, w') →
     wxrops w' !! flag = Some (VBool false)) ∧
  (∀ dirpath w wxrops_ w',
     export_wxroptions OptionsFile_new options dirpath w = Ok (wxrops_, w') →
     wxrops_ !! flag = Some (VBool false)).
Proof.
  intros Hflag Habsent.
  assert (∀ w w', _export_detectors options w = Ok (tt, w') →
            wxrops w' !! flag = Some (VBool false)) as Hstage.
  { intros w w' Hrun.
    rewrite (_export_detectors_flags options w w' flag Hrun Hflag),
      bool_decide_eq_false_2; [done|].
    intros (item & Hin & Hon)%Exists_exists. by eapply Habsent. }
  split; [exact Hstage|].
  intros dirpath w wxrops_ w' Hexport.
  destruct (export_wxroptions_detectors OptionsFile_new options dirpath w wxrops_ w' Hexport)
    as (w2 & w3 & Hdetectors & Hkeys).
  rewrite Hkeys; [by eapply Hstage | apply elem_of_app; by left].
Qed.

(** C10. With exactly one delimited detector the conflict error cannot be
    raised: the detector export returns, and the position it stores (take-off
    angle in degrees, theta = 90 - take-off angle, phi = half the sum of the
    azimuth bounds in degrees, the solid angle) is that of this detector, in
    its record and in the record of the whole export. *)
Theorem single_delimited_detector_position (options : Options num) (det : Delimited num) :
  iterclass_delimited (detectors options) = [det] →
  (∀ w, ∃ w', _export_detectors options w = Ok (tt, w') ∧
     holds_position det (wxrops w')) ∧
  (∀ dirpath w,
     export_wxroptions OptionsFile_new options dirpath w ≠
       Raise (ExporterException "Some delimited detectors do not have the same opening") ∧
     ∀ wxrops_ w',
       export_wxroptions OptionsFile_new options dirpath w = Ok (wxrops_, w') →
       holds_position det wxrops_).
Proof.
  intros Hdets. split; [intros w; by apply _export_detectors_single|].
  intros dirpath w. split.
  - intros Hraise%export_wxroptions_raise.
    apply _run_exporters_conflict in Hraise as (w2 & Hraise).
    destruct (_export_detectors_single options w2 det Hdets) as (w3 & Hrun & _).
    congruence.
  - intros wxrops_ w' Hexport.
    destruct (export_wxroptions_detectors OptionsFile_new options dirpath w wxrops_ w' Hexport)
      as (w2 & w3 & Hdetectors & Hkeys).
    destruct (_export_detectors_single options w2 det Hdets) as (w3' & Hrun & Hposition).
    assert (w3' = w3) as -> by congruence.
    unfold holds_position in *.
    rewrite !Hkeys by (by apply (bool_decide_unpack _)). exact Hposition.
Qed.

End Claims.

Set Warnings "-inexact-float".

(** C5. The unit conversions of the exporter are fixed.  In the record of an
    export, the beam energy is [energy_eV / 1000.0] (eV to keV) and the beam
    diameter is [diameter_m * 1e9] (m to nm) for a Gaussian beam, and the
    angles of the detector position are [math.degrees] of the radian values of
    the first delimited detector; on binary64 numbers 1234 eV gives exactly
    1.234 keV. *)
Theorem unit_conversions_fixed :
  (∀ num (H : PyNumber num) (OptionsFile_new : OptionsFile num) (options : Options num)
     (dirpath : option string) (w w' : world num) (wxrops_ : OptionsFile num),
     export_wxroptions OptionsFile_new options dirpath w = Ok (wxrops_, w') →
     (beam_class (beam options) = GaussianBeam →
      wxrops_ !! "IncidentEnergy_keV" =
        Some (VNum (py_truediv (energy_eV (beam options)) (py_float 1000))) ∧
      wxrops_ !! "BeamDiameter_nm" =
        Some (VNum (py_mul (diameter_m (beam options)) (py_float (10 ^ 9))))) ∧
     (∀ det0 rest, iterclass_delimited (detectors options) = det0 :: rest →
      wxrops_ !! "TOA_deg" = Some (VNum (math_degrees (takeoffangle_rad det0))) ∧
      wxrops_ !! "AnglePhiDetector_deg" =
        Some (VNum (math_degrees (py_truediv (py_sum2 (azimuth_rad det0)) (py_float 2)))))) ∧
  (∀ (OptionsFile_new : OptionsFile float) (options : Options float)
     (dirpath : option string) (w w' : world float) (wxrops_ : OptionsFile float),
     export_wxroptions OptionsFile_new options dirpath w = Ok (wxrops_, w') →
     beam_class (beam options) = GaussianBeam →
     energy_eV (beam options) = 1234%float →
     wxrops_ !! "IncidentEnergy_keV" = Some (VNum 1.234%float)).
Proof.
  split.
  - intros num H OptionsFile_new options dirpath w w' wxrops_ Hexport.
    destruct (export_wxroptions_entries OptionsFile_new options dirpath w w' wxrops_ Hexport)
      as [Hbeam Hposition].
    split.
    + intros Hclass. destruct (Hbeam Hclass) as (Henergy & _ & _ & Hdiameter). done.
    + intros det0 rest Hdets. destruct (Hposition det0 rest Hdets) as (Htoa & _ & Hphi). done.
  - intros OptionsFile_new options dirpath w w' wxrops_ Hexport Hclass Henergy.
    destruct (export_wxroptions_entries OptionsFile_new options dirpath w w' wxrops_ Hexport)
      as [Hbeam _].
    destruct (Hbeam Hclass) as (-> & _). by rewrite Henergy.
Qed.

(** ** The properties on the sample options *)

Lemma opening_conflict_witness :
  (2 ≤ length (iterclass_delimited (detectors options_conflict)))%nat ∧
  _export_detectors options_conflict empty_world =
    Raise (ExporterException "Some delimited detectors do not have the same opening") ∧
  export_wxroptions ∅ options_conflict (Some "/tmp") empty_world =
    Raise (ExporterException "Some delimited detectors do not have the same opening").
Proof.
  assert (2 ≤ length (iterclass_delimited (detectors options_conflict)))%nat as Hlen
    by (vm_compute; constructor).
  assert (¬ ∀ d1 d2, d1 ∈ iterclass_delimited (detectors options_conflict) →
                     d2 ∈ iterclass_delimited (detectors options_conflict) →
                     equivalent_opening d1 d2 = true) as Hne.
  { intros Hall.
    assert (equivalent_opening opening_a opening_b = true) as Heq
      by (apply Hall; [left | right; left]).
    vm_compute in Heq. discriminate Heq. }
  destruct (opening_conflict_iff_not_all_equivalent ∅ options_conflict Hlen)
    as (Hstage & _ & Hexport & _).
  split_and!.
  - exact Hlen.
  - by apply Hstage.
  - apply Hexport; [|exact Hne]. intros _. discriminate.
Defined.

Lemma options_same_opening_exportable :
  geometry_exportable options_same_opening ∧ models_exportable options_same_opening ∧
  ∀ d1 d2, d1 ∈ iterclass_delimited (detectors options_same_opening) →
           d2 ∈ iterclass_delimited (detectors options_same_opening) →
           equivalent_opening d1 d2 = true.
Proof.
  split_and!.
  - intros _. discriminate.
  - intros model Hin. apply list_elem_of_singleton in Hin as ->. vm_compute. reflexivity.
  - apply same_openings_pairwise. vm_compute. reflexivity.
Qed.

Lemma one_record_witness :
  ∃ wxrops_,
    records (export_wxroptions ∅ options_same_opening (Some "/tmp") empty_world) = [wxrops_] ∧
    wxrops_ !! "TOA_deg" = Some (VNum (Binary64.degrees 0.5)) ∧
    wxrops_ !! "SolidAngle_sr" = Some (VNum 0.25%float).
Proof.
  destruct options_same_opening_exportable as (Hgeometry & Hmodels & Hopenings).
  destruct (one_record_for_equivalent_openings ∅ options_same_opening Hopenings)
    as (_ & _ & Hone & _).
  destruct (Hone Hgeometry Hmodels (Some "/tmp") empty_world) as (wxrops_ & Hrecords & Hposition).
  exists wxrops_. split; [exact Hrecords|].
  destruct (Hposition opening_a [opening_a] eq_refl) as (Htoa & _ & _ & _ & Hsolid).
  split; [exact Htoa | exact Hsolid].
Defined.

(** Options whose delimited detectors all have the same opening and that
    select a model without an entry: the export raises the [KeyError] of the
    model and produces no record. *)
Lemma one_record_counterexample :
  (∀ d1 d2, d1 ∈ iterclass_delimited (detectors options_unmapped) →
            d2 ∈ iterclass_delimited (detectors options_unmapped) →
            equivalent_opening d1 d2 = true) ∧
  export_wxroptions ∅ options_unmapped (Some "/tmp") empty_world =
    Raise (KeyError (Attr ELASTIC_CROSS_SECTION "elsepa2005")) ∧
  records (export_wxroptions ∅ options_unmapped (Some "/tmp") empty_world) = [].
Proof.
  assert (export_wxroptions ∅ options_unmapped (Some "/tmp") empty_world =
            Raise (KeyError (Attr ELASTIC_CROSS_SECTION "elsepa2005"))) as Hraise
    by (vm_compute; reflexivity).
  split_and!.
  - apply same_openings_pairwise. vm_compute. reflexivity.
  - exact Hraise.
  - by rewrite Hraise.
Qed.

Lemma model_mapped_witness :
  _model_elastic_cross_section options_spectrum (Attr ELASTIC_CROSS_SECTION "rutherford")
    empty_world =
    Ok (tt, World {["TypeElectronElasticCrossSection" :=
                      VElectronElasticCrossSection ElectronElasticCrossSection.TYPE_RUTHERFORD]}
              [] ∅) ∧
  _model_elastic_cross_section options_spectrum (Attr ELASTIC_CROSS_SECTION "elsepa2005")
    empty_world = Raise (KeyError (Attr ELASTIC_CROSS_SECTION "elsepa2005")).
Proof.
  split.
  - apply (proj1 (proj1 (@model_mapped_or_KeyError float) options_spectrum
                    (Attr ELASTIC_CROSS_SECTION "rutherford") empty_world)).
    vm_compute. reflexivity.
  - apply (proj2 (proj1 (@model_mapped_or_KeyError float) options_spectrum
                    (Attr ELASTIC_CROSS_SECTION "elsepa2005") empty_world)).
    vm_compute. reflexivity.
Defined.

Lemma channel_width_witness :
  ∃ w', _detector_photon_spectrum options_spectrum "spectrum"
          (PhotonSpectrumDetector opening_b 100) empty_world = Ok (tt, w') ∧
    (wxrops w' !! "TypeEVChannel", wxrops w' !! "NumberChannel") =
      (Some (VEvPerChannel EvPerChannel.TYPE_10), Some (VNum 123%float)).
Proof.
  destruct (photon_spectrum_channel_width options_spectrum "spectrum" opening_b 100
              empty_world) as (w' & Hrun & Hentries).
  exists w'. split; [exact Hrun|]. rewrite Hentries. vm_compute. reflexivity.
Defined.

Lemma unit_conversions_witness :
  ∃ wxrops_ w',
    export_wxroptions ∅ options_same_opening (Some "/tmp") empty_world = Ok (wxrops_, w') ∧
    wxrops_ !! "IncidentEnergy_keV" = Some (VNum 1.234%float) ∧
    wxrops_ !! "BeamDiameter_nm" = Some (VNum 10%float) ∧
    wxrops_ !! "TOA_deg" = Some (VNum (Binary64.degrees 0.5)).
Proof.
  destruct options_same_opening_exportable as (Hgeometry & Hmodels & Hopenings).
  destruct (export_wxroptions_Ok ∅ options_same_opening (Some "/tmp") empty_world
              Hgeometry Hmodels Hopenings) as (wxrops_ & w' & Hexport).
  exists wxrops_, w'. split; [exact Hexport|].
  destruct unit_conversions_fixed as [Hall H1234].
  destruct (Hall float _ ∅ options_same_opening (Some "/tmp") empty_world w' wxrops_ Hexport)
    as [Hbeam Hposition].
  destruct (Hbeam eq_refl) as [_ Hdiameter].
  destruct (Hposition opening_a [opening_a] eq_refl) as [Htoa _].
  split_and!.
  - exact (H1234 ∅ options_same_opening (Some "/tmp") empty_world w' wxrops_ Hexport
             eq_refl eq_refl).
  - rewrite Hdiameter. vm_compute. reflexivity.
  - exact Htoa.
Defined.

Lemma unsupported_features_witness :
  ∃ w1, _beam_gaussian options_same_opening (beam options_same_opening) empty_world
          = Ok (tt, w1) ∧
    warned w1 = [ExporterWarning "No beam position in WinX-Ray"].
Proof.
  assert (origin_nonzero (beam options_same_opening) = true) as Horigin
    by (vm_compute; reflexivity).
  destruct (proj1 (unsupported_features_warn ∅ options_same_opening empty_world)
              (beam options_same_opening) Horigin) as (w1 & Hrun & Hwarned & _).
  exists w1. split; [exact Hrun | exact Hwarned].
Defined.

Lemma showers_witness :
  ∃ wxrops_ w',
    export_wxroptions ∅ options_same_opening (Some "/tmp") empty_world = Ok (wxrops_, w') ∧
    wxrops_ !! "NbElectron" = Some (VInt 5678).
Proof.
  destruct options_same_opening_exportable as (Hgeometry & Hmodels & Hopenings).
  destruct (export_wxroptions_Ok ∅ options_same_opening (Some "/tmp") empty_world
              Hgeometry Hmodels Hopenings) as (wxrops_ & w' & Hexport).
  exists wxrops_, w'. split; [exact Hexport|].
  apply (showers_copied_verbatim ∅ options_same_opening (Some "/tmp") empty_world
           w' wxrops_ 5678 Hexport).
  - right. left.
  - intros s [Hs|[Hs|Hs]%elem_of_cons]%elem_of_cons.
    + discriminate Hs.
    + by injection Hs.
    + by apply elem_of_nil in Hs.
Defined.

Lemma export_file_witness :
  ∃ w', _export ∅ posixpath.join options_same_opening "/tmp" empty_world
          = Ok ("/tmp/Test.wxc", w').
Proof.
  destruct options_same_opening_exportable as (Hgeometry & Hmodels & Hopenings).
  destruct (_export_Ok ∅ posixpath.join options_same_opening "/tmp" empty_world
              Hgeometry Hmodels Hopenings) as (filepath & w' & Hexport).
  exists w'.
  destruct (export_writes_one_file ∅ posixpath.join options_same_opening "/tmp"
              empty_world w' filepath Hexport) as [Hpath _].
  rewrite Hexport, Hpath. reflexivity.
Defined.

Lemma absent_flags_witness :
  ∃ w', _export_detectors options_same_opening empty_world = Ok (tt, w') ∧
    wxrops w' !! "ComputeBSEAngular" = Some (VBool false).
Proof.
  destruct options_same_opening_exportable as (_ & _ & Hopenings).
  destruct (_export_detectors_equivalent_Ok options_same_opening empty_world Hopenings)
    as (w' & Hexport).
  exists w'. split; [exact Hexport|].
  refine (proj1 (absent_detector_flags_stay_false ∅ options_same_opening
                   "ComputeBSEAngular" _ _) empty_world w' Hexport).
  - by apply (bool_decide_unpack _).
  - intros item Hitem.
    repeat (apply elem_of_cons in Hitem as [->|Hitem]);
      [by apply (bool_decide_unpack _)..|by apply elem_of_nil in Hitem].
Defined.

(** Options with an electron fraction detector and no backscattered electron
    energy detector: the compute flags of the backscattered electron energy
    are on all the same. *)
Lemma absent_flags_counterexample :
  "ComputeBSEEnergy" ∈ flags_of (BackscatteredElectronEnergyDetector (num:=float) 1) ∧
  (∀ item, item ∈ detectors options_fraction →
     ∀ c, item.2 ≠ BackscatteredElectronEnergyDetector c) ∧
  ∃ w', _export_detectors options_fraction empty_world = Ok (tt, w') ∧
    wxrops w' !! "ComputeBSEEnergy" = Some (VBool true) ∧
    wxrops w' !! "ComputeBSEDistribution" = Some (VBool true).
Proof.
  split_and!.
  - by apply (bool_decide_unpack _).
  - intros item ->%list_elem_of_singleton c. discriminate.
  - destruct (_export_detectors_equivalent_Ok options_fraction empty_world) as (w' & Hrun).
    { intros d1 d2 Hd1. by apply elem_of_nil in Hd1. }
    exists w'. split; [exact Hrun|]. split.
    + rewrite (_export_detectors_flags options_fraction empty_world w' _ Hrun)
        by (by apply (bool_decide_unpack _)).
      do 2 f_equal.
    + rewrite (_export_detectors_flags options_fraction empty_world w' _ Hrun)
        by (by apply (bool_decide_unpack _)).
      do 2 f_equal.
Qed.

Lemma single_detector_witness :
  ∃ w', _export_detectors options_spectrum empty_world = Ok (tt, w') ∧
    wxrops w' !! "TOA_deg" = Some (VNum (Binary64.degrees 0.75)) ∧
    wxrops w' !! "AngleThetaDetector_deg" = Some (VNum (90 - Binary64.degrees 0.75)%float) ∧
    wxrops w' !! "AnglePhiDetector_deg" = Some (VNum (Binary64.degrees 2.5)) ∧
    wxrops w' !! "SolidAngle_sr" = Some (VNum 0.125%float).
Proof.
  destruct (proj1 (single_delimited_detector_position ∅ options_spectrum opening_b eq_refl)
              empty_world) as (w' & Hrun & Htoa & Htheta & Hphi & _ & Hsolid).
  exists w'. split; [exact Hrun|]. split_and!.
  - exact Htoa.
  - exact Htheta.
  - rewrite Hphi. vm_compute. reflexivity.
  - exact Hsolid.
Defined.

(** ** Further properties of the exporter *)

(** *** The outcome of an export *)

Section Outcome.
Context `{PyNumber num}.
Variable OptionsFile_new : OptionsFile num.

(** X1. What an export that returns tells about the options.
    [export_wxroptions] returns a record, and [_export] a path, only for
    options in which a substrate has a material, all delimited detectors have
    an equivalent opening, and every selected model of an exported model type
    has an entry in the dictionary of its method: options that miss one of
    the three yield no record. *)
Theorem export_returns_only_if (options : Options num) :
  let exportable :=
    geometry_exportable options ∧
    (∀ d1 d2, d1 ∈ iterclass_delimited (detectors options) →
              d2 ∈ iterclass_delimited (detectors options) →
              equivalent_opening d1 d2 = true) ∧
    models_exportable options in
  (∀ dirpath w wxrops_ w',
     export_wxroptions OptionsFile_new options dirpath w = Ok (wxrops_, w') → exportable) ∧
  (∀ os_path_join dirpath w filepath w',
     _export OptionsFile_new os_path_join options dirpath w = Ok (filepath, w') →
     exportable).
Proof.
  intros exportable.
  assert (∀ dirpath w wxrops_ w',
     export_wxroptions OptionsFile_new options dirpath w = Ok (wxrops_, w') → exportable)
    as Hrecord.
  { intros dirpath w wxrops_ w' [_ Hrun]%export_wxroptions_stages.
    apply _run_exporters_stages in Hrun
      as (w1 & w2 & w3 & w4 & _ & Hgeometry & Hdetectors & _ & Hmodels).
    split_and!.
    - by eapply export_geometry_Ok_inv.
    - by eapply _export_detectors_Ok_inv.
    - by eapply export_models_Ok_inv. }
  split; [exact Hrecord|].
  intros os_path_join dirpath w filepath w'. rewrite _export_run.
  destruct (export_wxroptions _ _ _ _) as [[wxrops_ w1]|e] eqn:Hexport; [|done].
  intros _. by eapply Hrecord.
Qed.

End Outcome.

(** *** The entries of the record *)

Ltac footprint_of HP :=
  repeat first
    [ apply preserves_setopt; intros ? ?; apply (proj1 HP);
        [by apply (bool_decide_unpack _) | done]
    | apply preserves_warn; intros ? ?; by apply (proj2 HP)
    | frame_step ].

Section Entries.
Context `{PyNumber num}.
Variable OptionsFile_new : OptionsFile num.

(** The stages of an export that returns. *)
Lemma export_wxroptions_chain (options : Options num) dirpath w wxrops_ w' :
  export_wxroptions OptionsFile_new options dirpath w = Ok (wxrops_, w') →
  ∃ w1 w2 w3 w4,
    _Exporter_export_beam _beam_exporters options (initial_world OptionsFile_new dirpath w)
      = Ok (tt, w1) ∧
    _Exporter_export_geometry _geometry_exporters options w1 = Ok (tt, w2) ∧
    _export_detectors options w2 = Ok (tt, w3) ∧
    _Exporter_export_limits _limit_exporters options w3 = Ok (tt, w4) ∧
    _Exporter_export_models _model_exporters options w4 = Ok (tt, w') ∧
    wxrops_ = wxrops w'.
Proof.
  intros [-> Hrun]%export_wxroptions_stages.
  apply _run_exporters_stages in Hrun as (w1 & w2 & w3 & w4 & ? & ? & ? & ? & ?).
  by exists w1, w2, w3, w4.
Qed.

(** An entry that no stage writes is, after the export, as it was when the
    exporters started. *)
Lemma export_wxroptions_untouched (options : Options num) dirpath w wxrops_ w' key :
  export_wxroptions OptionsFile_new options dirpath w = Ok (wxrops_, w') →
  key ∉ export_keys →
  wxrops_ !! key = wxrops (initial_world OptionsFile_new dirpath w) !! key.
Proof.
  intros [-> Hrun]%export_wxroptions_stages Hkey.
  by eapply (_run_exporters_footprint options
               (λ w1, wxrops w1 !! key =
                        wxrops (initial_world OptionsFile_new dirpath w) !! key)
               (outside_lookup _ _ _ Hkey)).
Qed.

(** X3. The record of an export has the save flag on and, when a directory is
    given, the directory as its results path (that of [OptionsFile()] when
    none is given); the file [_export] writes holds both. *)
Theorem results_path_and_save_flag (options : Options num) :
  (∀ dirpath w wxrops_ w',
     export_wxroptions OptionsFile_new options dirpath w = Ok (wxrops_, w') →
     wxrops_ !! "SaveFile" = Some (VBool true) ∧
     wxrops_ !! "ResultsPath" =
       match dirpath with
       | Some d => Some (VStr d)
       | None => OptionsFile_new !! "ResultsPath"
       end) ∧
  (∀ os_path_join dirpath w filepath w',
     _export OptionsFile_new os_path_join options dirpath w = Ok (filepath, w') →
     ∃ wxrops_, files w' !! filepath = Some wxrops_ ∧
       wxrops_ !! "SaveFile" = Some (VBool true) ∧
       wxrops_ !! "ResultsPath" = Some (VStr dirpath)).
Proof.
  assert (∀ dirpath w wxrops_ w',
     export_wxroptions OptionsFile_new options dirpath w = Ok (wxrops_, w') →
     wxrops_ !! "SaveFile" = Some (VBool true) ∧
     wxrops_ !! "ResultsPath" =
       match dirpath with
       | Some d => Some (VStr d)
       | None => OptionsFile_new !! "ResultsPath"
       end) as Hrecord.
  { intros dirpath w wxrops_ w' Hexport. split.
    - rewrite (export_wxroptions_untouched options dirpath w wxrops_ w' _ Hexport)
        by (by apply (bool_decide_unpack _)).
      unfold initial_world. cbn [wxrops]. by rewrite lookup_insert_eq.
    - rewrite (export_wxroptions_untouched options dirpath w wxrops_ w' _ Hexport)
        by (by apply (bool_decide_unpack _)).
      unfold initial_world. cbn [wxrops]. rewrite lookup_insert_ne by done.
      destruct dirpath; [by rewrite lookup_insert_eq | done]. }
  split; [exact Hrecord|].
  intros os_path_join dirpath w filepath w'. rewrite _export_run.
  destruct (export_wxroptions _ _ _ _) as [[wxrops_ w1]|] eqn:Hexport; [|done].
  intros [= <- <-]. exists wxrops_. cbn [files]. rewrite lookup_insert_eq.
  split; [done|]. exact (Hrecord (Some dirpath) w wxrops_ w1 Hexport).
Qed.

(** X4. The export writes no other entry: an entry that is neither the results
    path, the save flag nor one of the entries of the beam, geometry, detector,
    limit and model methods is in the record as [OptionsFile()] made it (so the
    mean density and the beam direction are never set); and
    [export_wxroptions] writes no file. *)
Theorem export_leaves_other_entries (options : Options num) (dirpath : option string)
    (w w' : world num) (wxrops_ : OptionsFile num) :
  export_wxroptions OptionsFile_new options dirpath w = Ok (wxrops_, w') →
  (∀ key, key ∉ "ResultsPath" :: "SaveFile" :: export_keys →
     wxrops_ !! key = OptionsFile_new !! key) ∧
  files w' = files w.
Proof.
  intros Hexport. split; [|by eapply export_wxroptions_files].
  intros key Hkey.
  rewrite (export_wxroptions_untouched options dirpath w wxrops_ w' key Hexport).
  - unfold initial_world. cbn [wxrops].
    rewrite lookup_insert_ne by (intros <-; apply Hkey; right; left).
    destruct dirpath; [|done].
    rewrite lookup_insert_ne by (intros <-; apply Hkey; left). done.
  - intros Hin. apply Hkey. by do 2 right.
Qed.

(** X5. In the record of an export every compute flag is set, and it is [True]
    exactly when some detector of the options is of a class whose method turns
    the flag on, wherever the detector stands in the collection. *)
Theorem compute_flag_on_iff (options : Options num) (dirpath : option string)
    (w w' : world num) (wxrops_ : OptionsFile num) (flag : string) :
  export_wxroptions OptionsFile_new options dirpath w = Ok (wxrops_, w') →
  flag ∈ compute_flags →
  (∃ b, wxrops_ !! flag = Some (VBool b)) ∧
  (wxrops_ !! flag = Some (VBool true) ↔
   ∃ item, item ∈ detectors options ∧ flag ∈ flags_of item.2).
Proof.
  intros Hexport Hflag.
  destruct (export_wxroptions_detectors OptionsFile_new options dirpath w wxrops_ w' Hexport)
    as (w2 & w3 & Hdetectors & Hkeys).
  rewrite Hkeys by (apply elem_of_app; by left).
  rewrite (_export_detectors_flags options w2 w3 flag Hdetectors Hflag).
  split; [by eexists|]. rewrite <- Exists_exists.
  case_bool_decide; split; [done | done | discriminate | done].
Qed.

(** X6. With one or more delimited detectors, the record of an export that
    returns holds the position of the first of them (its take-off angle and its
    solid angle), and the angle phi it holds is that of the azimuth range of
    every one of them. *)
Theorem position_of_first_delimited_detector (options : Options num)
    (dirpath : option string) (w w' : world num) (wxrops_ : OptionsFile num)
    (det0 : Delimited num) (rest : list (Delimited num)) :
  export_wxroptions OptionsFile_new options dirpath w = Ok (wxrops_, w') →
  iterclass_delimited (detectors options) = det0 :: rest →
  holds_position det0 wxrops_ ∧
  ∀ det, det ∈ rest →
    wxrops_ !! "AnglePhiDetector_deg" =
      Some (VNum (math_degrees (py_truediv (py_sum2 (azimuth_rad det)) (py_float 2)))).
Proof.
  intros Hexport Hdets.
  destruct (export_wxroptions_detectors OptionsFile_new options dirpath w wxrops_ w' Hexport)
    as (w2 & w3 & Hdetectors & Hkeys).
  assert (holds_position det0 wxrops_) as Hposition.
  { destruct (_export_detectors_run options w2) as (w1 & _ & _ & _ & Hrun).
    rewrite Hdetectors, Hdets in Hrun. destruct (_ && _); [discriminate|].
    injection Hrun as ->. unfold holds_position.
    rewrite !Hkeys by (by apply (bool_decide_unpack _)).
    apply store_position_lookup. }
  split; [exact Hposition|]. intros det Hdet.
  pose proof (_export_detectors_Ok_inv options w2 w3 Hdetectors det det0) as Heq.
  rewrite Hdets in Heq.
  apply equivalent_opening_true in Heq; [|by right|left].
  injection Heq as _ ->.
  by destruct Hposition as (_ & _ & Hphi & _).
Qed.


(** *** Detector position and beam *)

(** A stage leaves the entries it does not write. *)
Lemma stage_keeps {A} (m : M num A) (keys : list string) key w a w' :
  (∀ P : world num → Prop, outside keys P → preserves P m) →
  key ∉ keys → m w = Ok (a, w') → wxrops w' !! key = wxrops w !! key.
Proof.
  intros Hm Hkey Hrun.
  by eapply (Hm (λ w1, wxrops w1 !! key = wxrops w !! key) (outside_lookup _ _ _ Hkey)).
Qed.

(** The exporters start from [OptionsFile()] but for the results path and the
    save flag. *)
Lemma initial_world_lookup dirpath (w : world num) key :
  key ∉ ["ResultsPath"; "SaveFile"] →
  wxrops (initial_world OptionsFile_new dirpath w) !! key = OptionsFile_new !! key.
Proof.
  intros Hkey. unfold initial_world. cbn [wxrops].
  rewrite lookup_insert_ne by (intros <-; apply Hkey; right; left).
  destruct dirpath; [|done].
  rewrite lookup_insert_ne by (intros <-; apply Hkey; left). done.
Qed.

(** Without a delimited detector the detector export writes the compute flags
    and the parameters of the detectors only. *)
Lemma _export_detectors_undelimited (options : Options num) (P : world num → Prop) :
  iterclass_delimited (detectors options) = [] →
  outside (compute_flags ++ parameter_keys)%list P → preserves P (_export_detectors options).
Proof.
  intros Hdets HP. unfold _export_detectors, _Exporter_export_detectors.
  rewrite Hdets.
  do 21 (apply preserves_bind; [footprint_of HP | intros _]).
  apply preserves_bind; [|intros _].
  - apply preserves_for_each. intros [name []] _; simpl;
      unfold _detector_backscattered_electron_energy,
        _detector_backscattered_electron_polar_angular, _detector_photondetector,
        _detector_photon_intensity, _detector_photon_spectrum,
        _detector_electron_fraction, _detector_time; simpl; footprint_of HP.
  - simpl. footprint_of HP.
Qed.

(** X7. Options without a delimited detector raise no conflict error, and
    their export leaves the entries of the detector position as
    [OptionsFile()] made them. *)
Theorem no_delimited_detector_no_position (options : Options num)
    (dirpath : option string) (w : world num) :
  iterclass_delimited (detectors options) = [] →
  export_wxroptions OptionsFile_new options dirpath w ≠
    Raise (ExporterException "Some delimited detectors do not have the same opening") ∧
  ∀ wxrops_ w',
    export_wxroptions OptionsFile_new options dirpath w = Ok (wxrops_, w') →
    ∀ key, key ∈ position_keys → wxrops_ !! key = OptionsFile_new !! key.
Proof.
  intros Hdets. split.
  - intros Hraise.
    apply (proj1 (export_wxroptions_conflict OptionsFile_new options dirpath w)) in Hraise.
    apply Hraise. rewrite Hdets. intros d1 d2 Hd1. by apply elem_of_nil in Hd1.
  - intros wxrops_ w' Hexport key Hkey.
    assert ((key ∉ model_keys) ∧ (key ∉ limit_keys) ∧
            (key ∉ (compute_flags ++ parameter_keys)%list) ∧
            (key ∉ geometry_keys) ∧ (key ∉ beam_keys) ∧ (key ∉ ["ResultsPath"; "SaveFile"]))
      as (Hm & Hl & Hd & Hg & Hb & Hi).
    { unfold position_keys in Hkey.
      repeat (apply elem_of_cons in Hkey as [->|Hkey]); [..|by apply elem_of_nil in Hkey];
        split_and!; by apply (bool_decide_unpack _). }
    apply export_wxroptions_chain in Hexport
      as (w1 & w2 & w3 & w4 & Hbeam & Hgeometry & Hdetectors & Hlimits & Hmodels & ->).
    rewrite (stage_keeps _ model_keys key _ _ _ (export_models_footprint options) Hm Hmodels).
    rewrite (stage_keeps _ limit_keys key _ _ _ (export_limits_footprint options) Hl Hlimits).
    rewrite (stage_keeps _ (compute_flags ++ parameter_keys)%list key _ _ _
               (λ P, _export_detectors_undelimited options P Hdets) Hd Hdetectors).
    rewrite (stage_keeps _ geometry_keys key _ _ _ (export_geometry_footprint options) Hg
               Hgeometry).
    rewrite (stage_keeps _ beam_keys key _ _ _ (export_beam_footprint options) Hb Hbeam).
    by apply initial_world_lookup.
Qed.

(** X8. A Gaussian beam is exported as a run at a single energy: multi-energy
    off, start and end energy equal to the beam energy in keV, one energy
    step. *)
Theorem gaussian_beam_single_energy (options : Options num) (dirpath : option string)
    (w w' : world num) (wxrops_ : OptionsFile num) :
  export_wxroptions OptionsFile_new options dirpath w = Ok (wxrops_, w') →
  beam_class (beam options) = GaussianBeam →
  let energy_keV := py_truediv (energy_eV (beam options)) (py_float 1000) in
  wxrops_ !! "MultiEnergy" = Some (VBool false) ∧
  wxrops_ !! "StartEnergy_keV" = Some (VNum energy_keV) ∧
  wxrops_ !! "EndEnergy_keV" = Some (VNum energy_keV) ∧
  wxrops_ !! "StepEnergy_keV" = Some (VInt 1) ∧
  wxrops_ !! "NbStepEnergy" = Some (VInt 1).
Proof.
  intros Hexport Hclass energy_keV.
  apply export_wxroptions_chain in Hexport
    as (w1 & w2 & w3 & w4 & Hbeam & Hgeometry & Hdetectors & Hlimits & Hmodels & ->).
  assert (∀ key, key ∈ beam_keys → wxrops w' !! key = wxrops w1 !! key) as Hlater.
  { intros key Hkey.
    assert ((key ∉ model_keys) ∧ (key ∉ limit_keys) ∧ (key ∉ detector_keys) ∧
            (key ∉ geometry_keys))
      as (Hm & Hl & Hd & Hg).
    { unfold beam_keys in Hkey.
      repeat (apply elem_of_cons in Hkey as [->|Hkey]); [..|by apply elem_of_nil in Hkey];
        split_and!; by apply (bool_decide_unpack _). }
    rewrite (stage_keeps _ model_keys key _ _ _ (export_models_footprint options) Hm Hmodels).
    rewrite (stage_keeps _ limit_keys key _ _ _ (export_limits_footprint options) Hl Hlimits).
    rewrite (stage_keeps _ detector_keys key _ _ _ (export_detectors_footprint options) Hd
               Hdetectors).
    by rewrite (stage_keeps _ geometry_keys key _ _ _ (export_geometry_footprint options) Hg
                  Hgeometry). }
  rewrite !Hlater by (by apply (bool_decide_unpack _)).
  unfold _Exporter_export_beam in Hbeam. rewrite Hclass in Hbeam. simpl in Hbeam.
  rewrite _beam_gaussian_run in Hbeam. injection Hbeam as <-.
  cbn [wxrops]. unfold store, beam_entries. simpl.
  split_and!; by repeat (rewrite lookup_insert_eq || rewrite lookup_insert_ne by done).
Qed.


(** *** Geometry *)

(** [min] returns one of the items. *)
Lemma py_min_elem (xs : list num) m : py_min xs = Some m → m ∈ xs.
Proof.
  destruct xs as [|x xs]; [discriminate|]. intros [= <-].
  revert x. induction xs as [|y xs IH]; intros x; simpl; [left|].
  destruct (py_lt y x).
  - right. apply IH.
  - specialize (IH x). apply elem_of_cons in IH as [->|Hin]; [left | by do 2 right].
Qed.

Lemma fold_min_lower (all : list num) :
  (∀ x y z, x ∈ all → y ∈ all → z ∈ all →
     py_lt x y = true → py_lt y z = true → py_lt x z = true) →
  (∀ x, x ∈ all → py_lt x x = false) →
  ∀ rest acc seen,
    acc ∈ all → (∀ y, y ∈ seen → y ∈ all) → (∀ y, y ∈ rest → y ∈ all) →
    (∀ y, y ∈ seen → py_lt y acc = false) →
    ∀ y, y ∈ (seen ++ rest)%list →
      py_lt y (fold_left (λ m y, if py_lt y m then y else m) rest acc) = false.
Proof.
  intros Htrans Hirr rest.
  induction rest as [|y rest IH]; intros acc seen Hacc Hseen Hrest Hlow z Hz.
  - rewrite app_nil_r in Hz. by apply Hlow.
  - simpl. apply (IH _ (seen ++ [y])%list).
    + destruct (py_lt y acc); [apply Hrest; left | done].
    + intros u [Hu | ->%list_elem_of_singleton]%elem_of_app; [by apply Hseen | apply Hrest; left].
    + intros u Hu. apply Hrest. by right.
    + intros u [Hu | ->%list_elem_of_singleton]%elem_of_app.
      * destruct (py_lt y acc) eqn:Hy; [|by apply Hlow].
        destruct (py_lt u y) eqn:Hu'; [|done].
        rewrite <- (Hlow u Hu). symmetry.
        apply (Htrans u y acc); [by apply Hseen | apply Hrest; left | done..].
      * destruct (py_lt y acc) eqn:Hy; [apply Hirr, Hrest; left | done].
    + by rewrite <- app_assoc.
Qed.

(** Where [<] orders the items, no item is smaller than the one [min]
    returns. *)
Lemma py_min_lower (xs : list num) m :
  (∀ x y z, x ∈ xs → y ∈ xs → z ∈ xs →
     py_lt x y = true → py_lt y z = true → py_lt x z = true) →
  (∀ x, x ∈ xs → py_lt x x = false) →
  py_min xs = Some m → ∀ x, x ∈ xs → py_lt x m = false.
Proof.
  intros Htrans Hirr Hmin x Hx.
  destruct xs as [|x0 xs]; [discriminate|]. injection Hmin as <-.
  apply (fold_min_lower (x0 :: xs) Htrans Hirr xs x0 [x0]).
  - left.
  - intros y ->%list_elem_of_singleton. left.
  - intros y Hy. by right.
  - intros y ->%list_elem_of_singleton. apply Hirr. left.
  - done.
Qed.

(** X9. For a substrate, the record holds as elements the atomic numbers of
    the composition of the material of the body and, in the same order, their
    weight fractions, and nothing else; and as minimum electron energy the
    absorption energy for electrons of one of the materials of the geometry:
    where [<] orders these energies, none of them is smaller. *)
Theorem substrate_elements_and_minimum_energy (options : Options num)
    (dirpath : option string) (w w' : world num) (wxrops_ : OptionsFile num) :
  export_wxroptions OptionsFile_new options dirpath w = Ok (wxrops_, w') →
  geometry_class (geometry options) = Substrate →
  let energies :=
    (λ mat, absorption_energy_eV mat ELECTRON) <$> get_materials (geometry options) in
  wxrops_ !! "Elements" =
    Some (VElements (fst <$> composition (material (body (geometry options))))
                    (snd <$> composition (material (body (geometry options))))) ∧
  ∃ abs_electron_eV,
    wxrops_ !! "MinimumElectronEnergy_eV" = Some (VNum abs_electron_eV) ∧
    abs_electron_eV ∈ energies ∧
    ((∀ x y z, x ∈ energies → y ∈ energies → z ∈ energies →
        py_lt x y = true → py_lt y z = true → py_lt x z = true) →
     (∀ x, x ∈ energies → py_lt x x = false) →
     ∀ x, x ∈ energies → py_lt x abs_electron_eV = false).
Proof.
  intros Hexport Hclass energies.
  apply export_wxroptions_chain in Hexport
    as (w1 & w2 & w3 & w4 & Hbeam & Hgeometry & Hdetectors & Hlimits & Hmodels & ->).
  assert (∀ key, key ∈ geometry_keys → wxrops w' !! key = wxrops w2 !! key) as Hlater.
  { intros key Hkey.
    assert ((key ∉ model_keys) ∧ (key ∉ limit_keys) ∧ (key ∉ detector_keys))
      as (Hm & Hl & Hd).
    { unfold geometry_keys in Hkey.
      repeat (apply elem_of_cons in Hkey as [->|Hkey]); [..|by apply elem_of_nil in Hkey];
        split_and!; by apply (bool_decide_unpack _). }
    rewrite (stage_keeps _ model_keys key _ _ _ (export_models_footprint options) Hm Hmodels).
    rewrite (stage_keeps _ limit_keys key _ _ _ (export_limits_footprint options) Hl Hlimits).
    by rewrite (stage_keeps _ detector_keys key _ _ _ (export_detectors_footprint options) Hd
                  Hdetectors). }
  rewrite !Hlater by (by apply (bool_decide_unpack _)).
  unfold _Exporter_export_geometry in Hgeometry. rewrite Hclass in Hgeometry.
  simpl in Hgeometry. rewrite _geometry_substrate_run in Hgeometry.
  unfold min_absorption_energy in Hgeometry. fold energies in Hgeometry.
  destruct (py_min energies) as [abs_electron_eV|] eqn:Hmin; [|discriminate].
  injection Hgeometry as <-. cbn [wxrops]. unfold store, geometry_entries. simpl. split.
  - by rewrite lookup_insert_ne, lookup_insert_eq.
  - exists abs_electron_eV. rewrite lookup_insert_eq. split_and!; [done| |].
    + by apply py_min_elem.
    + intros Htrans Hirr. by apply py_min_lower.
Qed.

(** *** Warnings *)

Lemma export_limits_warned (options : Options num) l :
  preserves (λ w, warned w = l) (_Exporter_export_limits _limit_exporters options).
Proof.
  unfold _Exporter_export_limits. apply preserves_for_each. intros [] _; simpl; frame.
Qed.

Lemma export_models_warned (options : Options num) l :
  preserves (λ w, warned w = l) (_Exporter_export_models _model_exporters options).
Proof.
  unfold _Exporter_export_models. apply preserves_for_each. intros [[] a] _; simpl;
    unfold _model_elastic_cross_section, _model_ionization_cross_section,
      _model_ionization_potential, _model_random_number_generator,
      _model_direction_cosine, _model_energy_loss,
      _model_mass_absorption_coefficient; frame.
Qed.

Lemma _export_detectors_warned (options : Options num) l :
  preserves (λ w, warned w = l) (_export_detectors options).
Proof.
  intros w [] w' Hrun <-.
  destruct (_export_detectors_run options w) as (w1 & _ & Hwarned & _ & Hrun').
  rewrite Hrun' in Hrun. destruct (_ && _); [discriminate|]. injection Hrun as <-.
  by destruct (iterclass_delimited (detectors options)).
Qed.

(** The warnings of an export that returns: those of the beam, then those of
    the geometry. *)
Lemma export_wxroptions_warned (options : Options num) dirpath w wxrops_ w' :
  export_wxroptions OptionsFile_new options dirpath w = Ok (wxrops_, w') →
  warned w' =
    (warned w ++
     match beam_class (beam options) with
     | GaussianBeam =>
         if origin_nonzero (beam options)
         then [ExporterWarning "No beam position in WinX-Ray"] else []
     | _ => []
     end ++
     match geometry_class (geometry options) with
     | Substrate => geometry_warnings options
     | _ => []
     end)%list.
Proof.
  intros Hexport.
  apply export_wxroptions_chain in Hexport
    as (w1 & w2 & w3 & w4 & Hbeam & Hgeometry & Hdetectors & Hlimits & Hmodels & _).
  rewrite (export_models_warned options _ _ _ _ Hmodels eq_refl).
  rewrite (export_limits_warned options _ _ _ _ Hlimits eq_refl).
  rewrite (_export_detectors_warned options _ _ _ _ Hdetectors eq_refl).
  assert (warned w1 =
            (warned w ++
             match beam_class (beam options) with
             | GaussianBeam =>
                 if origin_nonzero (beam options)
                 then [ExporterWarning "No beam position in WinX-Ray"] else []
             | _ => []
             end)%list) as Hw1.
  { unfold _Exporter_export_beam, _beam_exporters in Hbeam.
    destruct (beam_class (beam options)).
    - rewrite _beam_gaussian_run in Hbeam. by injection Hbeam as <-.
    - injection Hbeam as <-. by rewrite app_nil_r.
    - injection Hbeam as <-. by rewrite app_nil_r. }
  unfold _Exporter_export_geometry, _geometry_exporters in Hgeometry.
  destruct (geometry_class (geometry options)).
  - rewrite _geometry_substrate_run in Hgeometry.
    destruct (min_absorption_energy options); [|discriminate].
    injection Hgeometry as <-. cbn [warned]. by rewrite Hw1, <- app_assoc.
  - injection Hgeometry as <-. by rewrite Hw1, app_nil_r.
Qed.

(** X10. The warnings of an export that returns are those issued before it
    and no others than: the beam position warning, exactly for a Gaussian beam
    whose origin is not zero; and for a substrate the density warning, the tilt
    warning exactly when the tilt is not zero, and the rotation warning exactly
    when the rotation is not zero.  Detectors, limits and models issue no
    warning. *)
Theorem warnings_issued (options : Options num) (dirpath : option string)
    (w w' : world num) (wxrops_ : OptionsFile num) (x : Warning) :
  export_wxroptions OptionsFile_new options dirpath w = Ok (wxrops_, w') →
  x ∈ warned w' ↔
    x ∈ warned w ∨
    (beam_class (beam options) = GaussianBeam ∧ origin_nonzero (beam options) = true ∧
     x = ExporterWarning "No beam position in WinX-Ray") ∨
    (geometry_class (geometry options) = Substrate ∧
     (x = ExporterWarning "WinXRay does not support user defined density" ∨
      (py_eq (tilt_rad (geometry options)) (py_float 0) = false ∧
       x = ExporterWarning "WinXRay does not support sample tilt. Use beam tilt instead.") ∨
      (py_eq (rotation_rad (geometry options)) (py_float 0) = false ∧
       x = ExporterWarning "WinXRay does not support sample rotation."))).
Proof.
  intros Hexport. rewrite (export_wxroptions_warned options dirpath w wxrops_ w' Hexport).
  rewrite !elem_of_app.
  assert (x ∈ match beam_class (beam options) with
              | GaussianBeam =>
                  if origin_nonzero (beam options)
                  then [ExporterWarning "No beam position in WinX-Ray"] else []
              | _ => []
              end ↔
          beam_class (beam options) = GaussianBeam ∧ origin_nonzero (beam options) = true ∧
          x = ExporterWarning "No beam position in WinX-Ray") as ->.
  { destruct (beam_class (beam options));
      [|split; [by intros ?%elem_of_nil | by intros [? _]]..].
    destruct (origin_nonzero (beam options)).
    - rewrite list_elem_of_singleton. tauto.
    - split; [by intros ?%elem_of_nil | by intros (_ & ? & _)]. }
  assert (x ∈ match geometry_class (geometry options) with
              | Substrate => geometry_warnings options
              | _ => []
              end ↔
          geometry_class (geometry options) = Substrate ∧
          (x = ExporterWarning "WinXRay does not support user defined density" ∨
           (py_eq (tilt_rad (geometry options)) (py_float 0) = false ∧
            x = ExporterWarning "WinXRay does not support sample tilt. Use beam tilt instead.") ∨
           (py_eq (rotation_rad (geometry options)) (py_float 0) = false ∧
            x = ExporterWarning "WinXRay does not support sample rotation."))) as ->; [|done].
  destruct (geometry_class (geometry options));
    [|split; [by intros ?%elem_of_nil | by intros [? _]]].
  unfold geometry_warnings. rewrite !elem_of_app, list_elem_of_singleton.
  destruct (py_eq (tilt_rad (geometry options)) (py_float 0));
    destruct (py_eq (rotation_rad (geometry options)) (py_float 0)); simpl;
    rewrite ?list_elem_of_singleton, ?elem_of_nil; intuition discriminate.
Qed.


(** *** Limits *)

Lemma export_limits_last (options : Options num) (lims : list (Limit num)) w w' :
  for_each (λ limit,
      match _limit_exporters limit with
      | Some method => method options limit
      | None => mret tt
      end) lims w = Ok (tt, w') →
  wxrops w' !! "NbElectron" =
    match last (omap showers_of lims) with
    | Some showers => Some (VInt showers)
    | None => wxrops w !! "NbElectron"
    end.
Proof.
  revert w. induction lims as [|limit lims IH]; intros w Hrun; simpl in Hrun.
  - by injection Hrun as <-.
  - apply bind_Ok in Hrun as ([] & w1 & Hlimit & Hrest).
    rewrite (IH w1 Hrest). destruct limit as [showers| |]; simpl in *.
    + injection Hlimit as <-. rewrite last_cons.
      destruct (last _); [done|]. cbn [wxrops]. by rewrite lookup_insert_eq.
    + by injection Hlimit as <-.
    + by injection Hlimit as <-.
Qed.

(** X11. The number of electrons in the record of an export is the showers of
    the last showers limit of the options; without a showers limit the entry
    is as [OptionsFile()] made it. *)
Theorem showers_limit_last_or_untouched (options : Options num) (dirpath : option string)
    (w w' : world num) (wxrops_ : OptionsFile num) :
  export_wxroptions OptionsFile_new options dirpath w = Ok (wxrops_, w') →
  wxrops_ !! "NbElectron" =
    match last (omap showers_of (limits options)) with
    | Some showers => Some (VInt showers)
    | None => OptionsFile_new !! "NbElectron"
    end.
Proof.
  intros Hexport.
  apply export_wxroptions_chain in Hexport
    as (w1 & w2 & w3 & w4 & Hbeam & Hgeometry & Hdetectors & Hlimits & Hmodels & ->).
  rewrite (stage_keeps _ model_keys "NbElectron" _ _ _ (export_models_footprint options))
    by (by apply (bool_decide_unpack _) || exact Hmodels).
  rewrite (export_limits_last options _ _ _ Hlimits).
  destruct (last _); [done|].
  rewrite (stage_keeps _ detector_keys "NbElectron" _ _ _ (export_detectors_footprint options))
    by (by apply (bool_decide_unpack _) || exact Hdetectors).
  rewrite (stage_keeps _ geometry_keys "NbElectron" _ _ _ (export_geometry_footprint options))
    by (by apply (bool_decide_unpack _) || exact Hgeometry).
  rewrite (stage_keeps _ beam_keys "NbElectron" _ _ _ (export_beam_footprint options))
    by (by apply (bool_decide_unpack _) || exact Hbeam).
  apply initial_world_lookup. by apply (bool_decide_unpack _).
Qed.


(** *** Models *)

(** After a loop, what the body establishes for one item and keeps for the
    others. *)
Lemma for_each_establishes {A} `{EqDecision A} (P : world num → Prop)
    (body : A → M num unit) (xs : list A) (x : A) :
  establishes P (body x) →
  (∀ y, y ∈ xs → y ≠ x → preserves P (body y)) →
  ∀ w w', for_each body xs w = Ok (tt, w') → x ∈ xs ∨ P w → P w'.
Proof.
  intros Hx. induction xs as [|y xs IH]; intros Hother w w' Hrun Hin; simpl in Hrun.
  - injection Hrun as <-. destruct Hin as [Hin|HP]; [by apply elem_of_nil in Hin | done].
  - apply bind_Ok in Hrun as ([] & w1 & Hy & Hrest).
    apply (IH (λ z Hz, Hother z (proj2 (elem_of_cons _ _ _) (or_intror Hz))) w1 w' Hrest).
    destruct (decide (y = x)) as [->|Hne]; [right; by eapply Hx|].
    destruct Hin as [[->|Hin]%elem_of_cons|HP]; [done | by left | right].
    eapply (Hother y); [left | done | done | done].
Qed.

Lemma export_model_establishes (options : Options num) (model : Model) :
  establishes (λ w, holds_model model (wxrops w))
    (match _model_exporters (type model) with
     | Some method => method options model
     | None => mret tt
     end).
Proof.
  intros w [] w'. unfold holds_model, selects.
  destruct model as [t a]. cbn [type].
  destruct t; unfold _model_exporters; [..|done];
    unfold _model_elastic_cross_section, _model_ionization_cross_section,
      _model_ionization_potential, _model_random_number_generator,
      _model_direction_cosine, _model_energy_loss,
      _model_mass_absorption_coefficient, getitem, mbind, M_bind;
    match goal with
    | |- context [match ?x with Some _ => mret _ | None => _ end] =>
        destruct x as [c|]; [|discriminate]
    end;
    intros [= <-]; exists c; cbn [wxrops]; by rewrite lookup_insert_eq.
Qed.

Lemma export_model_preserves (options : Options num) (model other : Model) :
  type other ≠ type model →
  preserves (λ w, holds_model model (wxrops w))
    (match _model_exporters (type other) with
     | Some method => method options other
     | None => mret tt
     end).
Proof.
  unfold holds_model. destruct model as [t a], other as [t' a']. cbn [type]. intros Hne.
  destruct t; [..|by intros ? ? ? _ _];
    destruct t'; try (exfalso; by apply Hne);
    unfold _model_exporters; try apply preserves_ret;
    unfold _model_elastic_cross_section, _model_ionization_cross_section,
      _model_ionization_potential, _model_random_number_generator,
      _model_direction_cosine, _model_energy_loss,
      _model_mass_absorption_coefficient;
    (apply preserves_bind; [apply preserves_getitem|]; intros c;
     apply preserves_setopt; intros w0 (c0 & Hc0 & Hlookup); exists c0;
     split; [exact Hc0|]; cbn [wxrops]; by rewrite lookup_insert_ne).
Qed.

(** X12. The record of an export that returns holds the selected models: for
    a selected model that is the only one of its model type, the entry of the
    type is the constant the dictionary of the method gives for this model. *)
Theorem selected_model_in_record (options : Options num) (dirpath : option string)
    (w w' : world num) (wxrops_ : OptionsFile num) (model : Model) :
  export_wxroptions OptionsFile_new options dirpath w = Ok (wxrops_, w') →
  model ∈ models options →
  (∀ other, other ∈ models options → type other = type model → other = model) →
  holds_model model wxrops_.
Proof.
  intros Hexport Hin Hunique.
  apply export_wxroptions_chain in Hexport
    as (w1 & w2 & w3 & w4 & _ & _ & _ & _ & Hmodels & ->).
  unfold _Exporter_export_models in Hmodels.
  eapply (for_each_establishes (λ w, holds_model model (wxrops w)) _ (models options) model);
    [| |exact Hmodels|by left].
  - apply export_model_establishes.
  - intros other Hother Hne. apply export_model_preserves.
    intros Htype. by apply Hne, Hunique.
Qed.


(** *** The parameters of the detectors *)

(** An entry after some writes: the last value written under its key, or
    what it was. *)
Lemma store_lookup (kvs : list (string * value num)) (file : OptionsFile num) key :
  store kvs file !! key =
    match last_written key kvs with
    | Some v => Some v
    | None => file !! key
    end.
Proof.
  revert file. induction kvs as [|kv kvs IH]; intros file; [done|].
  change (store (kv :: kvs) file) with (store kvs (<[kv.1 := kv.2]> file)).
  rewrite IH. unfold last_written. rewrite filter_cons.
  destruct (decide (kv.1 = key)) as [Heq|Hne].
  - rewrite last_cons. destruct (last (filter _ kvs)); simpl; [done|].
    by rewrite <- Heq, lookup_insert_eq.
  - destruct (last (filter _ kvs)); simpl; [done|]. by rewrite lookup_insert_ne.
Qed.

Lemma store_lookup_ext (kvs : list (string * value num)) (file1 file2 : OptionsFile num) key :
  file1 !! key = file2 !! key → store kvs file1 !! key = store kvs file2 !! key.
Proof. intros Heq. rewrite !store_lookup. by destruct (last_written key kvs). Qed.

(** The method of a detector leaves the parameter entries as its parameters
    written one by one do. *)
Lemma export_detector_parameters (options : Options num) item w w' key :
  export_detector options item w = Ok (tt, w') → key ∈ parameter_keys →
  wxrops w' !! key = store (detector_parameters options item.2) (wxrops w) !! key.
Proof.
  intros Hrun Hkey. revert Hrun. destruct item as [name det].
  unfold export_detector, detector_parameters. cbn [fst snd].
  destruct det as [c|c|delim c|delim|delim c| | |clasz delim]; unfold _detector_exporters;
    unfold _detector_backscattered_electron_energy,
      _detector_backscattered_electron_polar_angular, _detector_photondetector,
      _detector_photon_intensity, _detector_photon_spectrum,
      _detector_electron_fraction, _detector_time,
      mbind, M_bind, setopt, channels, mret, M_ret; cbv zeta;
    repeat match goal with
           | |- context [py_lt ?a ?b] => destruct (py_lt a b)
           end;
    intros [= <-]; cbn [wxrops]; unfold store; cbn [foldl fst snd];
    unfold parameter_keys in Hkey;
    repeat (apply elem_of_cons in Hkey as [->|Hkey]);
    first [by apply elem_of_nil in Hkey
          | by repeat (rewrite lookup_insert_eq || rewrite lookup_insert_ne by done)].
Qed.

Lemma export_detectors_parameters (options : Options num) dets w w' key :
  for_each (export_detector options) dets w = Ok (tt, w') → key ∈ parameter_keys →
  wxrops w' !! key =
    store (item ← dets; detector_parameters options item.2) (wxrops w) !! key.
Proof.
  intros Hrun Hkey. revert w Hrun.
  induction dets as [|item dets IH]; intros w Hrun; simpl in Hrun.
  - by injection Hrun as <-.
  - apply bind_Ok in Hrun as ([] & w1 & Hitem & Hrest).
    rewrite (IH w1 Hrest), bind_cons. unfold store at 2. rewrite foldl_app.
    apply store_lookup_ext. by apply export_detector_parameters.
Qed.

(** The steps of [_export_detectors]: the flags are cleared, the detectors
    exported, the openings checked and the position stored. *)
Lemma _export_detectors_steps (options : Options num) w :
  let dets := iterclass_delimited (detectors options) in
  ∃ w1,
    for_each (export_detector options) (detectors options)
      (World (store ((λ flag, (flag, VBool false)) <$> compute_flags) (wxrops w))
         (warned w) (files w)) = Ok (tt, w1) ∧
    _export_detectors options w =
      if (2 <=? length dets)%nat && negb (same_openings dets)
      then Raise opening_conflict
      else Ok (tt, match dets with
                   | [] => w1
                   | det0 :: _ =>
                       World (store (detector_position det0) (wxrops w1))
                         (warned w1) (files w1)
                   end).
Proof.
  intros dets.
  set (w0 := World (store ((λ flag, (flag, VBool false)) <$> compute_flags) (wxrops w))
               (warned w) (files w)).
  destruct (total_for_each (export_detector options) (detectors options)
              (λ item _, export_detector_total options item) w0) as ([] & w1 & Hloop).
  exists w1. split; [exact Hloop|].
  unfold _export_detectors.
  do 21 (erewrite bind_eq; [|reflexivity]; cbn [wxrops warned files]).
  unfold _Exporter_export_detectors. fold (export_detector options).
  erewrite bind_eq; [|exact Hloop]. fold dets. fold (same_openings dets).
  destruct (2 <=? length dets)%nat; simpl.
  - destruct (same_openings dets); simpl; [|done].
    by destruct dets.
  - by destruct dets.
Qed.

Lemma _export_detectors_parameters (options : Options num) w w' key :
  _export_detectors options w = Ok (tt, w') → key ∈ parameter_keys →
  wxrops w' !! key =
    store (item ← detectors options; detector_parameters options item.2) (wxrops w) !! key.
Proof.
  intros Hrun Hkey.
  destruct (_export_detectors_steps options w) as (w1 & Hloop & Hrun').
  rewrite Hrun' in Hrun. destruct (_ && _); [discriminate|]. injection Hrun as <-.
  assert ((key ∉ compute_flags) ∧
          ∀ det0 (file : OptionsFile num),
            store (detector_position det0) file !! key = file !! key) as [Hflag Hposition].
  { unfold parameter_keys in Hkey.
    repeat (apply elem_of_cons in Hkey as [->|Hkey]); [..|by apply elem_of_nil in Hkey];
      (split; [by apply (bool_decide_unpack _)|]); intros det0 file;
      unfold store, detector_position; cbn [foldl fst snd]; by rewrite !lookup_insert_ne. }
  transitivity (wxrops w1 !! key).
  { destruct (iterclass_delimited (detectors options)); [done|]. apply Hposition. }
  rewrite (export_detectors_parameters options _ _ _ key Hloop Hkey).
  apply store_lookup_ext. cbn [wxrops]. rewrite store_same_lookup.
  by rewrite decide_False.
Qed.

(** X13. The parameters of the detectors ([NbBSEEnergy], [NbBSEAngular],
    [NumberFilm], [TypeEVChannel], [NumberChannel]): the record of an export
    holds, for each, the value written by the last detector of the options
    whose method writes it, and the value of [OptionsFile()] when no detector
    does. *)
Theorem detector_parameters_last_wins (options : Options num) (dirpath : option string)
    (w w' : world num) (wxrops_ : OptionsFile num) (key : string) :
  export_wxroptions OptionsFile_new options dirpath w = Ok (wxrops_, w') →
  key ∈ parameter_keys →
  wxrops_ !! key =
    match last_written key (item ← detectors options; detector_parameters options item.2) with
    | Some v => Some v
    | None => OptionsFile_new !! key
    end.
Proof.
  intros Hexport Hkey.
  assert ((key ∉ model_keys) ∧ (key ∉ limit_keys) ∧ (key ∉ geometry_keys) ∧
          (key ∉ beam_keys) ∧ (key ∉ ["ResultsPath"; "SaveFile"]))
    as (Hm & Hl & Hg & Hb & Hi).
  { unfold parameter_keys in Hkey.
    repeat (apply elem_of_cons in Hkey as [->|Hkey]); [..|by apply elem_of_nil in Hkey];
      split_and!; by apply (bool_decide_unpack _). }
  apply export_wxroptions_chain in Hexport
    as (w1 & w2 & w3 & w4 & Hbeam & Hgeometry & Hdetectors & Hlimits & Hmodels & ->).
  rewrite (stage_keeps _ model_keys key _ _ _ (export_models_footprint options) Hm Hmodels).
  rewrite (stage_keeps _ limit_keys key _ _ _ (export_limits_footprint options) Hl Hlimits).
  rewrite (_export_detectors_parameters options w2 w3 key Hdetectors Hkey), store_lookup.
  destruct (last_written _ _); [done|].
  rewrite (stage_keeps _ geometry_keys key _ _ _ (export_geometry_footprint options) Hg
             Hgeometry).
  rewrite (stage_keeps _ beam_keys key _ _ _ (export_beam_footprint options) Hb Hbeam).
  by apply initial_world_lookup.
Qed.

End Entries.

(** *** Runs that only write the options file *)

Section Alike.
Context `{PyNumber num}.
Variable R : relation (OptionsFile num).

Lemma alike_ret {A} (a : A) : alike R (mret a).
Proof. intros w1 w2 HR. by split. Qed.

Lemma alike_raise {A} e : alike R (raise (A:=A) e).
Proof. by intros w1 w2 HR. Qed.

Lemma alike_setopt key v : kept_by_setters R → alike R (setopt key v).
Proof. intros Hkept w1 w2 HR. split; [done|]. by apply Hkept. Qed.

Lemma alike_warn message : alike R (warn message).
Proof. intros w1 w2 HR. by split. Qed.

Lemma alike_bind {A B} (m : M num A) (f : A → M num B) :
  alike R m → (∀ a, alike R (f a)) → alike R (m ≫= f).
Proof.
  intros Hm Hf w1 w2 HR. specialize (Hm w1 w2 HR). unfold mbind, M_bind.
  destruct (m w1) as [[a1 w1']|e1], (m w2) as [[a2 w2']|e2]; try done.
  destruct Hm as [-> HR']. by apply Hf.
Qed.

Lemma alike_for_each {A} (body : A → M num unit) xs :
  (∀ x, alike R (body x)) → alike R (for_each body xs).
Proof.
  intros Hbody. induction xs as [|x xs IH]; simpl.
  - apply alike_ret.
  - apply alike_bind; [apply Hbody | intros _; apply IH].
Qed.

Lemma alike_when c (m : M num unit) : alike R m → alike R (when c m).
Proof. destruct c; [done | intros _; apply alike_ret]. Qed.

Lemma alike_getitem {V} (types : gmap Model V) model : alike R (getitem types model).
Proof.
  unfold getitem. destruct (types !! model); [apply alike_ret | apply alike_raise].
Qed.

Lemma alike_channels (detector : Detector num) : alike R (channels detector).
Proof. destruct detector; first [apply alike_ret | apply alike_raise]. Qed.

End Alike.

Ltac alike_step Hkept :=
  lazymatch goal with
  | |- alike _ (mret _) => apply alike_ret
  | |- alike _ (raise _) => apply alike_raise
  | |- alike _ (_ ≫= _) => apply alike_bind; [| intros ?]
  | |- alike _ (for_each _ _) => apply alike_for_each; intros ?
  | |- alike _ (when _ _) => apply alike_when
  | |- alike _ (getitem _ _) => apply alike_getitem
  | |- alike _ (channels _) => apply alike_channels
  | |- alike _ (setopt _ _) => apply alike_setopt; exact Hkept
  | |- alike _ (warn _) => apply alike_warn
  | |- alike _ (match ?x with _ => _ end) => destruct x
  | |- alike _ (let '(_, _) := ?x in _) => destruct x
  end.

Section Independence.
Context `{PyNumber num}.

(** The exporters write the options file and never read it. *)
Lemma export_beam_alike (R : relation (OptionsFile num)) (options : Options num) :
  kept_by_setters R → alike R (_Exporter_export_beam _beam_exporters options).
Proof.
  intros Hkept. unfold _Exporter_export_beam, _beam_exporters.
  destruct (beam_class (beam options)); [|apply alike_ret..].
  unfold _beam_gaussian. cbv zeta. repeat alike_step Hkept.
Qed.

Lemma export_geometry_alike (R : relation (OptionsFile num)) (options : Options num) :
  kept_by_setters R → alike R (_Exporter_export_geometry _geometry_exporters options).
Proof.
  intros Hkept. unfold _Exporter_export_geometry, _geometry_exporters.
  destruct (geometry_class (geometry options)); [|apply alike_ret].
  unfold _geometry_substrate. cbv zeta. repeat alike_step Hkept.
Qed.

Lemma _export_detectors_alike (R : relation (OptionsFile num)) (options : Options num) :
  kept_by_setters R → alike R (_export_detectors options).
Proof.
  intros Hkept. unfold _export_detectors, _Exporter_export_detectors. cbv zeta.
  do 21 (apply alike_bind; [apply alike_setopt; exact Hkept | intros _]).
  apply alike_bind; [|intros _].
  - apply alike_for_each. intros [name []]; simpl;
      unfold _detector_backscattered_electron_energy,
        _detector_backscattered_electron_polar_angular, _detector_photondetector,
        _detector_photon_intensity, _detector_photon_spectrum,
        _detector_electron_fraction, _detector_time; simpl; repeat alike_step Hkept.
  - repeat alike_step Hkept.
Qed.

Lemma export_limits_alike (R : relation (OptionsFile num)) (options : Options num) :
  kept_by_setters R → alike R (_Exporter_export_limits _limit_exporters options).
Proof.
  intros Hkept. unfold _Exporter_export_limits.
  apply alike_for_each. intros []; simpl; repeat alike_step Hkept.
Qed.

Lemma export_models_alike (R : relation (OptionsFile num)) (options : Options num) :
  kept_by_setters R → alike R (_Exporter_export_models _model_exporters options).
Proof.
  intros Hkept. unfold _Exporter_export_models.
  apply alike_for_each. intros [[] a]; simpl;
    unfold _model_elastic_cross_section, _model_ionization_cross_section,
      _model_ionization_potential, _model_random_number_generator,
      _model_direction_cosine, _model_energy_loss,
      _model_mass_absorption_coefficient; repeat alike_step Hkept.
Qed.

Lemma _run_exporters_alike (R : relation (OptionsFile num)) (options : Options num) :
  kept_by_setters R → alike R (_run_exporters options).
Proof.
  intros Hkept. unfold _run_exporters.
  apply alike_bind; [|intros _; apply alike_bind;
    [|intros _; apply alike_bind; [|intros _; apply alike_bind; [|intros _]]]].
  - by apply export_beam_alike.
  - by apply export_geometry_alike.
  - by apply _export_detectors_alike.
  - by apply export_limits_alike.
  - by apply export_models_alike.
Qed.

Variable OptionsFile_new : OptionsFile num.

(** Exports from related options files end alike. *)
Lemma export_wxroptions_alike (R : relation (OptionsFile num)) (options : Options num)
    dirpath1 dirpath2 w1 w2 :
  kept_by_setters R →
  R (wxrops (initial_world OptionsFile_new dirpath1 w1))
    (wxrops (initial_world OptionsFile_new dirpath2 w2)) →
  match export_wxroptions OptionsFile_new options dirpath1 w1,
        export_wxroptions OptionsFile_new options dirpath2 w2 with
  | Ok (wxrops1, _), Ok (wxrops2, _) => R wxrops1 wxrops2
  | Raise e1, Raise e2 => e1 = e2
  | _, _ => False
  end.
Proof.
  intros Hkept HR. rewrite !export_wxroptions_run.
  pose proof (_run_exporters_alike R options Hkept _ _ HR) as Hrun.
  destruct (_run_exporters options (initial_world OptionsFile_new dirpath1 w1))
    as [[[] w1']|e1],
    (_run_exporters options (initial_world OptionsFile_new dirpath2 w2))
    as [[[] w2']|e2]; try done.
  by destruct Hrun.
Qed.

(** X14. The outcome of an export depends on the options, the directory and
    [OptionsFile()] only, not on the state it runs in (what earlier exports
    left in the options file, the warnings issued, the files written): two runs
    raise the same exception or return the same record.  So [_export], run
    again after it returned, returns the same path and leaves the files as
    they are. *)
Theorem export_depends_on_options_only (options : Options num) :
  (∀ dirpath w1 w2,
     match export_wxroptions OptionsFile_new options dirpath w1,
           export_wxroptions OptionsFile_new options dirpath w2 with
     | Ok (wxrops1, _), Ok (wxrops2, _) => wxrops1 = wxrops2
     | Raise e1, Raise e2 => e1 = e2
     | _, _ => False
     end) ∧
  (∀ os_path_join dirpath w filepath w',
     _export OptionsFile_new os_path_join options dirpath w = Ok (filepath, w') →
     ∃ w'', _export OptionsFile_new os_path_join options dirpath w' = Ok (filepath, w'') ∧
       files w'' = files w').
Proof.
  assert (∀ dirpath w1 w2,
     match export_wxroptions OptionsFile_new options dirpath w1,
           export_wxroptions OptionsFile_new options dirpath w2 with
     | Ok (wxrops1, _), Ok (wxrops2, _) => wxrops1 = wxrops2
     | Raise e1, Raise e2 => e1 = e2
     | _, _ => False
     end) as Hsame.
  { intros dirpath w1 w2. apply (export_wxroptions_alike eq); [|done].
    by intros file1 file2 key v ->. }
  split; [exact Hsame|].
  intros os_path_join dirpath w filepath w'. rewrite !_export_run.
  specialize (Hsame (Some dirpath) w w').
  destruct (export_wxroptions OptionsFile_new options (Some dirpath) w)
    as [[wxrops1 w1]|] eqn:Hexport1; [|done].
  destruct (export_wxroptions OptionsFile_new options (Some dirpath) w')
    as [[wxrops2 w2]|] eqn:Hexport2; [|done].
  subst wxrops2. intros [= <- <-].
  apply export_wxroptions_files in Hexport2 as [Hfiles _].
  eexists. split; [reflexivity|]. cbn [files] in *. rewrite Hfiles.
  apply insert_insert_eq.
Qed.

(** X15. The directory only decides the results path: an export without a
    directory and one with a directory raise the same exception, or return
    records that agree on every entry but [ResultsPath]. *)
Theorem results_path_only_difference (options : Options num) (dirpath : string)
    (w1 w2 : world num) :
  match export_wxroptions OptionsFile_new options None w1,
        export_wxroptions OptionsFile_new options (Some dirpath) w2 with
  | Ok (wxrops1, _), Ok (wxrops2, _) =>
      ∀ key, key ≠ "ResultsPath" → wxrops1 !! key = wxrops2 !! key
  | Raise e1, Raise e2 => e1 = e2
  | _, _ => False
  end.
Proof.
  apply (export_wxroptions_alike
           (λ file1 file2, ∀ key, key ≠ "ResultsPath" → file1 !! key = file2 !! key)).
  - intros file1 file2 k v Hsame key Hkey.
    destruct (decide (k = key)) as [->|Hne].
    + by rewrite !lookup_insert_eq.
    + rewrite !lookup_insert_ne by done. by apply Hsame.
  - intros key Hkey. unfold initial_world. cbn [wxrops].
    destruct (decide (key = "SaveFile")) as [->|Hne].
    + by rewrite !lookup_insert_eq.
    + by rewrite !lookup_insert_ne.
Qed.

End Independence.

(** *** Options that agree on what the exporter reads *)

Section SameFields.
Context `{PyNumber num}.

Lemma same_outcome_bind {A B} (m1 m2 : M num A) (f1 f2 : A → M num B) :
  same_outcome m1 m2 → (∀ a, same_outcome (f1 a) (f2 a)) →
  same_outcome (m1 ≫= f1) (m2 ≫= f2).
Proof.
  intros Hm Hf w1 w2 Hw. specialize (Hm w1 w2 Hw). unfold mbind, M_bind.
  destruct (m1 w1) as [[a1 w1']|e1], (m2 w2) as [[a2 w2']|e2]; try done.
  destruct Hm as [-> Hw']. by apply Hf.
Qed.

Lemma same_outcome_ext {A} (m1 m2 m2' : M num A) :
  same_outcome m1 m2 → (∀ w, m2 w = m2' w) → same_outcome m1 m2'.
Proof. intros Hm Hext w1 w2 Hw. rewrite <- Hext. by apply Hm. Qed.

Lemma bind_ext {A B} (m1 m2 : M num A) (f1 f2 : A → M num B) :
  (∀ w, m1 w = m2 w) → (∀ a w, f1 a w = f2 a w) → ∀ w, (m1 ≫= f1) w = (m2 ≫= f2) w.
Proof.
  intros Hm Hf w. unfold mbind, M_bind. rewrite Hm.
  destruct (m2 w) as [[a w']|e]; [apply Hf | done].
Qed.

Lemma for_each_ext {A B} (body1 : A → M num unit) (body2 : B → M num unit) xs ys :
  Forall2 (λ x y, ∀ w, body1 x w = body2 y w) xs ys →
  ∀ w, for_each body1 xs w = for_each body2 ys w.
Proof.
  induction 1 as [|x y xs ys Hxy Hrest IH]; [done|]. simpl.
  apply bind_ext; [exact Hxy | intros _; exact IH].
Qed.

Lemma iterclass_delimited_values (dets : list (string * Detector num)) :
  iterclass_delimited dets = omap delimitation (snd <$> dets).
Proof.
  unfold iterclass_delimited. induction dets as [|[name det] dets IH]; [done|].
  csimpl. by rewrite IH.
Qed.

(** The method of a detector uses neither the name of the detector nor, but
    for the energy of the beam, the options. *)
Lemma export_detector_ext (options1 options2 : Options num) name1 name2 detector w :
  energy_eV (beam options1) = energy_eV (beam options2) →
  export_detector options1 (name1, detector) w = export_detector options2 (name2, detector) w.
Proof.
  intros Henergy. unfold export_detector. cbn [fst snd].
  destruct detector; unfold _detector_exporters; try reflexivity.
  unfold _detector_photon_spectrum. by rewrite Henergy.
Qed.

Lemma _export_detectors_ext (options1 options2 : Options num) :
  energy_eV (beam options1) = energy_eV (beam options2) →
  snd <$> detectors options1 = snd <$> detectors options2 →
  ∀ w, _export_detectors options1 w = _export_detectors options2 w.
Proof.
  intros Henergy Hdetectors. unfold _export_detectors. cbv zeta.
  rewrite !iterclass_delimited_values, Hdetectors.
  do 21 (apply bind_ext; [reflexivity | intros _]).
  apply bind_ext; [|reflexivity].
  unfold _Exporter_export_detectors. fold (export_detector options1).
  fold (export_detector options2). apply for_each_ext.
  revert Hdetectors. generalize (detectors options2).
  induction (detectors options1) as [|[name1 det1] dets1 IH];
    intros [|[name2 det2] dets2]; simpl; intros Heq; try done.
  injection Heq as -> Heq. constructor; [|by apply IH].
  intros w. by apply export_detector_ext.
Qed.

Lemma export_limits_ext (options1 options2 : Options num) :
  limits options1 = limits options2 →
  ∀ w, _Exporter_export_limits _limit_exporters options1 w =
       _Exporter_export_limits _limit_exporters options2 w.
Proof.
  intros Hlimits. unfold _Exporter_export_limits. rewrite Hlimits.
  apply for_each_ext. apply Forall2_same_length_lookup_2; [done|].
  intros i x y Hx Hy w. assert (x = y) as -> by congruence. by destruct y.
Qed.

Lemma export_models_ext (options1 options2 : Options num) :
  models options1 = models options2 →
  ∀ w, _Exporter_export_models _model_exporters options1 w =
       _Exporter_export_models _model_exporters options2 w.
Proof.
  intros Hmodels. unfold _Exporter_export_models. rewrite Hmodels.
  apply for_each_ext. apply Forall2_same_length_lookup_2; [done|].
  intros i x y Hx Hy w. assert (x = y) as -> by congruence.
  by destruct y as [[] a].
Qed.


Lemma eq_kept_by_setters : kept_by_setters (num:=num) eq.
Proof. by intros file1 file2 key v ->. Qed.

(** The beam is read for its class, its energy and its diameter. *)
Lemma export_beam_same_outcome (options1 options2 : Options num) :
  same_exported_fields options1 options2 →
  same_outcome (_Exporter_export_beam _beam_exporters options1)
    (_Exporter_export_beam _beam_exporters options2).
Proof.
  intros (Hclass & Henergy & Hdiameter & _) w1 w2 Hw.
  unfold _Exporter_export_beam, _beam_exporters. rewrite Hclass.
  destruct (beam_class (beam options2)); [|done..].
  rewrite !_beam_gaussian_run. split; [done|]. cbn [wxrops].
  unfold beam_entries. by rewrite Henergy, Hdiameter, Hw.
Qed.

(** The geometry is read for its class, the composition of the material of its
    body and the absorption energies for electrons of its materials. *)
Lemma export_geometry_same_outcome (options1 options2 : Options num) :
  same_exported_fields options1 options2 →
  same_outcome (_Exporter_export_geometry _geometry_exporters options1)
    (_Exporter_export_geometry _geometry_exporters options2).
Proof.
  intros (_ & _ & _ & Hclass & Hcomposition & Habsorption & _) w1 w2 Hw.
  unfold _Exporter_export_geometry, _geometry_exporters. rewrite Hclass.
  destruct (geometry_class (geometry options2)); [|done].
  rewrite !_geometry_substrate_run. unfold min_absorption_energy. rewrite Habsorption.
  destruct (py_min _); [|done]. split; [done|]. cbn [wxrops].
  unfold geometry_entries. by rewrite Hcomposition, Hw.
Qed.

Lemma _run_exporters_same_outcome (options1 options2 : Options num) :
  same_exported_fields options1 options2 →
  same_outcome (_run_exporters options1) (_run_exporters options2).
Proof.
  intros Hsame.
  pose proof Hsame as (_ & Henergy & _ & _ & _ & _ & Hdetectors & Hlimits & Hmodels).
  unfold _run_exporters.
  apply same_outcome_bind; [by apply export_beam_same_outcome | intros _].
  apply same_outcome_bind; [by apply export_geometry_same_outcome | intros _].
  apply same_outcome_bind; [|intros _; apply same_outcome_bind; [|intros _]].
  - apply (same_outcome_ext _ (_export_detectors options1));
      [|by apply _export_detectors_ext].
    apply (_export_detectors_alike eq options1 eq_kept_by_setters).
  - apply (same_outcome_ext _ (_Exporter_export_limits _limit_exporters options1));
      [|by apply export_limits_ext].
    apply (export_limits_alike eq options1 eq_kept_by_setters).
  - apply (same_outcome_ext _ (_Exporter_export_models _model_exporters options1));
      [|by apply export_models_ext].
    apply (export_models_alike eq options1 eq_kept_by_setters).
Qed.

Variable OptionsFile_new : OptionsFile num.

(** X16. The outcome of an export depends on the options only through what
    the exporter reads of them: the class, the energy and the diameter of the
    beam, the class of the geometry, the composition of the material of its
    body, the absorption energies for electrons of its materials, the
    detectors, the limits and the models.  Options that agree on these are
    exported to the same record, or raise the same exception: the name of the
    options, the names of the detectors, the origin of the beam, the tilt and
    the rotation, and the density of the materials make no difference. *)
Theorem record_of_exported_fields (options1 options2 : Options num) :
  same_exported_fields options1 options2 →
  ∀ dirpath w1 w2,
    match export_wxroptions OptionsFile_new options1 dirpath w1,
          export_wxroptions OptionsFile_new options2 dirpath w2 with
    | Ok (wxrops1, _), Ok (wxrops2, _) => wxrops1 = wxrops2
    | Raise e1, Raise e2 => e1 = e2
    | _, _ => False
    end.
Proof.
  intros Hsame dirpath w1 w2. rewrite !export_wxroptions_run.
  pose proof (_run_exporters_same_outcome options1 options2 Hsame
                (initial_world OptionsFile_new dirpath w1)
                (initial_world OptionsFile_new dirpath w2) eq_refl) as Hrun.
  destruct (_run_exporters options1 _) as [[[] w1']|e1],
    (_run_exporters options2 _) as [[[] w2']|e2]; try done.
  by destruct Hrun.
Qed.

End SameFields.

(** ** The further properties on the sample options *)

(** The sample options return from the export when their models have an entry
    and the check of the openings passes. *)
Lemma sample_options_Ok (dets : list (string * Detector float)) (ms : list Model)
    (dirpath : option string) (w : world float) :
  forallb model_has_entry ms = true →
  same_openings (iterclass_delimited dets) = true →
  ∃ wxrops_ w',
    export_wxroptions ∅ (sample_options dets ms) dirpath w = Ok (wxrops_, w').
Proof.
  intros Hmodels Hopenings. apply export_wxroptions_Ok.
  - intros _. discriminate.
  - intros model Hin. rewrite forallb_forall in Hmodels.
    apply Hmodels. by apply list_elem_of_In.
  - by apply same_openings_pairwise.
Qed.

Lemma export_returns_witness :
  records (export_wxroptions ∅ options_unmapped (Some "/tmp") empty_world) = [] ∧
  records (export_wxroptions ∅ options_conflict (Some "/tmp") empty_world) = [].
Proof.
  split.
  - destruct (export_wxroptions ∅ options_unmapped (Some "/tmp") empty_world)
      as [[wxrops_ w']|e] eqn:Hexport; [|reflexivity].
    destruct (proj1 (export_returns_only_if ∅ options_unmapped) (Some "/tmp") empty_world
                wxrops_ w' Hexport) as (_ & _ & Hmodels).
    assert (model_has_entry (Attr ELASTIC_CROSS_SECTION "elsepa2005") = true) as Hentry
      by (apply Hmodels; left).
    vm_compute in Hentry. discriminate Hentry.
  - destruct (export_wxroptions ∅ options_conflict (Some "/tmp") empty_world)
      as [[wxrops_ w']|e] eqn:Hexport; [|reflexivity].
    destruct (proj1 (export_returns_only_if ∅ options_conflict) (Some "/tmp") empty_world
                wxrops_ w' Hexport) as (_ & Hopenings & _).
    assert (equivalent_opening opening_a opening_b = true) as Heq
      by (apply Hopenings; [left | right; left]).
    vm_compute in Heq. discriminate Heq.
Defined.

Lemma results_path_witness :
  ∃ wxrops_ w',
    export_wxroptions ∅ options_same_opening (Some "/tmp") empty_world = Ok (wxrops_, w') ∧
    wxrops_ !! "SaveFile" = Some (VBool true) ∧
    wxrops_ !! "ResultsPath" = Some (VStr "/tmp").
Proof.
  destruct (sample_options_Ok (detectors options_same_opening) (models options_same_opening)
              (Some "/tmp") empty_world eq_refl eq_refl) as (wxrops_ & w' & Hexport).
  exists wxrops_, w'. split; [exact Hexport|].
  exact (proj1 (results_path_and_save_flag ∅ options_same_opening) (Some "/tmp") empty_world
           wxrops_ w' Hexport).
Defined.

Lemma other_entries_witness :
  ∃ wxrops_ w',
    export_wxroptions ∅ options_same_opening (Some "/tmp") empty_world = Ok (wxrops_, w') ∧
    wxrops_ !! "MeanDensity_g_cm3" = None ∧ wxrops_ !! "BeamTheta_deg" = None ∧
    files w' = ∅.
Proof.
  destruct (sample_options_Ok (detectors options_same_opening) (models options_same_opening)
              (Some "/tmp") empty_world eq_refl eq_refl) as (wxrops_ & w' & Hexport).
  exists wxrops_, w'. split; [exact Hexport|].
  destruct (export_leaves_other_entries ∅ options_same_opening (Some "/tmp") empty_world w'
              wxrops_ Hexport) as [Hkeys Hfiles].
  split_and!; [| |exact Hfiles].
  - rewrite Hkeys; [apply lookup_empty | by apply (bool_decide_unpack _)].
  - rewrite Hkeys; [apply lookup_empty | by apply (bool_decide_unpack _)].
Defined.

Lemma compute_flag_witness :
  ∃ wxrops_ w',
    export_wxroptions ∅ options_same_opening (Some "/tmp") empty_world = Ok (wxrops_, w') ∧
    wxrops_ !! "XrayCompute" = Some (VBool true).
Proof.
  destruct (sample_options_Ok (detectors options_same_opening) (models options_same_opening)
              (Some "/tmp") empty_world eq_refl eq_refl) as (wxrops_ & w' & Hexport).
  exists wxrops_, w'. split; [exact Hexport|].
  apply (compute_flag_on_iff ∅ options_same_opening (Some "/tmp") empty_world w' wxrops_
           "XrayCompute" Hexport).
  - by apply (bool_decide_unpack _).
  - exists ("xray", PhotonIntensityDetector opening_a).
    split; [do 2 right; left | by apply (bool_decide_unpack _)].
Defined.

Lemma detector_parameters_witness :
  ∃ wxrops_ w',
    export_wxroptions ∅ options_undelimited (Some "/tmp") empty_world = Ok (wxrops_, w') ∧
    wxrops_ !! "NbBSEEnergy" = Some (VInt 500) ∧ wxrops_ !! "NumberFilm" = None.
Proof.
  destruct (sample_options_Ok (detectors options_undelimited) (models options_undelimited)
              (Some "/tmp") empty_world eq_refl eq_refl) as (wxrops_ & w' & Hexport).
  exists wxrops_, w'. split; [exact Hexport|]. split.
  - rewrite (detector_parameters_last_wins ∅ options_undelimited (Some "/tmp") empty_world
               w' wxrops_ "NbBSEEnergy" Hexport) by (by apply (bool_decide_unpack _)).
    reflexivity.
  - rewrite (detector_parameters_last_wins ∅ options_undelimited (Some "/tmp") empty_world
               w' wxrops_ "NumberFilm" Hexport) by (by apply (bool_decide_unpack _)).
    reflexivity.
Defined.

Lemma first_detector_position_witness :
  ∃ wxrops_ w',
    export_wxroptions ∅ options_same_opening (Some "/tmp") empty_world = Ok (wxrops_, w') ∧
    wxrops_ !! "TOA_deg" = Some (VNum (Binary64.degrees 0.5)) ∧
    wxrops_ !! "SolidAngle_sr" = Some (VNum 0.25%float) ∧
    wxrops_ !! "AnglePhiDetector_deg" = Some (VNum (Binary64.degrees 2.5)).
Proof.
  destruct (sample_options_Ok (detectors options_same_opening) (models options_same_opening)
              (Some "/tmp") empty_world eq_refl eq_refl) as (wxrops_ & w' & Hexport).
  exists wxrops_, w'. split; [exact Hexport|].
  destruct (position_of_first_delimited_detector ∅ options_same_opening (Some "/tmp")
              empty_world w' wxrops_ opening_a [opening_a] Hexport eq_refl)
    as [(Htoa & _ & _ & _ & Hsolid) Hphi].
  split_and!; [exact Htoa | exact Hsolid |].
  rewrite (Hphi opening_a) by left. vm_compute. reflexivity.
Defined.

Lemma no_position_witness :
  ∃ wxrops_ w',
    export_wxroptions ∅ options_undelimited (Some "/tmp") empty_world = Ok (wxrops_, w') ∧
    wxrops_ !! "TOA_deg" = None ∧ wxrops_ !! "UserDefineSolidAngle" = None.
Proof.
  destruct (sample_options_Ok (detectors options_undelimited) (models options_undelimited)
              (Some "/tmp") empty_world eq_refl eq_refl) as (wxrops_ & w' & Hexport).
  exists wxrops_, w'. split; [exact Hexport|].
  destruct (no_delimited_detector_no_position ∅ options_undelimited (Some "/tmp") empty_world
              eq_refl) as [_ Hkeys].
  split.
  - rewrite (Hkeys wxrops_ w' Hexport "TOA_deg") by (by apply (bool_decide_unpack _)).
    apply lookup_empty.
  - rewrite (Hkeys wxrops_ w' Hexport "UserDefineSolidAngle")
      by (by apply (bool_decide_unpack _)).
    apply lookup_empty.
Defined.

Lemma single_energy_witness :
  ∃ wxrops_ w',
    export_wxroptions ∅ options_same_opening (Some "/tmp") empty_world = Ok (wxrops_, w') ∧
    wxrops_ !! "MultiEnergy" = Some (VBool false) ∧
    wxrops_ !! "StartEnergy_keV" = Some (VNum 1.234%float) ∧
    wxrops_ !! "EndEnergy_keV" = Some (VNum 1.234%float) ∧
    wxrops_ !! "NbStepEnergy" = Some (VInt 1).
Proof.
  destruct (sample_options_Ok (detectors options_same_opening) (models options_same_opening)
              (Some "/tmp") empty_world eq_refl eq_refl) as (wxrops_ & w' & Hexport).
  exists wxrops_, w'. split; [exact Hexport|].
  destruct (gaussian_beam_single_energy ∅ options_same_opening (Some "/tmp") empty_world w'
              wxrops_ Hexport eq_refl) as (Hmulti & Hstart & Hend & _ & Hsteps).
  split_and!; [exact Hmulti | exact Hstart | exact Hend | exact Hsteps].
Defined.

Lemma substrate_witness :
  ∃ wxrops_ w',
    export_wxroptions ∅ options_same_opening (Some "/tmp") empty_world = Ok (wxrops_, w') ∧
    wxrops_ !! "Elements" = Some (VElements [29] [1%float]) ∧
    wxrops_ !! "MinimumElectronEnergy_eV" = Some (VNum 50%float).
Proof.
  destruct (sample_options_Ok (detectors options_same_opening) (models options_same_opening)
              (Some "/tmp") empty_world eq_refl eq_refl) as (wxrops_ & w' & Hexport).
  exists wxrops_, w'. split; [exact Hexport|].
  destruct (substrate_elements_and_minimum_energy ∅ options_same_opening (Some "/tmp")
              empty_world w' wxrops_ Hexport eq_refl)
    as [Helements (abs_electron_eV & Hmin & Hin & _)].
  split; [exact Helements|].
  apply list_elem_of_singleton in Hin. by rewrite Hmin, Hin.
Defined.

Lemma warnings_witness :
  ∃ wxrops_ w',
    export_wxroptions ∅ options_same_opening (Some "/tmp") empty_world = Ok (wxrops_, w') ∧
    ExporterWarning "WinXRay does not support sample tilt. Use beam tilt instead." ∈ warned w' ∧
    ExporterWarning "WinXRay does not support sample rotation." ∉ warned w'.
Proof.
  destruct (sample_options_Ok (detectors options_same_opening) (models options_same_opening)
              (Some "/tmp") empty_world eq_refl eq_refl) as (wxrops_ & w' & Hexport).
  exists wxrops_, w'. split; [exact Hexport|]. split.
  - apply (warnings_issued ∅ options_same_opening (Some "/tmp") empty_world w' wxrops_ _
             Hexport).
    right; right. split; [reflexivity|]. right; left. split; reflexivity.
  - intros Hin.
    apply (warnings_issued ∅ options_same_opening (Some "/tmp") empty_world w' wxrops_ _
             Hexport) in Hin
      as [Hin | [(_ & _ & Hx) | (_ & [Hx | [(_ & Hx) | (Hrot & _)]])]].
    + by apply elem_of_nil in Hin.
    + discriminate Hx.
    + discriminate Hx.
    + discriminate Hx.
    + vm_compute in Hrot. discriminate Hrot.
Defined.

Lemma selected_model_witness :
  ∃ wxrops_ w',
    export_wxroptions ∅ options_same_opening (Some "/tmp") empty_world = Ok (wxrops_, w') ∧
    wxrops_ !! "TypeRandomGenerator" =
      Some (VRandomNumberGenerator RandomNumberGenerator.TYPE_RAN1).
Proof.
  destruct (sample_options_Ok (detectors options_same_opening) (models options_same_opening)
              (Some "/tmp") empty_world eq_refl eq_refl) as (wxrops_ & w' & Hexport).
  exists wxrops_, w'. split; [exact Hexport|].
  destruct (selected_model_in_record ∅ options_same_opening (Some "/tmp") empty_world w'
              wxrops_ (Attr RANDOM_NUMBER_GENERATOR "press1966_rand1") Hexport)
    as (c & Hc & Hlookup).
  - left.
  - by intros other ->%list_elem_of_singleton.
  - vm_compute in Hc. injection Hc as <-. exact Hlookup.
Defined.

Lemma showers_limit_witness :
  ∃ wxrops_ w',
    export_wxroptions ∅ options_same_opening (Some "/tmp") empty_world = Ok (wxrops_, w') ∧
    wxrops_ !! "NbElectron" = Some (VInt 5678).
Proof.
  destruct (sample_options_Ok (detectors options_same_opening) (models options_same_opening)
              (Some "/tmp") empty_world eq_refl eq_refl) as (wxrops_ & w' & Hexport).
  exists wxrops_, w'. split; [exact Hexport|].
  exact (showers_limit_last_or_untouched ∅ options_same_opening (Some "/tmp") empty_world w'
           wxrops_ Hexport).
Defined.

Lemma exported_fields_witness :
  ∃ wxrops_ w1 w2,
    export_wxroptions ∅ options_same_opening (Some "/tmp") empty_world = Ok (wxrops_, w1) ∧
    export_wxroptions ∅ options_renamed (Some "/tmp") empty_world = Ok (wxrops_, w2).
Proof.
  destruct (sample_options_Ok (detectors options_same_opening) (models options_same_opening)
              (Some "/tmp") empty_world eq_refl eq_refl) as (wxrops_ & w1 & Hexport).
  assert (same_exported_fields options_same_opening options_renamed) as Hsame
    by (unfold same_exported_fields; split_and!; reflexivity).
  pose proof (record_of_exported_fields ∅ options_same_opening options_renamed Hsame
                (Some "/tmp") empty_world empty_world) as Hrecord.
  change (sample_options (detectors options_same_opening) (models options_same_opening))
    with options_same_opening in Hexport.
  rewrite Hexport in Hrecord.
  destruct (export_wxroptions ∅ options_renamed (Some "/tmp") empty_world)
    as [[wxrops2 w2]|e]; [|done].
  subst wxrops2. exists wxrops_, w1, w2. split; [exact Hexport | reflexivity].
Defined.
